(** * JeVelibererLaData: the ETL import pipeline of [app/etl.py]

    A shallow embedding of the resumable import of Velib snapshot files:
    the filename timestamp parser, the progress record, the extraction of
    the four record batches, their transactional insertion and the driver
    loop, followed by the properties of the pipeline.

    Conventions of the embedding.
    - A Python exception is an explicit result: [None] of an [option], or
      the [Raised] outcome of a call.
    - The relational store is a pair of table sets, the committed one and
      the one seen inside the open transaction of the connection.
    - What the environment decides (a statement refused by the database, a
      write of the progress file that fails, a file that cannot be read) is
      part of the input: a refusal oracle carried by the connection, a
      fault oracle for the progress file, a directory whose reads may
      fail.  Every definition computes.
    - Opening a connection, listing the directory, [rollback] and [close]
      do not fail.  The log file and the progress bar, which nothing reads
      back, are left out.
    - A file is the text read from it, classified by what [json.loads]
      makes of it; JSON texts and filenames are ASCII. *)

From Stdlib Require Import String Ascii List ZArith Bool Lia QArith.
Import ListNotations.

Local Open Scope string_scope.
Local Open Scope Z_scope.

(* ================================================================= *)
(** * Strings as Python uses them *)

Module Py.

(** [s.split(sep)] for a one-character separator: the pieces between the
    separators, the empty ones included; never the empty list. *)
Fixpoint split (sep : ascii) (s : string) : list string :=
  match s with
  | EmptyString => [EmptyString]
  | String c s' =>
      if Ascii.eqb c sep then EmptyString :: split sep s'
      else match split sep s' with
           | [] => [String c EmptyString]
           | t :: ts => String c t :: ts
           end
  end.

(** [s.endswith(suffix)]: [suffix] is what is left of [s] from some
    position on. *)
Fixpoint endswith (s suffix : string) : bool :=
  String.eqb s suffix
  || match s with
     | EmptyString => false
     | String _ s' => endswith s' suffix
     end.

(** The characters of a string, one string per character (what iterating
    over a [str] yields). *)
Fixpoint chars (s : string) : list string :=
  match s with
  | EmptyString => []
  | String c s' => String c EmptyString :: chars s'
  end.

Definition is_digit (c : ascii) : bool :=
  ((48 <=? nat_of_ascii c) && (nat_of_ascii c <=? 57))%nat.

Definition digit_value (c : ascii) : Z := Z.of_nat (nat_of_ascii c) - 48.

(** The value of a run of decimal digits, [None] on any other character. *)
Fixpoint digits_value (acc : Z) (s : string) : option Z :=
  match s with
  | EmptyString => Some acc
  | String c s' =>
      if is_digit c then digits_value (10 * acc + digit_value c) s' else None
  end.

Fixpoint lstrip_space (s : string) : string :=
  match s with
  | String " " s' => lstrip_space s'
  | _ => s
  end.

(** [int(s)] on the texts the timestamp pattern can capture: optional
    leading blanks, then one digit at least.  [None] stands for
    [ValueError]. *)
Definition int (s : string) : option Z :=
  match lstrip_space s with
  | EmptyString => None
  | t => digits_value 0 t
  end.

End Py.

(* ================================================================= *)
(** * [datetime.strptime(s, '%Y%m%d_%H%M%S')]

    The library compiles the format into the regular expression
    [(\d\d\d\d)(1[0-2]|0[1-9]|[1-9])(3[0-1]|[1-2]\d|0[1-9]|[1-9]| [1-9])_
     (2[0-3]|[0-1]\d|\d)([0-5]\d|\d)(6[0-1]|[0-5]\d|\d)],
    takes the first match found by backtracking from the start of the
    text, refuses a match that leaves text unconverted, converts the groups
    with [int] and builds the date, which refuses an impossible calendar
    day and a second above 59.  Filenames are read as ASCII text. *)

Module Strptime.

Definition char_class := ascii -> bool.

Definition between (lo hi : ascii) : char_class :=
  fun c => ((nat_of_ascii lo <=? nat_of_ascii c)
            && (nat_of_ascii c <=? nat_of_ascii hi))%nat.

Definition exactly (x : ascii) : char_class := fun c => Ascii.eqb c x.

Definition digit : char_class := Py.is_digit.

(** One alternative of a group is a sequence of character classes; a group
    is its alternatives in the order the engine tries them. *)
Definition alternative := list char_class.
Definition group := list alternative.

Fixpoint match_seq (cs : alternative) (s : string) : option (string * string) :=
  match cs with
  | [] => Some (EmptyString, s)
  | p :: cs' =>
      match s with
      | String c s' =>
          if p c then
            match match_seq cs' s' with
            | Some (m, r) => Some (String c m, r)
            | None => None
            end
          else None
      | EmptyString => None
      end
  end.

(** The ways a group matches a prefix of [s], best first, each with the
    text left. *)
Definition candidates (g : group) (s : string) : list (string * string) :=
  flat_map (fun a => match match_seq a s with
                     | Some x => [x]
                     | None => []
                     end) g.

Definition first_success {A B : Type} (f : A -> option B) : list A -> option B :=
  fix go (l : list A) : option B :=
    match l with
    | [] => None
    | x :: l' => match f x with
                 | Some y => Some y
                 | None => go l'
                 end
    end.

(** Leftmost-first backtracking over a concatenation of groups: the
    captured texts and the text left after the match. *)
Fixpoint regex_match (gs : list group) (s : string)
  : option (list string * string) :=
  match gs with
  | [] => Some ([], s)
  | g :: gs' =>
      first_success
        (fun mr : string * string =>
           match regex_match gs' (snd mr) with
           | Some (caps, r) => Some (fst mr :: caps, r)
           | None => None
           end)
        (candidates g s)
  end.

Definition re_Y : group := [[digit; digit; digit; digit]].
Definition re_m : group :=
  [[exactly "1"; between "0" "2"]; [exactly "0"; between "1" "9"];
   [between "1" "9"]].
Definition re_d : group :=
  [[exactly "3"; between "0" "1"]; [between "1" "2"; digit];
   [exactly "0"; between "1" "9"]; [between "1" "9"];
   [exactly " "; between "1" "9"]].
Definition re_sep : group := [[exactly "_"]].
Definition re_H : group :=
  [[exactly "2"; between "0" "3"]; [between "0" "1"; digit]; [digit]].
Definition re_M : group := [[between "0" "5"; digit]; [digit]].
Definition re_S : group :=
  [[exactly "6"; between "0" "1"]; [between "0" "5"; digit]; [digit]].

Definition format_regex : list group :=
  [re_Y; re_m; re_d; re_sep; re_H; re_M; re_S].

End Strptime.

(** A naive [datetime.datetime]. *)
Record datetime : Set := mk_datetime {
  year : Z; month : Z; day : Z; hour : Z; minute : Z; second : Z
}.

Definition datetime_eqb (a b : datetime) : bool :=
  (year a =? year b) && (month a =? month b) && (day a =? day b)
  && (hour a =? hour b) && (minute a =? minute b) && (second a =? second b).

Definition is_leap (y : Z) : bool :=
  (y mod 4 =? 0) && (negb (y mod 100 =? 0) || (y mod 400 =? 0)).

Definition days_in_month (y m : Z) : Z :=
  if m =? 2 then (if is_leap y then 29 else 28)
  else if (m =? 4) || (m =? 6) || (m =? 9) || (m =? 11) then 30
  else 31.

(** The checks of the [date] and [datetime] constructors. *)
Definition valid_fields (y m d h mi s : Z) : bool :=
  (1 <=? y) && (y <=? 9999) && (1 <=? m) && (m <=? 12)
  && (1 <=? d) && (d <=? days_in_month y m)
  && (0 <=? h) && (h <=? 23) && (0 <=? mi) && (mi <=? 59)
  && (0 <=? s) && (s <=? 59).

Definition strptime (data_string : string) : option datetime :=
  match Strptime.regex_match Strptime.format_regex data_string with
  | Some ([gY; gm; gd; _; gH; gM; gS], EmptyString) =>
      match Py.int gY, Py.int gm, Py.int gd, Py.int gH, Py.int gM, Py.int gS with
      | Some y, Some m, Some d, Some h, Some mi, Some s =>
          if valid_fields y m d h mi s
          then Some (mk_datetime y m d h mi s) else None
      | _, _, _, _, _, _ => None
      end
  | _ => None
  end.

(** [parse_timestamp_from_filename] (etl.py, l.103-108).  The bare
    [except] turns the [IndexError] of a missing piece and the
    [ValueError] of [strptime] into [None]. *)
Definition parse_timestamp_from_filename (filename : string) : option datetime :=
  let pieces := Py.split "_" filename in
  match nth_error pieces 1, nth_error pieces 2 with
  | Some date_part, Some time_part =>
      strptime (date_part ++ "_" ++ time_part)
  | _, _ => None
  end.

(* ================================================================= *)
(** * JSON values and the Python operations the pipeline applies to them *)

(** What [json.loads] returns: [None], [bool], [int], [float], [str],
    [list] and [dict] (distinct string keys, kept in file order).  A
    finite float is the rational it denotes. *)
#[warnings="-register-all"] Inductive json : Type :=
| JNull
| JBool (b : bool)
| JInt (n : Z)
| JFloat (q : Q)
| JStr (s : string)
| JList (items : list json)
| JObj (fields : list (string * json)).

(** Equality of two values, the way keys are compared. *)
Fixpoint json_eqb (a b : json) : bool :=
  match a, b with
  | JNull, JNull => true
  | JBool x, JBool y => Bool.eqb x y
  | JInt x, JInt y => x =? y
  | JFloat x, JFloat y => Qeq_bool x y
  | JStr x, JStr y => String.eqb x y
  | JList x, JList y =>
      (fix go (l1 l2 : list json) : bool :=
         match l1, l2 with
         | [], [] => true
         | h1 :: t1, h2 :: t2 => json_eqb h1 h2 && go t1 t2
         | _, _ => false
         end) x y
  | JObj x, JObj y =>
      (fix go (l1 l2 : list (string * json)) : bool :=
         match l1, l2 with
         | [], [] => true
         | (k1, v1) :: t1, (k2, v2) :: t2 =>
             String.eqb k1 k2 && json_eqb v1 v2 && go t1 t2
         | _, _ => false
         end) x y
  | _, _ => false
  end.

(** The text of a file, by what [json.loads] makes of it: nothing but
    blanks, text that is no JSON document, or the document of a value. *)
Inductive text : Type :=
| Blank
| Garbled
| Encodes (j : json).

(** [json.loads]; [None] is [JSONDecodeError]. *)
Definition json_loads (content : text) : option json :=
  match content with
  | Encodes j => Some j
  | Blank | Garbled => None
  end.

(** The text [json.dump] writes. *)
Definition json_dump (j : json) : text := Encodes j.

Module Dyn.

Fixpoint assoc (k : string) (kv : list (string * json)) : option json :=
  match kv with
  | [] => None
  | (k', v) :: kv' => if String.eqb k' k then Some v else assoc k kv'
  end.

(** [bool(x)]. *)
Definition truthy (x : json) : bool :=
  match x with
  | JNull => false
  | JBool b => b
  | JInt n => negb (n =? 0)
  | JFloat q => negb (Qnum q =? 0)
  | JStr s => negb (String.eqb s "")
  | JList l => match l with [] => false | _ => true end
  | JObj kv => match kv with [] => false | _ => true end
  end.

(** [x.get(key, default)]: only a dict has the method; [None] is
    [AttributeError]. *)
Definition get (x : json) (key : string) (default : json) : option json :=
  match x with
  | JObj kv => Some (match assoc key kv with Some v => v | None => default end)
  | _ => None
  end.

(** [x[key]] for a string key: [KeyError] on a dict without the key,
    [TypeError] on anything that is not a dict. *)
Definition subscript (x : json) (key : string) : option json :=
  match x with
  | JObj kv => assoc key kv
  | _ => None
  end.

(** What a [for] loop over [x] visits; [None] is [TypeError]. *)
Definition iter (x : json) : option (list json) :=
  match x with
  | JList l => Some l
  | JStr s => Some (map JStr (Py.chars s))
  | JObj kv => Some (map (fun p => JStr (fst p)) kv)
  | _ => None
  end.

Definition hashable (x : json) : bool :=
  match x with
  | JList _ | JObj _ => false
  | _ => true
  end.

(** [set(x)]: the elements (kept as a list), [None] when [x] is not
    iterable or holds an unhashable element. *)
Definition set_of (x : json) : option (list json) :=
  match iter x with
  | Some l => if forallb hashable l then Some l else None
  | None => None
  end.

(** [name in s] for a string [name]: only an equal string is equal to it. *)
Definition str_in (name : string) (s : list json) : bool :=
  existsb (fun x => match x with JStr t => String.eqb t name | _ => false end) s.

Fixpoint assoc_set (k : string) (v : json) (kv : list (string * json))
  : list (string * json) :=
  match kv with
  | [] => []
  | (k', v') :: kv' =>
      if String.eqb k' k then (k', v) :: kv' else (k', v') :: assoc_set k v kv'
  end.

(** [d[key].append(x)], the dict [d] seen after the call; [None] when
    [d[key]] is missing or has no [append]. *)
Definition append_at (d : json) (key : string) (x : json) : option json :=
  match d with
  | JObj kv =>
      match assoc key kv with
      | Some (JList l) => Some (JObj (assoc_set key (JList (l ++ [x])) kv))
      | _ => None
      end
  | _ => None
  end.

End Dyn.

(** Sequencing of steps that may raise. *)
Definition bind {A B : Type} (x : option A) (f : A -> option B) : option B :=
  match x with
  | Some a => f a
  | None => None
  end.

Notation "x <- e ;; k" := (bind e (fun x => k))
  (at level 61, e at next level, right associativity).

Fixpoint foldM {A B : Type} (f : B -> A -> option B) (l : list A) (b : B)
  : option B :=
  match l with
  | [] => Some b
  | x :: l' => b' <- f b x ;; foldM f l' b'
  end.

(* ================================================================= *)
(** * The relational store *)

(** Modelled from the spec: the table declarations are not in the
    repository.  A snapshot is identified by its [timestamp_capture],
    never null, and carries a generated [snapshot_id]. *)
Record snapshot_row : Type := mk_snapshot {
  snap_id : Z; timestamp_capture : datetime
}.

Record station_row : Type := mk_station {
  st_code : json; st_name : json; st_latitude : json; st_longitude : json;
  st_stationtype : json; st_type : json
}.

Record velo_row : Type := mk_velo {
  velo_name : json; bikeelectric : json
}.

Record etat_row : Type := mk_etat {
  es_snapshot_id : Z; es_station_code : json; es_state : json;
  es_nbbike : json; es_nbebike : json; es_nbfreedock : json
}.

Record loc_row : Type := mk_loc {
  lv_snapshot_id : Z; lv_velo_name : json; lv_station_code : json;
  lv_bikestatus : json; lv_dockposition : json
}.

Record Tables : Type := mk_tables {
  snapshot : list snapshot_row;
  station : list station_row;
  velo : list velo_row;
  etat_station : list etat_row;
  localisation_velo : list loc_row
}.

(** Modelled from the spec: the conflict target of [station], its
    natural key [station_code]. *)
Definition same_station (a b : station_row) : bool :=
  json_eqb (st_code a) (st_code b).

(** Modelled from the spec: the conflict target of [velo], its natural
    key [velo_name]. *)
Definition same_velo (a b : velo_row) : bool :=
  json_eqb (velo_name a) (velo_name b).

(** Modelled from the spec: one [etat_station] row per station per
    snapshot, the key (snapshot_id, station_code). *)
Definition same_etat (a b : etat_row) : bool :=
  (es_snapshot_id a =? es_snapshot_id b)
  && json_eqb (es_station_code a) (es_station_code b).

(** Modelled from the spec: one [localisation_velo] row per bike per
    snapshot, the key (snapshot_id, velo_name). *)
Definition same_loc (a b : loc_row) : bool :=
  (lv_snapshot_id a =? lv_snapshot_id b)
  && json_eqb (lv_velo_name a) (lv_velo_name b).

(** [INSERT ... VALUES rows ON CONFLICT DO NOTHING]: the rows in order,
    each kept unless a row with its key is already there. *)
Fixpoint insert_if_absent {R : Type} (same : R -> R -> bool)
  (table rows : list R) : list R :=
  match rows with
  | [] => table
  | r :: rows' =>
      insert_if_absent same
        (if existsb (same r) table then table else table ++ [r]) rows'
  end.

(** A psycopg2 connection with its one cursor: the committed tables, the
    tables as the open transaction sees them, the snapshot sequence, and
    the oracle telling which of the statements issued so far the database
    refuses (the [n]-th one raises when [refuses n]). *)
Record Connection : Type := mk_conn {
  committed : Tables;
  working : Tables;
  next_snapshot_id : Z;
  issued : nat;
  refuses : nat -> bool
}.

Definition tick (c : Connection) : Connection :=
  mk_conn (committed c) (working c) (next_snapshot_id c) (S (issued c))
          (refuses c).

Definition with_working (c : Connection) (t : Tables) : Connection :=
  mk_conn (committed c) t (next_snapshot_id c) (issued c) (refuses c).

(** [connection.rollback()]. *)
Definition rollback (c : Connection) : Connection :=
  with_working c (committed c).

(** What remains of a computation that may raise: its state either way,
    and its value when it returned. *)
Inductive completion (A : Type) : Type :=
| Returned (a : A)
| Raised.
Arguments Returned {A} a.
Arguments Raised {A}.

(** [connection.commit()]; a commit the database refuses raises and
    commits nothing. *)
Definition commit (c : Connection) : Connection * completion unit :=
  if refuses c (issued c) then (tick c, Raised)
  else (mk_conn (working c) (working c) (next_snapshot_id c)
                (S (issued c)) (refuses c), Returned tt).

(** The upsert of [insert_snapshot_and_get_id]: the identifier of the row
    holding the timestamp, a new row numbered by the sequence when there
    is none.  The sequence advances in both cases. *)
Definition upsert_snapshot (timestamp : datetime) (c : Connection)
  : Connection * completion Z :=
  if refuses c (issued c) then (tick c, Raised)
  else
    let t := working c in
    match find (fun r => datetime_eqb (timestamp_capture r) timestamp)
               (snapshot t) with
    | Some r =>
        (mk_conn (committed c) t (next_snapshot_id c + 1) (S (issued c))
                 (refuses c), Returned (snap_id r))
    | None =>
        let id := next_snapshot_id c in
        (mk_conn (committed c)
                 (mk_tables (snapshot t ++ [mk_snapshot id timestamp])
                            (station t) (velo t) (etat_station t)
                            (localisation_velo t))
                 (id + 1) (S (issued c)) (refuses c), Returned id)
    end.

(** [psycopg2.extras.execute_values] sends the rows in pages of
    [page_size] rows (100 unless told otherwise), one statement a page. *)
Definition page_size : nat := 100.

Fixpoint pages {R : Type} (fuel : nat) (rows : list R) : list (list R) :=
  match fuel with
  | O => []
  | S fuel' =>
      match rows with
      | [] => []
      | _ => firstn page_size rows :: pages fuel' (skipn page_size rows)
      end
  end.

Definition paginate {R : Type} (rows : list R) : list (list R) :=
  pages (List.length rows) rows.

Fixpoint execute_pages {R : Type} (apply : Tables -> list R -> Tables)
  (ps : list (list R)) (c : Connection) : Connection * completion unit :=
  match ps with
  | [] => (c, Returned tt)
  | p :: ps' =>
      if refuses c (issued c) then (tick c, Raised)
      else execute_pages apply ps' (with_working (tick c) (apply (working c) p))
  end.

Definition execute_values {R : Type} (apply : Tables -> list R -> Tables)
  (rows : list R) (c : Connection) : Connection * completion unit :=
  execute_pages apply (paginate rows) c.

Definition insert_station (t : Tables) (rows : list station_row) : Tables :=
  mk_tables (snapshot t) (insert_if_absent same_station (station t) rows)
            (velo t) (etat_station t) (localisation_velo t).

Definition insert_velo (t : Tables) (rows : list velo_row) : Tables :=
  mk_tables (snapshot t) (station t)
            (insert_if_absent same_velo (velo t) rows)
            (etat_station t) (localisation_velo t).

Definition insert_etat_station (t : Tables) (rows : list etat_row) : Tables :=
  mk_tables (snapshot t) (station t) (velo t)
            (insert_if_absent same_etat (etat_station t) rows)
            (localisation_velo t).

Definition insert_localisation_velo (t : Tables) (rows : list loc_row)
  : Tables :=
  mk_tables (snapshot t) (station t) (velo t) (etat_station t)
            (insert_if_absent same_loc (localisation_velo t) rows).

(* ================================================================= *)
(** * [process_file_content] (etl.py, l.111-223) *)

(** The [errors] dict of the driver. *)
Record Errors : Type := mk_errors {
  invalid_format : Z; snapshot_error : Z; generic_error : Z
}.

Definition count_invalid_format (e : Errors) : Errors :=
  mk_errors (invalid_format e + 1) (snapshot_error e) (generic_error e).
Definition count_snapshot_error (e : Errors) : Errors :=
  mk_errors (invalid_format e) (snapshot_error e + 1) (generic_error e).
Definition count_generic_error (e : Errors) : Errors :=
  mk_errors (invalid_format e) (snapshot_error e) (generic_error e + 1).

(** [insert_snapshot_and_get_id] (l.111-129): a refused statement is
    rolled back and answered by [None]. *)
Definition insert_snapshot_and_get_id (cursor : Connection)
  (timestamp : datetime) : Connection * option Z :=
  match upsert_snapshot timestamp cursor with
  | (c, Returned id) => (c, Some id)
  | (c, Raised) => (rollback c, None)
  end.

Record Buffers : Type := mk_buffers {
  station_buffer : list station_row;
  velo_buffer : list velo_row;
  etat_station_buffer : list etat_row;
  localisation_velo_buffer : list loc_row
}.

Definition empty_buffers : Buffers := mk_buffers [] [] [] [].

(** The body of the inner loop (l.175-187) for one entry of [bikes]. *)
Definition extract_bike (snapshot_id : Z) (station_code : json)
  (b : Buffers) (bike : json) : option Buffers :=
  name <- Dyn.get bike "bikeName" JNull ;;
  if negb (Dyn.truthy name) then Some b
  else
    electric <- Dyn.get bike "bikeElectric" JNull ;;
    status <- Dyn.get bike "bikeStatus" JNull ;;
    dock <- Dyn.get bike "dockPosition" JNull ;;
    Some (mk_buffers
            (station_buffer b)
            (velo_buffer b ++ [mk_velo name electric])
            (etat_station_buffer b)
            (localisation_velo_buffer b
               ++ [mk_loc snapshot_id name station_code status dock])).

(** The body of the outer loop (l.151-187) for one station observation. *)
Definition extract_station (snapshot_id : Z) (b : Buffers)
  (station_data : json) : option Buffers :=
  station_info <- Dyn.get station_data "station" (JObj []) ;;
  station_code <- Dyn.get station_info "code" JNull ;;
  if negb (Dyn.truthy station_code) then Some b
  else
    name <- Dyn.get station_info "name" JNull ;;
    gps_lat <- Dyn.get station_info "gps" (JObj []) ;;
    latitude <- Dyn.get gps_lat "latitude" JNull ;;
    gps_lon <- Dyn.get station_info "gps" (JObj []) ;;
    longitude <- Dyn.get gps_lon "longitude" JNull ;;
    station_type <- Dyn.get station_info "stationType" JNull ;;
    type <- Dyn.get station_info "type" JNull ;;
    state <- Dyn.get station_data "state" JNull ;;
    nb_bike <- Dyn.get station_data "nbBike" JNull ;;
    nb_ebike <- Dyn.get station_data "nbEbike" JNull ;;
    nb_free_dock <- Dyn.get station_data "nbFreeDock" JNull ;;
    bikes_value <- Dyn.get station_data "bikes" (JList []) ;;
    bikes <- Dyn.iter bikes_value ;;
    foldM (extract_bike snapshot_id station_code) bikes
      (mk_buffers
         (station_buffer b
            ++ [mk_station station_code name latitude longitude
                           station_type type])
         (velo_buffer b)
         (etat_station_buffer b
            ++ [mk_etat snapshot_id station_code state nb_bike nb_ebike
                        nb_free_dock])
         (localisation_velo_buffer b)).

(** The four buffers of a decoded snapshot (l.146-187); [None] when the
    loop raises on an observation of the wrong shape. *)
Definition extract (snapshot_id : Z) (data : list json) : option Buffers :=
  foldM (extract_station snapshot_id) data empty_buffers.

Definition and_then (r : Connection * completion unit)
  (k : Connection -> Connection * completion unit)
  : Connection * completion unit :=
  match r with
  | (c, Returned _) => k c
  | (c, Raised) => (c, Raised)
  end.

Definition when_nonempty {R : Type} (rows : list R)
  (k : Connection -> Connection * completion unit) (c : Connection)
  : Connection * completion unit :=
  match rows with
  | [] => (c, Returned tt)
  | _ => k c
  end.

(** The four inserts and the commit (l.189-218). *)
Definition insert_batches (b : Buffers) (c : Connection)
  : Connection * completion unit :=
  and_then (when_nonempty (station_buffer b)
              (execute_values insert_station (station_buffer b)) c)
  (fun c =>
  and_then (when_nonempty (velo_buffer b)
              (execute_values insert_velo (velo_buffer b)) c)
  (fun c =>
  and_then (when_nonempty (etat_station_buffer b)
              (execute_values insert_etat_station (etat_station_buffer b)) c)
  (fun c =>
  and_then (when_nonempty (localisation_velo_buffer b)
              (execute_values insert_localisation_velo
                 (localisation_velo_buffer b)) c)
  commit))).

(** How the [try] block of [process_file_content] (l.140-218) ends. *)
Inductive try_end : Type :=
| WrongShape        (* the early [return] of l.144 *)
| Committed         (* fell through after [commit] *)
| Excepted.         (* an exception reached the handler of l.220 *)

Definition try_block (snapshot_id : Z) (content : text) (c : Connection)
  : Connection * try_end :=
  match json_loads content with
  | None => (c, Excepted)
  | Some (JList data) =>
      match extract snapshot_id data with
      | None => (c, Excepted)
      | Some b =>
          match insert_batches b c with
          | (c', Returned _) => (c', Committed)
          | (c', Raised) => (c', Excepted)
          end
      end
  | Some _ => (c, WrongShape)
  end.

Definition process_file_content (filename : string) (content : text)
  (timestamp : datetime) (cursor : Connection) (errors : Errors)
  : Connection * Errors :=
  match insert_snapshot_and_get_id cursor timestamp with
  | (c, None) => (c, count_snapshot_error errors)
  | (c, Some snapshot_id) =>
      match try_block snapshot_id content c with
      | (c', WrongShape) => (c', count_invalid_format errors)
      | (c', Committed) => (c', errors)
      | (c', Excepted) => (rollback c', count_generic_error errors)
      end
  end.

(* ================================================================= *)
(** * The progress record (etl.py, l.42-100) *)

(** The input directory: its listing in the order [os.listdir] gives it,
    and what reading a file as plain text or through gzip gives, [None]
    when the read raises. *)
Record Folder : Type := mk_folder {
  listdir : list string;
  read_plain : string -> option text;
  read_gzip : string -> option text
}.

(** What a write of the progress file may run into. *)
Inductive save_fault : Type :=
| NoFault
| OpenFails                    (* the file is left as it was *)
| WriteFails (rest : text).    (* opened, hence truncated, then failed *)

(** What outlives a run: the committed tables, the snapshot sequence and
    the progress file ([None] when there is no such file). *)
Record World : Type := mk_world {
  tables : Tables;
  sequence : Z;
  progress_file : option text
}.

(** What the environment decides during one run. *)
Record Environment : Type := mk_env {
  db_refuses : nat -> bool;
  save_faults : nat -> save_fault
}.

Definition is_candidate (f : string) : bool :=
  Py.endswith f ".json" || Py.endswith f ".gz".

(** [rebuild_progress_from_database] (l.71-100), on a connection of its
    own, which sees the committed rows.  The directory it lists is the one
    of the module's [DATA_FOLDER] (l.21, l.88), not an argument. *)
Definition rebuild_progress_from_database (DATA_FOLDER : Folder)
  (db : Tables) : json :=
  let existing_snapshots := map timestamp_capture (snapshot db) in
  let all_files := filter is_candidate (listdir DATA_FOLDER) in
  let done_files :=
    filter (fun filename =>
              match parse_timestamp_from_filename filename with
              | Some timestamp =>
                  existsb (datetime_eqb timestamp) existing_snapshots
              | None => false
              end) all_files in
  JObj [("done", JList (map JStr done_files))].

(** [load_progress] (l.42-61). *)
Definition load_progress (DATA_FOLDER : Folder) (w : World) : json :=
  match progress_file w with
  | Some Blank => rebuild_progress_from_database DATA_FOLDER (tables w)
  | Some content =>
      match json_loads content with
      | Some value => value
      | None => rebuild_progress_from_database DATA_FOLDER (tables w)
      end
  | None => rebuild_progress_from_database DATA_FOLDER (tables w)
  end.

(** The driver's state inside the loop. *)
Record RunState : Type := mk_state {
  cursor : Connection;
  progress : json;
  errors : Errors;
  pfile : option text;
  saves : nat
}.

(** [save_progress] (l.64-69). *)
Definition save_progress (env : Environment) (st : RunState)
  : RunState * completion unit :=
  let after (f : option text) :=
    mk_state (cursor st) (progress st) (errors st) f (S (saves st)) in
  match save_faults env (saves st) with
  | NoFault => (after (Some (json_dump (progress st))), Returned tt)
  | OpenFails => (after (pfile st), Raised)
  | WriteFails rest => (after (Some rest), Raised)
  end.

(** [progress["done"].append(filename)]. *)
Definition mark_done (filename : string) (st : RunState)
  : RunState * completion unit :=
  match Dyn.append_at (progress st) "done" (JStr filename) with
  | Some p => (mk_state (cursor st) p (errors st) (pfile st) (saves st),
               Returned tt)
  | None => (st, Raised)
  end.

Definition bump_generic (st : RunState) : RunState :=
  mk_state (cursor st) (progress st) (count_generic_error (errors st))
           (pfile st) (saves st).

Definition read_file (data_folder : Folder) (filename : string)
  : option text :=
  if Py.endswith filename ".gz" then read_gzip data_folder filename
  else read_plain data_folder filename.

(** The [try] block of the loop body (l.256-269). *)
Definition file_try (data_folder : Folder) (env : Environment)
  (filename : string) (timestamp : datetime) (st : RunState)
  : RunState * completion unit :=
  match read_file data_folder filename with
  | None => (st, Raised)
  | Some content =>
      let (c, e) :=
        process_file_content filename content timestamp (cursor st)
                             (errors st) in
      let st1 := mk_state c (progress st) e (pfile st) (saves st) in
      match mark_done filename st1 with
      | (st2, Returned _) => save_progress env st2
      | (st2, Raised) => (st2, Raised)
      end
  end.

(** One turn of the loop (l.245-276): the state after it, and [Raised]
    when an exception leaves the loop. *)
Definition process_one (data_folder : Folder) (env : Environment)
  (filename : string) (st : RunState) : RunState * completion unit :=
  match parse_timestamp_from_filename filename with
  | None =>
      match mark_done filename (bump_generic st) with
      | (st1, Returned _) => save_progress env st1
      | (st1, Raised) => (st1, Raised)
      end
  | Some timestamp =>
      match file_try data_folder env filename timestamp st with
      | (st1, Returned _) => (st1, Returned tt)
      | (st1, Raised) => (bump_generic st1, Returned tt)
      end
  end.

Fixpoint process_all (data_folder : Folder) (env : Environment)
  (files : list string) (st : RunState) : RunState * completion unit :=
  match files with
  | [] => (st, Returned tt)
  | filename :: files' =>
      match process_one data_folder env filename st with
      | (st1, Returned _) => process_all data_folder env files' st1
      | (st1, Raised) => (st1, Raised)
      end
  end.

Definition get_db_connection (env : Environment) (w : World) : Connection :=
  mk_conn (tables w) (tables w) (sequence w) 0 (db_refuses env).

(** What the run leaves behind, whether it ended or was cut short: the
    rows it committed; an open transaction is lost with the connection. *)
Definition world_after (st : RunState) : World :=
  mk_world (committed (cursor st)) (next_snapshot_id (cursor st)) (pfile st).

Definition no_errors : Errors := mk_errors 0 0 0.

Definition remaining (all_files : list string) (done_files : list json)
  : list string :=
  filter (fun f => negb (Dyn.str_in f done_files)) all_files.

(** [import_data_from_folder] (l.226-279): the world after the run, and
    the error counters when no exception left it.  The candidates are
    those of the argument [data_folder] (l.236), where the progress record
    that [load_progress] rebuilds comes from the listing of the module's
    [DATA_FOLDER]; the script calls it on [DATA_FOLDER] itself (l.282). *)
Definition import_data_from_folder (DATA_FOLDER data_folder : Folder)
  (env : Environment) (w : World) : World * completion Errors :=
  let progress := load_progress DATA_FOLDER w in
  match bind (Dyn.subscript progress "done") Dyn.set_of with
  | None => (w, Raised)
  | Some done_files =>
      let conn := get_db_connection env w in
      let all_files := filter is_candidate (listdir data_folder) in
      let remaining_files := remaining all_files done_files in
      match process_all data_folder env remaining_files
              (mk_state conn progress no_errors (progress_file w) 0) with
      | (st, Returned _) => (world_after st, Returned (errors st))
      | (st, Raised) => (world_after st, Raised)
      end
  end.

(* ================================================================= *)
(** * Vocabulary of the statements *)

Definition digit_char (k : Z) : ascii := ascii_of_nat (48 + Z.to_nat k).

(** Two and four decimal digits, zero filled. *)
Definition fmt2 (n : Z) : string :=
  String (digit_char (n / 10)) (String (digit_char (n mod 10)) EmptyString).

Definition fmt4 (n : Z) : string :=
  String (digit_char (n / 1000))
    (String (digit_char (n / 100 mod 10)) (fmt2 (n mod 100))).

Fixpoint all_chars (p : ascii -> bool) (s : string) : bool :=
  match s with
  | EmptyString => true
  | String c s' => p c && all_chars p s'
  end.

Definition not_underscore (c : ascii) : bool := negb (Ascii.eqb c "_").

(** [sep.join(pieces)]. *)
Fixpoint join (sep : ascii) (pieces : list string) : string :=
  match pieces with
  | [] => EmptyString
  | p :: ps =>
      match ps with
      | [] => p
      | _ => p ++ String sep (join sep ps)
      end
  end.

(** The name [prefix_YYYYMMDD_HHMMSS] followed by [tail]. *)
Definition stamped_name (prefix : string) (t : datetime) (tail : string)
  : string :=
  prefix ++ "_" ++ fmt4 (year t) ++ fmt2 (month t) ++ fmt2 (day t)
         ++ "_" ++ fmt2 (hour t) ++ fmt2 (minute t) ++ fmt2 (second t)
         ++ tail.

Definition valid_datetime (t : datetime) : bool :=
  valid_fields (year t) (month t) (day t) (hour t) (minute t) (second t).

(** ** Concrete inputs *)

Module Scenario.

Definition empty_tables : Tables := mk_tables [] [] [] [] [].

(** An empty database and no progress file. *)
Definition fresh_world : World := mk_world empty_tables 1 None.

(** Nothing is refused and every write of the progress file succeeds. *)
Definition calm : Environment := mk_env (fun _ => false) (fun _ => NoFault).

Fixpoint lookup (f : string) (files : list (string * option text))
  : option text :=
  match files with
  | [] => None
  | (g, body) :: files' => if String.eqb g f then body else lookup f files'
  end.

(** A directory given by its files in listing order, each with the text
    read from it, [None] for a file that cannot be read. *)
Definition folder_of (files : list (string * option text)) : Folder :=
  mk_folder (map fst files) (fun f => lookup f files)
            (fun f => lookup f files).

Definition bike (name : json) (status : string) : json :=
  JObj [("bikeName", name); ("bikeElectric", JBool true);
        ("bikeStatus", JStr status); ("dockPosition", JInt 1)].

Definition observation (state : string) (nb_bike : Z) (bikes : list json)
  : json :=
  JObj [("station",
         JObj [("code", JStr "16107"); ("name", JStr "Test");
               ("gps", JObj [("latitude", JFloat (488 # 10));
                             ("longitude", JFloat (23 # 10))])]);
        ("nbBike", JInt nb_bike); ("nbEbike", JInt 1);
        ("nbFreeDock", JInt 5); ("state", JStr state);
        ("bikes", JList bikes)].

(** The station of the spec's scenario with its bike [BIKE1]. *)
Definition first_snapshot : json :=
  JList [observation "ok" 1 [bike (JStr "BIKE1") "free"]].

Definition second_snapshot : json :=
  JList [observation "in_use" 3 [bike (JStr "BIKE1") "in_use"]].

(** One station holding bikes numbered 1 to [n]. *)
Definition crowded_snapshot (n : nat) : list json :=
  [observation "ok" (Z.of_nat n)
     (map (fun i => bike (JInt (Z.of_nat i)) "free") (seq 1 n))].

Definition at_0800 : datetime := mk_datetime 2024 1 1 8 0 0.
Definition at_0805 : datetime := mk_datetime 2024 1 1 8 5 0.

(** A connection on an empty database that refuses its [k]-th statement
    (counted from 0) and no other. *)
Definition refusing (k : nat) : Connection :=
  mk_conn empty_tables empty_tables 1 0 (fun n => Nat.eqb n k).

(** A connection on an empty database that accepts everything. *)
Definition accepting : Connection :=
  mk_conn empty_tables empty_tables 1 0 (fun _ => false).

(** The connection once the first snapshot of the scenario is stored. *)
Definition after_first : Connection :=
  fst (process_file_content "velib_20240101_080000_paris.json"
         (Encodes first_snapshot) at_0800 accepting (mk_errors 0 0 0)).

End Scenario.

(** A connection whose database accepts every statement. *)
Definition accepts (c : Connection) : Prop := forall n, refuses c n = false.

(** The tables committed once [process_file_content] is back. *)
Definition stored_after (filename : string) (content : text)
  (timestamp : datetime) (cursor : Connection) (errors : Errors) : Tables :=
  committed (fst (process_file_content filename content timestamp cursor
                                       errors)).

(** The timestamp has no snapshot row yet. *)
Definition unseen (timestamp : datetime) (t : Tables) : Prop :=
  find (fun r => datetime_eqb (timestamp_capture r) timestamp) (snapshot t)
  = None.

(** The fact rows refer to snapshots numbered before [next]. *)
Definition facts_below (next : Z) (t : Tables) : Prop :=
  Forall (fun e => es_snapshot_id e < next) (etat_station t)
  /\ Forall (fun l => lv_snapshot_id l < next) (localisation_velo t).

(** A file with a timestamp in its name whose read raises: the one
    outcome of the loop body that leaves the file out of the done list. *)
Definition unreadable (data_folder : Folder) (filename : string) : bool :=
  match parse_timestamp_from_filename filename,
        read_file data_folder filename with
  | Some _, None => true
  | _, _ => false
  end.

(** Every write of the progress file succeeds. *)
Definition disk_healthy (env : Environment) : Prop :=
  forall n, save_faults env n = NoFault.

(** The progress file is missing or unusable, or holds a value whose
    ["done"] entry, if it has one, is not a string or an object (the two
    shapes [set] accepts and [append] refuses). *)
Definition progress_file_usable (w : World) : Prop :=
  match progress_file w with
  | Some (Encodes value) =>
      match Dyn.subscript value "done" with
      | Some (JStr _) | Some (JObj _) => False
      | _ => True
      end
  | _ => True
  end.

(** The identifiers in use were all drawn from the sequence. *)
Definition ids_below (next : Z) (t : Tables) : Prop :=
  Forall (fun r => snap_id r < next) (snapshot t) /\ facts_below next t.

Definition consistent (c : Connection) : Prop :=
  ids_below (next_snapshot_id c) (committed c)
  /\ ids_below (next_snapshot_id c) (working c).

(** ** Auxiliary notions of the proofs *)

(** A class that lets through only characters of [p]. *)
Definition within (p : ascii -> bool) (cl : Strptime.char_class) : Prop :=
  forall c, cl c = true -> p c = true.

(** The tables a file's batches lead to when nothing is refused. *)
Definition with_batches (b : Buffers) (t : Tables) : Tables :=
  insert_localisation_velo
    (insert_etat_station
       (insert_velo (insert_station t (station_buffer b)) (velo_buffer b))
       (etat_station_buffer b))
    (localisation_velo_buffer b).

(** Buffers only grow. *)
Definition buffers_le (b b' : Buffers) : Prop :=
  incl (station_buffer b) (station_buffer b')
  /\ incl (velo_buffer b) (velo_buffer b')
  /\ incl (etat_station_buffer b) (etat_station_buffer b')
  /\ incl (localisation_velo_buffer b) (localisation_velo_buffer b').

(** The fact rows of the buffers all carry the snapshot identifier. *)
Definition stamped (snapshot_id : Z) (b : Buffers) : Prop :=
  Forall (fun e => es_snapshot_id e = snapshot_id) (etat_station_buffer b)
  /\ Forall (fun l => lv_snapshot_id l = snapshot_id)
            (localisation_velo_buffer b).

(** A consistent connection whose sequence stands at [n]. *)
Definition good (n : Z) (c : Connection) : Prop :=
  consistent c /\ next_snapshot_id c = n.


(** ** Further vocabulary *)

(** The buffers of two pieces of a snapshot, one after the other. *)
Definition buffers_app (a b : Buffers) : Buffers :=
  mk_buffers (station_buffer a ++ station_buffer b)
             (velo_buffer a ++ velo_buffer b)
             (etat_station_buffer a ++ etat_station_buffer b)
             (localisation_velo_buffer a ++ localisation_velo_buffer b).

(** The same buffers under another snapshot identifier. *)
Definition restamp (snapshot_id : Z) (b : Buffers) : Buffers :=
  mk_buffers
    (station_buffer b) (velo_buffer b)
    (map (fun e => mk_etat snapshot_id (es_station_code e) (es_state e)
                           (es_nbbike e) (es_nbebike e) (es_nbfreedock e))
         (etat_station_buffer b))
    (map (fun l => mk_loc snapshot_id (lv_velo_name l) (lv_station_code l)
                          (lv_bikestatus l) (lv_dockposition l))
         (localisation_velo_buffer b)).

(** The sum of the three counters. *)
Definition total_errors (e : Errors) : Z :=
  invalid_format e + snapshot_error e + generic_error e.

(** The name carries the timestamp of a stored snapshot. *)
Definition stored (db : Tables) (filename : string) : bool :=
  match parse_timestamp_from_filename filename with
  | Some timestamp =>
      existsb (datetime_eqb timestamp) (map timestamp_capture (snapshot db))
  | None => false
  end.

(** No row of the list has the key of a row before it. *)
Fixpoint keys_distinct {R : Type} (same : R -> R -> bool) (seen rows : list R)
  : Prop :=
  match rows with
  | [] => True
  | r :: rows' =>
      existsb (same r) seen = false
      /\ keys_distinct same (seen ++ [r]) rows'
  end.

(** Each table holds one row per key: one snapshot per timestamp, one
    station per code, one bike per name, one state row per snapshot and
    station, one location row per snapshot and bike. *)
Definition unique_keys (t : Tables) : Prop :=
  NoDup (map timestamp_capture (snapshot t))
  /\ keys_distinct same_station [] (station t)
  /\ keys_distinct same_velo [] (velo t)
  /\ keys_distinct same_etat [] (etat_station t)
  /\ keys_distinct same_loc [] (localisation_velo t).

(** The buffers go by pairs: a state row for each station row, a location
    row for each bike row, in the same order and under the same key; the
    fact rows carry the snapshot identifier, the keys are non-empty, and
    a location row names a station of the station rows. *)
Definition paired (snapshot_id : Z) (b : Buffers) : Prop :=
  map st_code (station_buffer b)
  = map es_station_code (etat_station_buffer b)
  /\ map velo_name (velo_buffer b)
     = map lv_velo_name (localisation_velo_buffer b)
  /\ Forall (fun e => es_snapshot_id e = snapshot_id) (etat_station_buffer b)
  /\ Forall (fun l => lv_snapshot_id l = snapshot_id
                      /\ In (lv_station_code l)
                            (map st_code (station_buffer b)))
            (localisation_velo_buffer b)
  /\ Forall (fun r => Dyn.truthy (st_code r) = true) (station_buffer b)
  /\ Forall (fun r => Dyn.truthy (velo_name r) = true) (velo_buffer b).

Definition is_object (x : json) : bool :=
  match x with
  | JObj _ => true
  | _ => false
  end.

(** The entry of a dict under [key], [default] when it has none. *)
Definition field (key : string) (default : json)
  (fields : list (string * json)) : json :=
  match Dyn.assoc key fields with
  | Some v => v
  | None => default
  end.

(** The shapes the extraction loop goes through without raising: an
    object whose ["station"], when present, is an object; and, when that
    one has a non-empty ["code"], whose ["gps"], when present, is an
    object and whose ["bikes"], when present, can be iterated and yields
    objects only. *)
Definition observation_ok (station_data : json) : bool :=
  match station_data with
  | JObj fields =>
      match field "station" (JObj []) fields with
      | JObj info =>
          if Dyn.truthy (field "code" JNull info)
          then
            is_object (field "gps" (JObj []) info)
            && match Dyn.iter (field "bikes" (JList []) fields) with
               | Some bikes => forallb is_object bikes
               | None => false
               end
          else true
      | _ => false
      end
  | _ => false
  end.

(** The identifier the snapshot statement answers when it is accepted,
    and the tables of the transaction after it. *)
Definition snapshot_ensured (timestamp : datetime) (t : Tables)
  : Z -> Z * Tables :=
  fun next =>
    match find (fun r => datetime_eqb (timestamp_capture r) timestamp)
               (snapshot t) with
    | Some r => (snap_id r, t)
    | None =>
        (next,
         mk_tables (snapshot t ++ [mk_snapshot next timestamp]) (station t)
                   (velo t) (etat_station t) (localisation_velo t))
    end.

(** The progress file is missing or unusable, or holds an object whose
    ["done"] entry is a list of hashable values (of strings, when the
    pipeline wrote it). *)
Definition progress_file_sound (w : World) : Prop :=
  match progress_file w with
  | Some (Encodes value) =>
      exists done, Dyn.subscript value "done" = Some (JList done)
                   /\ forallb Dyn.hashable done = true
  | _ => True
  end.

(** The done list the run starts from. *)
Definition done_of (p : json) : list json :=
  match Dyn.subscript p "done" with
  | Some (JList done) => done
  | _ => []
  end.

(** The file costs the loop one [generic_error] before anything is read
    from it or after its read failed. *)
Definition unusable (data_folder : Folder) (filename : string) : bool :=
  match parse_timestamp_from_filename filename with
  | None => true
  | Some _ =>
      match read_file data_folder filename with
      | None => true
      | Some _ => false
      end
  end.

(** Every fact row refers to rows that are there: a state row to its
    snapshot and its station, a location row to its snapshot, its bike and
    its station. *)
Definition refers (t : Tables) : Prop :=
  Forall (fun e =>
            (exists r, In r (snapshot t) /\ snap_id r = es_snapshot_id e)
            /\ (exists s, In s (station t)
                          /\ json_eqb (es_station_code e) (st_code s) = true))
         (etat_station t)
  /\ Forall (fun l =>
               (exists r, In r (snapshot t) /\ snap_id r = lv_snapshot_id l)
               /\ (exists v, In v (velo t)
                             /\ json_eqb (lv_velo_name l) (velo_name v)
                                = true)
               /\ (exists s, In s (station t)
                             /\ json_eqb (lv_station_code l) (st_code s)
                                = true))
            (localisation_velo t).

(** What the declarations of the tables would enforce: one row per key,
    snapshot identifiers that are distinct and were drawn from the
    sequence, and fact rows that refer to existing rows. *)
Definition well_formed (next : Z) (t : Tables) : Prop :=
  unique_keys t
  /\ NoDup (map snap_id (snapshot t))
  /\ Forall (fun r => snap_id r < next) (snapshot t)
  /\ refers t.

(** Every table of [t'] is the table of [t] followed by further rows. *)
Definition tables_extend (t t' : Tables) : Prop :=
  (exists more, snapshot t' = snapshot t ++ more)%list
  /\ (exists more, station t' = station t ++ more)%list
  /\ (exists more, velo t' = velo t ++ more)%list
  /\ (exists more, etat_station t' = etat_station t ++ more)%list
  /\ (exists more, localisation_velo t' = localisation_velo t ++ more)%list.

(* ================================================================= *)
(** * Properties of the filename timestamp parser *)

Section SplitFacts.

Variable sep : ascii.

Lemma split_not_nil (s : string) : Py.split sep s <> [].
Proof.
  induction s as [|c s IH]; simpl; [discriminate|].
  destruct (Ascii.eqb c sep); [discriminate|].
  destruct (Py.split sep s); [contradiction|discriminate].
Qed.

Lemma split_no_sep (s : string) :
  all_chars (fun c => negb (Ascii.eqb c sep)) s = true ->
  Py.split sep s = [s].
Proof.
  induction s as [|c s IH]; simpl; intros H; [reflexivity|].
  apply andb_true_iff in H as [Hc Hs].
  apply negb_true_iff in Hc. rewrite Hc, (IH Hs). reflexivity.
Qed.

Lemma split_app_sep (p r : string) :
  all_chars (fun c => negb (Ascii.eqb c sep)) p = true ->
  Py.split sep (p ++ String sep r) = p :: Py.split sep r.
Proof.
  induction p as [|c p IH]; simpl; intros H.
  - rewrite Ascii.eqb_refl. reflexivity.
  - apply andb_true_iff in H as [Hc Hp].
    apply negb_true_iff in Hc. rewrite Hc, (IH Hp). reflexivity.
Qed.

(** Every piece is free of the separator, and the pieces joined by the
    separator give the text back. *)
Lemma split_pieces_clean (s : string) :
  Forall (fun t => all_chars (fun c => negb (Ascii.eqb c sep)) t = true)
         (Py.split sep s).
Proof.
  induction s as [|c s IH]; simpl.
  - repeat constructor.
  - destruct (Ascii.eqb c sep) eqn:E.
    + constructor; [reflexivity|exact IH].
    + destruct (Py.split sep s) as [|t ts].
      * repeat constructor. simpl. rewrite E. reflexivity.
      * inversion IH; subst. constructor; [|assumption].
        simpl. rewrite E. simpl. assumption.
Qed.

(** Joining the pieces gives the text back. *)
Lemma split_join (s : string) : join sep (Py.split sep s) = s.
Proof.
  induction s as [|c s IH]; [reflexivity|]. cbn [Py.split].
  pose proof (split_not_nil s) as N.
  destruct (Ascii.eqb_spec c sep) as [->|_].
  - cbn [join]. destruct (Py.split sep s) as [|t ts]; [contradiction|].
    cbn [append]. now rewrite IH.
  - destruct (Py.split sep s) as [|t ts]; [contradiction|].
    cbn [join] in *. destruct ts as [|u us].
    + now rewrite IH.
    + cbn [append]. now rewrite IH.
Qed.

End SplitFacts.

Lemma endswith_spec (s suffix : string) :
  Py.endswith s suffix = true <-> exists p, s = p ++ suffix.
Proof.
  induction s as [|c s IH]; cbn [Py.endswith].
  - rewrite orb_false_r, String.eqb_eq. split.
    + intros <-. now exists "".
    + intros [[|c p] H]; cbn in H; [auto|discriminate].
  - rewrite orb_true_iff, String.eqb_eq, IH. split.
    + intros [<-|[p ->]]; [now exists ""|now exists (String c p)].
    + intros [[|c' p] H]; cbn in H; [auto|].
      injection H as <- ->. right. now exists p.
Qed.

Lemma string_app_assoc (a b c : string) : (a ++ b) ++ c = a ++ (b ++ c).
Proof. induction a as [|x a IH]; simpl; [reflexivity|now rewrite IH]. Qed.

Lemma string_app_nil_r (a : string) : a ++ "" = a.
Proof. induction a as [|x a IH]; simpl; [reflexivity|now rewrite IH]. Qed.

Lemma all_chars_app (p : ascii -> bool) (a b : string) :
  all_chars p (a ++ b) = all_chars p a && all_chars p b.
Proof.
  induction a as [|x a IH]; simpl; [reflexivity|].
  rewrite IH. now rewrite andb_assoc.
Qed.

Lemma all_chars_weaken (p q : ascii -> bool) (s : string) :
  (forall c, p c = true -> q c = true) ->
  all_chars p s = true -> all_chars q s = true.
Proof.
  intros Hpq. induction s as [|c s IH]; simpl; [reflexivity|].
  intros H. apply andb_true_iff in H as [Hc Hs].
  now rewrite (Hpq _ Hc), (IH Hs).
Qed.

(** A property of characters checked on the 256 of them. *)
Lemma for_all_ascii (p : ascii -> bool) :
  forallb (fun n => p (ascii_of_nat n)) (seq 0 256) = true ->
  forall c, p c = true.
Proof.
  intros H c. rewrite forallb_forall in H.
  rewrite <- (ascii_nat_embedding c). apply H.
  apply in_seq. pose proof (nat_ascii_bounded c). lia.
Qed.

Lemma digit_not_underscore (c : ascii) :
  Py.is_digit c = true -> not_underscore c = true.
Proof.
  intros H.
  pose proof (for_all_ascii
                (fun c => implb (Py.is_digit c) (not_underscore c))
                eq_refl c) as K.
  cbv beta in K. rewrite H in K. exact K.
Qed.

Lemma digit_char_digit (k : Z) :
  0 <= k <= 9 ->
  Py.is_digit (digit_char k) = true /\ Py.digit_value (digit_char k) = k.
Proof.
  intros H.
  assert (E : k = 0 \/ k = 1 \/ k = 2 \/ k = 3 \/ k = 4 \/ k = 5 \/ k = 6
              \/ k = 7 \/ k = 8 \/ k = 9) by lia.
  repeat destruct E as [E|E]; subst k; split; reflexivity.
Qed.

Lemma fmt2_digits (n : Z) :
  0 <= n <= 99 -> all_chars Py.is_digit (fmt2 n) = true.
Proof.
  intros H. unfold fmt2. cbn [all_chars].
  destruct (digit_char_digit (n / 10)) as [-> _];
    [Z.to_euclidean_division_equations; lia|].
  destruct (digit_char_digit (n mod 10)) as [-> _];
    [Z.to_euclidean_division_equations; lia|].
  reflexivity.
Qed.

Lemma fmt4_digits (n : Z) :
  0 <= n <= 9999 -> all_chars Py.is_digit (fmt4 n) = true.
Proof.
  intros H. unfold fmt4.
  change (all_chars Py.is_digit
            (String (digit_char (n / 1000))
               (String (digit_char (n / 100 mod 10)) (fmt2 (n mod 100)))))
    with (Py.is_digit (digit_char (n / 1000))
          && (Py.is_digit (digit_char (n / 100 mod 10))
              && all_chars Py.is_digit (fmt2 (n mod 100)))).
  destruct (digit_char_digit (n / 1000)) as [-> _];
    [Z.to_euclidean_division_equations; lia|].
  destruct (digit_char_digit (n / 100 mod 10)) as [-> _];
    [Z.to_euclidean_division_equations; lia|].
  rewrite fmt2_digits; [reflexivity|].
  Z.to_euclidean_division_equations; lia.
Qed.

(** [int] reads back what [fmt2] and [fmt4] wrote. *)
Lemma int_digits (s : string) :
  s <> "" -> all_chars Py.is_digit s = true ->
  Py.int s = Py.digits_value 0 s.
Proof.
  destruct s as [|c s]; [congruence|]. intros _ H. simpl in H.
  apply andb_true_iff in H as [Hc _].
  unfold Py.int.
  assert (E : Py.lstrip_space (String c s) = String c s).
  { destruct c as [[] [] [] [] [] [] [] []]; try reflexivity; discriminate. }
  rewrite E. reflexivity.
Qed.

Lemma int_fmt2 (n : Z) : 0 <= n <= 99 -> Py.int (fmt2 n) = Some n.
Proof.
  intros H. rewrite int_digits; [|discriminate|now apply fmt2_digits].
  unfold fmt2. cbn [Py.digits_value].
  destruct (digit_char_digit (n / 10)) as [-> ->];
    [Z.to_euclidean_division_equations; lia|].
  destruct (digit_char_digit (n mod 10)) as [-> ->];
    [Z.to_euclidean_division_equations; lia|].
  f_equal. Z.to_euclidean_division_equations; lia.
Qed.

Lemma int_fmt4 (n : Z) : 0 <= n <= 9999 -> Py.int (fmt4 n) = Some n.
Proof.
  intros H. rewrite int_digits; [|discriminate|now apply fmt4_digits].
  unfold fmt4, fmt2. cbn [Py.digits_value].
  destruct (digit_char_digit (n / 1000)) as [-> ->];
    [Z.to_euclidean_division_equations; lia|].
  destruct (digit_char_digit (n / 100 mod 10)) as [-> ->];
    [Z.to_euclidean_division_equations; lia|].
  destruct (digit_char_digit (n mod 100 / 10)) as [-> ->];
    [Z.to_euclidean_division_equations; lia|].
  destruct (digit_char_digit (n mod 100 mod 10)) as [-> ->];
    [Z.to_euclidean_division_equations; lia|].
  f_equal. Z.to_euclidean_division_equations; lia.
Qed.

Section RegexFacts.

Import Strptime.

Lemma regex_match_first (g : group) (gs : list group) (s m r r' : string)
  (caps : list string) :
  hd_error (candidates g s) = Some (m, r) ->
  regex_match gs r = Some (caps, r') ->
  regex_match (g :: gs) s = Some (m :: caps, r').
Proof.
  intros Hc Hr. cbn [regex_match].
  destruct (candidates g s) as [|[m0 r0] l]; [discriminate|].
  injection Hc as -> ->. cbn. rewrite Hr. reflexivity.
Qed.

Lemma first_success_some {A B : Type} (f : A -> option B) (l : list A)
  (y : B) :
  first_success f l = Some y -> exists x, In x l /\ f x = Some y.
Proof.
  induction l as [|x l IH]; cbn; [discriminate|].
  destruct (f x) eqn:E.
  - intros [= <-]. exists x. auto.
  - intros H. destruct (IH H) as (x' & Hin & Hf). exists x'. auto.
Qed.

Lemma regex_match_cons (g : group) (gs : list group) (s r' : string)
  (caps : list string) :
  regex_match (g :: gs) s = Some (caps, r') ->
  exists m r caps',
    caps = m :: caps' /\ In (m, r) (candidates g s)
    /\ regex_match gs r = Some (caps', r').
Proof.
  cbn [regex_match]. intros H.
  apply first_success_some in H as ([m r] & Hin & Hf). cbn in Hf.
  destruct (regex_match gs r) as [[caps' r'']|] eqn:E; [|discriminate].
  injection Hf as <- <-. exists m, r, caps'. auto.
Qed.

Lemma match_seq_sound (p : ascii -> bool) (a : alternative) :
  Forall (within p) a ->
  forall s m r, match_seq a s = Some (m, r) ->
                s = m ++ r /\ all_chars p m = true.
Proof.
  induction 1 as [|cl a Hcl Ha IH]; intros s m r; cbn.
  - intros [= <- <-]. auto.
  - destruct s as [|c s]; [discriminate|].
    destruct (cl c) eqn:Ec; [|discriminate].
    destruct (match_seq a s) as [[m' r'']|] eqn:E; [|discriminate].
    intros [= <- <-]. destruct (IH _ _ _ E) as [-> Hm].
    cbn. rewrite (Hcl _ Ec), Hm. auto.
Qed.

Lemma candidates_sound (p : ascii -> bool) (g : group) :
  Forall (Forall (within p)) g ->
  forall s m r, In (m, r) (candidates g s) ->
                s = m ++ r /\ all_chars p m = true.
Proof.
  intros Hg s m r Hin. unfold candidates in Hin.
  apply in_flat_map in Hin as (a & Ha & Hin).
  destruct (match_seq a s) as [[m' r'']|] eqn:E; [|contradiction].
  destruct Hin as [[= -> ->]|[]].
  rewrite Forall_forall in Hg.
  exact (match_seq_sound p a (Hg a Ha) s m r E).
Qed.

Lemma within_check (p : ascii -> bool) (cl : char_class) :
  forallb (fun n => implb (cl (ascii_of_nat n)) (p (ascii_of_nat n)))
          (seq 0 256) = true ->
  within p cl.
Proof.
  intros H c Hc.
  pose proof (for_all_ascii (fun c => implb (cl c) (p c)) H c) as K.
  cbv beta in K. rewrite Hc in K. exact K.
Qed.

End RegexFacts.

Ltac within_classes :=
  repeat (apply Forall_cons || apply Forall_nil);
  apply within_check; vm_compute; reflexivity.

Lemma date_groups_clean :
  Forall (Forall (within not_underscore)) Strptime.re_Y
  /\ Forall (Forall (within not_underscore)) Strptime.re_m
  /\ Forall (Forall (within not_underscore)) Strptime.re_d.
Proof. repeat split; within_classes. Qed.

Lemma time_groups_digits :
  Forall (Forall (within Py.is_digit)) Strptime.re_H
  /\ Forall (Forall (within Py.is_digit)) Strptime.re_M
  /\ Forall (Forall (within Py.is_digit)) Strptime.re_S.
Proof. repeat split; within_classes. Qed.

Lemma sep_group_exact :
  Forall (Forall (within (fun c => Ascii.eqb c "_")))
         Strptime.re_sep.
Proof. within_classes. Qed.

Lemma all_underscore_one (m r s : string) :
  In (m, r) (Strptime.candidates Strptime.re_sep s) -> m = "_".
Proof.
  unfold Strptime.candidates, Strptime.re_sep. cbn.
  destruct s as [|c s]; cbn; [tauto|].
  unfold Strptime.exactly. destruct (Ascii.eqb_spec c "_") as [->|]; cbn.
  - intros [[= <- _]|[]]. reflexivity.
  - tauto.
Qed.

(** The first underscore of a text is where it is. *)
Lemma first_underscore_unique (a a' b b' : string) :
  all_chars not_underscore a = true ->
  all_chars not_underscore a' = true ->
  a ++ String "_" b = a' ++ String "_" b' -> a = a' /\ b = b'.
Proof.
  revert a'. induction a as [|c a IH]; intros [|c' a']; cbn.
  - intros _ _ [= ->]. auto.
  - intros _ H [= <- _]. discriminate.
  - intros H _ [= -> _]. discriminate.
  - intros H H' [= <- E].
    apply andb_true_iff in H as [_ H]. apply andb_true_iff in H' as [_ H'].
    destruct (IH _ H H' E) as [-> ->]. auto.
Qed.

(** What a successful [strptime] says about its argument. *)
Lemma strptime_some (s : string) (t : datetime) :
  strptime s = Some t ->
  valid_datetime t = true
  /\ exists date time,
       s = date ++ String "_" time
       /\ all_chars not_underscore date = true
       /\ all_chars Py.is_digit time = true.
Proof.
  unfold strptime.
  destruct (Strptime.regex_match Strptime.format_regex s)
    as [[caps r]|] eqn:E; [|discriminate].
  unfold Strptime.format_regex in E.
  apply regex_match_cons in E as (cY & r1 & caps1 & -> & HY & E).
  apply regex_match_cons in E as (cm & r2 & caps2 & -> & Hm & E).
  apply regex_match_cons in E as (cd & r3 & caps3 & -> & Hd & E).
  apply regex_match_cons in E as (cs & r4 & caps4 & -> & Hs & E).
  apply regex_match_cons in E as (cH & r5 & caps5 & -> & HH & E).
  apply regex_match_cons in E as (cM & r6 & caps6 & -> & HM & E).
  apply regex_match_cons in E as (cS & r7 & caps7 & -> & HS & E).
  cbn in E. injection E as <- <-.
  destruct r7 as [|]; [|discriminate].
  destruct date_groups_clean as (GY & Gm & Gd).
  destruct time_groups_digits as (GH & GM & GS).
  destruct (candidates_sound _ _ GY _ _ _ HY) as [-> KY].
  destruct (candidates_sound _ _ Gm _ _ _ Hm) as [-> Km].
  destruct (candidates_sound _ _ Gd _ _ _ Hd) as [-> Kd].
  pose proof (all_underscore_one _ _ _ Hs) as ->.
  destruct (candidates_sound _ _ sep_group_exact _ _ _ Hs) as [-> _].
  destruct (candidates_sound _ _ GH _ _ _ HH) as [-> KH].
  destruct (candidates_sound _ _ GM _ _ _ HM) as [-> KM].
  destruct (candidates_sound _ _ GS _ _ _ HS) as [-> KS].
  destruct (Py.int cY) as [y|]; [|discriminate].
  destruct (Py.int cm) as [mo|]; [|discriminate].
  destruct (Py.int cd) as [d|]; [|discriminate].
  destruct (Py.int cH) as [h|]; [|discriminate].
  destruct (Py.int cM) as [mi|]; [|discriminate].
  destruct (Py.int cS) as [sec|]; [|discriminate].
  destruct (valid_fields y mo d h mi sec) eqn:V; [|discriminate].
  intros [= <-]. split; [exact V|].
  exists (cY ++ cm ++ cd), (cH ++ cM ++ cS). repeat split.
  - rewrite !string_app_assoc. cbn. now rewrite string_app_nil_r.
  - now rewrite !all_chars_app, KY, Km, Kd.
  - now rewrite !all_chars_app, KH, KM, KS.
Qed.

Section FieldFacts.

Import Strptime.

Lemma field_Y (c1 c2 c3 c4 : ascii) (r : string) :
  Py.is_digit c1 = true -> Py.is_digit c2 = true ->
  Py.is_digit c3 = true -> Py.is_digit c4 = true ->
  hd_error (candidates re_Y (String c1 (String c2 (String c3 (String c4 r)))))
  = Some (String c1 (String c2 (String c3 (String c4 ""))), r).
Proof.
  intros H1 H2 H3 H4. unfold candidates, re_Y, digit.
  cbn [flat_map match_seq]. rewrite H1, H2, H3, H4. reflexivity.
Qed.

Lemma field_m (n : nat) (r : string) :
  (1 <= n <= 12)%nat ->
  hd_error (candidates re_m (fmt2 (Z.of_nat n) ++ r))
  = Some (fmt2 (Z.of_nat n), r).
Proof.
  intros H. do 13 (destruct n as [|n]; [try lia; reflexivity|]). lia.
Qed.

Lemma field_d (n : nat) (r : string) :
  (1 <= n <= 31)%nat ->
  hd_error (candidates re_d (fmt2 (Z.of_nat n) ++ r))
  = Some (fmt2 (Z.of_nat n), r).
Proof.
  intros H. do 32 (destruct n as [|n]; [try lia; reflexivity|]). lia.
Qed.

Lemma field_H (n : nat) (r : string) :
  (n <= 23)%nat ->
  hd_error (candidates re_H (fmt2 (Z.of_nat n) ++ r))
  = Some (fmt2 (Z.of_nat n), r).
Proof.
  intros H. do 24 (destruct n as [|n]; [reflexivity|]). lia.
Qed.

Lemma field_M (n : nat) (r : string) :
  (n <= 59)%nat ->
  hd_error (candidates re_M (fmt2 (Z.of_nat n) ++ r))
  = Some (fmt2 (Z.of_nat n), r).
Proof.
  intros H. do 60 (destruct n as [|n]; [reflexivity|]). lia.
Qed.

Lemma field_S (n : nat) (r : string) :
  (n <= 59)%nat ->
  hd_error (candidates re_S (fmt2 (Z.of_nat n) ++ r))
  = Some (fmt2 (Z.of_nat n), r).
Proof.
  intros H. do 60 (destruct n as [|n]; [reflexivity|]). lia.
Qed.

End FieldFacts.

Lemma days_in_month_le (y m : Z) : days_in_month y m <= 31.
Proof.
  unfold days_in_month.
  destruct (m =? 2); [destruct (is_leap y); lia|].
  destruct ((m =? 4) || (m =? 6) || (m =? 9) || (m =? 11)); lia.
Qed.

Lemma valid_fields_bounds (y m d h mi s : Z) :
  valid_fields y m d h mi s = true ->
  1 <= y <= 9999 /\ 1 <= m <= 12 /\ 1 <= d <= 31
  /\ 0 <= h <= 23 /\ 0 <= mi <= 59 /\ 0 <= s <= 59.
Proof.
  unfold valid_fields. intros H.
  repeat (apply andb_true_iff in H as [H ?]).
  pose proof (days_in_month_le y m). lia.
Qed.

(** [strptime] reads back a date and a time written with two digits a
    field (four for the year). *)
Lemma strptime_formatted (t : datetime) :
  valid_datetime t = true ->
  strptime ((fmt4 (year t) ++ fmt2 (month t) ++ fmt2 (day t))
              ++ "_" ++ fmt2 (hour t) ++ fmt2 (minute t) ++ fmt2 (second t))
  = Some t.
Proof.
  destruct t as [y m d h mi s]. unfold valid_datetime. cbn [year month day
    hour minute second]. intros V.
  destruct (valid_fields_bounds _ _ _ _ _ _ V) as (By & Bm & Bd & Bh & Bmi & Bs).
  unfold strptime.
  assert (E : Strptime.regex_match Strptime.format_regex
                ((fmt4 y ++ fmt2 m ++ fmt2 d)
                   ++ "_" ++ fmt2 h ++ fmt2 mi ++ fmt2 s)
              = Some ([fmt4 y; fmt2 m; fmt2 d; "_"; fmt2 h; fmt2 mi; fmt2 s],
                      "")).
  { rewrite !string_app_assoc. unfold Strptime.format_regex.
    apply regex_match_first with (r := fmt2 m ++ fmt2 d ++ "_"
                                  ++ fmt2 h ++ fmt2 mi ++ fmt2 s).
    { unfold fmt4 at 1. unfold fmt2 at 1. cbn [append].
      apply field_Y; apply digit_char_digit;
        Z.to_euclidean_division_equations; lia. }
    apply regex_match_first with (r := fmt2 d ++ "_" ++ fmt2 h
                                  ++ fmt2 mi ++ fmt2 s).
    { rewrite <- (Z2Nat.id m) by lia. apply field_m. lia. }
    apply regex_match_first with (r := "_" ++ fmt2 h ++ fmt2 mi
                                  ++ fmt2 s).
    { rewrite <- (Z2Nat.id d) by lia. apply field_d. lia. }
    apply regex_match_first with (r := fmt2 h ++ fmt2 mi ++ fmt2 s).
    { reflexivity. }
    apply regex_match_first with (r := fmt2 mi ++ fmt2 s).
    { rewrite <- (Z2Nat.id h) by lia. apply field_H. lia. }
    apply regex_match_first with (r := fmt2 s).
    { rewrite <- (Z2Nat.id mi) by lia. apply field_M. lia. }
    apply regex_match_first with (r := "").
    { rewrite <- (string_app_nil_r (fmt2 s)) at 1.
      rewrite <- (Z2Nat.id s) by lia. apply field_S. lia. }
    reflexivity. }
  rewrite E.
  rewrite (int_fmt4 y), !int_fmt2 by lia. rewrite V. reflexivity.
Qed.

Lemma fmt2_clean (n : Z) :
  0 <= n <= 99 -> all_chars not_underscore (fmt2 n) = true.
Proof.
  intros H. apply all_chars_weaken with (p := Py.is_digit);
    [exact digit_not_underscore|now apply fmt2_digits].
Qed.

Lemma fmt4_clean (n : Z) :
  0 <= n <= 9999 -> all_chars not_underscore (fmt4 n) = true.
Proof.
  intros H. apply all_chars_weaken with (p := Py.is_digit);
    [exact digit_not_underscore|now apply fmt4_digits].
Qed.

Lemma fmt_date_clean (t : datetime) :
  valid_datetime t = true ->
  all_chars not_underscore (fmt4 (year t) ++ fmt2 (month t) ++ fmt2 (day t))
  = true
  /\ all_chars not_underscore
       (fmt2 (hour t) ++ fmt2 (minute t) ++ fmt2 (second t)) = true.
Proof.
  intros V. unfold valid_datetime in V.
  destruct (valid_fields_bounds _ _ _ _ _ _ V) as (By & Bm & Bd & Bh & Bmi & Bs).
  split; rewrite !all_chars_app.
  - rewrite fmt4_clean, !fmt2_clean by lia. reflexivity.
  - rewrite !fmt2_clean by lia. reflexivity.
Qed.

Lemma parse_stamped_name (prefix tail : string) (t : datetime) :
  all_chars not_underscore prefix = true ->
  valid_datetime t = true ->
  tail = "" \/ (exists rest, tail = String "_" rest) ->
  parse_timestamp_from_filename (stamped_name prefix t tail) = Some t.
Proof.
  intros Hp V Ht. destruct (fmt_date_clean t V) as [Cd Ct].
  unfold parse_timestamp_from_filename, stamped_name.
  set (D := fmt4 (year t) ++ fmt2 (month t) ++ fmt2 (day t)) in *.
  set (T := fmt2 (hour t) ++ fmt2 (minute t) ++ fmt2 (second t)) in *.
  assert (E : prefix ++ "_" ++ fmt4 (year t) ++ fmt2 (month t)
                ++ fmt2 (day t) ++ "_" ++ fmt2 (hour t) ++ fmt2 (minute t)
                ++ fmt2 (second t) ++ tail
              = prefix ++ String "_" (D ++ String "_" (T ++ tail))).
  { unfold D, T. rewrite !string_app_assoc. reflexivity. }
  rewrite E. rewrite (split_app_sep "_" prefix _ Hp).
  assert (P : exists more, Py.split "_" (D ++ String "_" (T ++ tail))
                           = D :: T :: more).
  { rewrite (split_app_sep "_" D _ Cd).
    destruct Ht as [->|[rest ->]].
    - rewrite string_app_nil_r, (split_no_sep "_" T Ct). now exists [].
    - rewrite (split_app_sep "_" T _ Ct). eauto. }
  destruct P as [more ->]. cbn [nth_error].
  fold D T. unfold D, T. apply strptime_formatted. exact V.
Qed.

(** The parser on a few names: single digits are accepted where the
    pattern allows them, the engine backtracks to find a match, and
    anything left over after the seconds is refused. *)
Example parse_with_suffix :
  parse_timestamp_from_filename "velib_20240229_235959_a_b.gz"
  = Some (mk_datetime 2024 2 29 23 59 59).
Proof. vm_compute. reflexivity. Qed.

Example parse_backtracks :
  parse_timestamp_from_filename "velib_2024011_1111"
  = Some (mk_datetime 2024 1 1 11 1 1).
Proof. vm_compute. reflexivity. Qed.

Example parse_refuses_impossible_day :
  parse_timestamp_from_filename "velib_20230229_120000_a.json" = None.
Proof. vm_compute. reflexivity. Qed.

Example parse_refuses_leap_second :
  parse_timestamp_from_filename "velib_20240101_235960_a.json" = None.
Proof. vm_compute. reflexivity. Qed.

Example parse_refuses_short_name :
  parse_timestamp_from_filename "velib.json" = None.
Proof. vm_compute. reflexivity. Qed.

Lemma parse_some_pieces (f : string) (t : datetime) :
  parse_timestamp_from_filename f = Some t ->
  valid_datetime t = true
  /\ exists date time,
       nth_error (Py.split "_" f) 1 = Some date
       /\ nth_error (Py.split "_" f) 2 = Some time
       /\ all_chars Py.is_digit time = true.
Proof.
  unfold parse_timestamp_from_filename.
  destruct (nth_error (Py.split "_" f) 1) as [date|] eqn:E1; [|discriminate].
  destruct (nth_error (Py.split "_" f) 2) as [time|] eqn:E2; [|discriminate].
  intros H. apply strptime_some in H as (V & date' & time' & E & Cd & Ct).
  split; [exact V|]. exists date, time. repeat split.
  pose proof (split_pieces_clean "_" f) as C. rewrite Forall_forall in C.
  pose proof (C _ (nth_error_In _ _ E1)) as C1.
  cbn [append] in E.
  destruct (first_underscore_unique date date' time time' C1 Cd E)
    as [_ ->].
  exact Ct.
Qed.

Lemma parse_few_pieces (f : string) :
  (List.length (Py.split "_" f) < 3)%nat ->
  parse_timestamp_from_filename f = None.
Proof.
  intros H. unfold parse_timestamp_from_filename.
  destruct (nth_error (Py.split "_" f) 2) eqn:E.
  - assert (2 < List.length (Py.split "_" f))%nat
      by (apply nth_error_Some; congruence). lia.
  - now destruct (nth_error (Py.split "_" f) 1).
Qed.

(** C4, as the code has it.  A name [prefix_YYYYMMDD_HHMMSS] that ends
    there or goes on with an underscore is parsed to exactly the date and
    time it embeds.  Whenever the parser answers a timestamp, that
    timestamp is a valid one and the third underscore-separated piece of
    the name is made of digits only, so that a name with fewer than three
    pieces, or one whose time is followed by anything but an underscore
    (such as [velib_20240101_080000.json], whose third piece is
    [080000.json]), gets [None].  The parser is a total function: it
    never raises. *)
Theorem parse_timestamp_from_filename_shape :
  (forall (prefix tail : string) (t : datetime),
      all_chars not_underscore prefix = true ->
      valid_datetime t = true ->
      tail = "" \/ (exists rest, tail = String "_" rest) ->
      parse_timestamp_from_filename (stamped_name prefix t tail) = Some t)
  /\ (forall (f : string) (t : datetime),
         parse_timestamp_from_filename f = Some t ->
         valid_datetime t = true
         /\ exists date time,
              nth_error (Py.split "_" f) 1 = Some date
              /\ nth_error (Py.split "_" f) 2 = Some time
              /\ all_chars Py.is_digit time = true)
  /\ (forall f : string,
         (List.length (Py.split "_" f) < 3)%nat ->
         parse_timestamp_from_filename f = None)
  /\ parse_timestamp_from_filename "velib_20240101_080000.json" = None.
Proof.
  split; [exact parse_stamped_name|].
  split; [exact parse_some_pieces|].
  split; [exact parse_few_pieces|].
  vm_compute. reflexivity.
Qed.

Lemma parse_timestamp_from_filename_shape_witness :
  parse_timestamp_from_filename "velib_20240101_080000_paris.json"
  = Some (mk_datetime 2024 1 1 8 0 0).
Proof.
  exact (proj1 parse_timestamp_from_filename_shape
               "velib" "_paris.json" (mk_datetime 2024 1 1 8 0 0)
               eq_refl eq_refl
               (or_intror (ex_intro _ "paris.json" eq_refl))).
Defined.

(** C4 as the spec words it fails on the spec's own example: the name
    [velib_20240101_080000.json] is not parsed to 2024-01-01T08:00:00. *)
Lemma parse_timestamp_spec_example_fails :
  parse_timestamp_from_filename "velib_20240101_080000.json"
  <> Some (mk_datetime 2024 1 1 8 0 0).
Proof. vm_compute. discriminate. Qed.

(* ================================================================= *)
(** * Properties of the store and of [process_file_content] *)

Lemma datetime_eqb_eq (a b : datetime) : datetime_eqb a b = true <-> a = b.
Proof.
  destruct a, b. unfold datetime_eqb. cbn.
  rewrite !andb_true_iff, !Z.eqb_eq. split.
  - intros (((((-> & ->) & ->) & ->) & ->) & ->). reflexivity.
  - intros [= -> -> -> -> -> ->]. repeat split.
Qed.

Lemma json_eqb_refl : forall j : json, json_eqb j j = true.
Proof.
  fix IH 1. intros [|b|n|q|s|l|kv]; cbn.
  - reflexivity.
  - apply eqb_reflx.
  - apply Z.eqb_refl.
  - apply Qeq_bool_refl.
  - apply String.eqb_refl.
  - revert l. fix IHl 1. intros [|h t]; [reflexivity|].
    rewrite (IH h), (IHl t). reflexivity.
  - revert kv. fix IHl 1. intros [|[k v] t]; [reflexivity|].
    rewrite String.eqb_refl, (IH v), (IHl t). reflexivity.
Qed.

Section InsertIfAbsent.

Context {R : Type} (same : R -> R -> bool).

(** The table is kept as it is and only rows with a key it lacked are
    added after it. *)
Lemma insert_if_absent_extends (rows table : list R) :
  exists new,
    insert_if_absent same table rows = (table ++ new)%list
    /\ forall r, In r new -> In r rows /\ existsb (same r) table = false.
Proof.
  revert table. induction rows as [|r rows IH]; intros table; cbn.
  - exists []. rewrite app_nil_r. split; [reflexivity|contradiction].
  - destruct (existsb (same r) table) eqn:E.
    + destruct (IH table) as (new & -> & Hnew). exists new.
      split; [reflexivity|]. intros r' Hr'. destruct (Hnew r' Hr'). auto.
    + destruct (IH (table ++ [r])%list) as (new & -> & Hnew). exists (r :: new).
      split; [now rewrite <- app_assoc|].
      intros r' [<-|Hr']; [auto|].
      destruct (Hnew r' Hr') as [Hin Hex]. split; [auto|].
      rewrite existsb_app in Hex. now apply orb_false_iff in Hex.
Qed.

(** Every row offered ends up in the table, or a row with its key does. *)
Lemma insert_if_absent_covers (rows table : list R) (r : R) :
  In r rows ->
  exists r', In r' (insert_if_absent same table rows)
             /\ (r' = r \/ same r r' = true).
Proof.
  revert table. induction rows as [|r0 rows IH]; intros table; cbn;
    [contradiction|].
  intros [->|Hin]; [|now apply IH].
  destruct (insert_if_absent_extends rows
              (if existsb (same r) table then table else (table ++ [r])%list))
    as (new & -> & _).
  destruct (existsb (same r) table) eqn:E.
  - apply existsb_exists in E as (r' & Hr' & Hs). exists r'.
    split; [apply in_or_app; auto|auto].
  - exists r. split; [|auto]. apply in_or_app. left. apply in_or_app.
    right. now left.
Qed.

Lemma insert_if_absent_app (rows1 rows2 table : list R) :
  insert_if_absent same table (rows1 ++ rows2)%list
  = insert_if_absent same (insert_if_absent same table rows1) rows2.
Proof.
  revert table. induction rows1 as [|r rows1 IH]; intros table; cbn;
    [reflexivity|apply IH].
Qed.

End InsertIfAbsent.

Section Pagination.

Context {R : Type}.

Lemma pages_concat (fuel : nat) (rows : list R) :
  (List.length rows <= fuel)%nat -> concat (pages fuel rows) = rows.
Proof.
  revert rows. induction fuel as [|fuel IH]; intros rows H.
  - destruct rows; [reflexivity|cbn in H; lia].
  - destruct rows as [|r rows]; [reflexivity|].
    cbn [pages concat]. rewrite IH; [apply firstn_skipn|].
    rewrite length_skipn. cbn [Datatypes.length] in *. unfold page_size. lia.
Qed.

Lemma paginate_concat (rows : list R) : concat (paginate rows) = rows.
Proof. apply pages_concat. lia. Qed.

End Pagination.

Section Statements.

Context {R : Type} (apply : Tables -> list R -> Tables).

(** Statements other than [commit] leave the committed tables alone. *)
Lemma execute_pages_frame (ps : list (list R)) (c : Connection) :
  committed (fst (execute_pages apply ps c)) = committed c
  /\ refuses (fst (execute_pages apply ps c)) = refuses c
  /\ next_snapshot_id (fst (execute_pages apply ps c)) = next_snapshot_id c.
Proof.
  revert c. induction ps as [|p ps IH]; intros c; cbn; [auto|].
  destruct (refuses c (issued c)); cbn; [auto|].
  destruct (IH (with_working (tick c) (apply (working c) p)))
    as (-> & -> & ->). auto.
Qed.

Lemma execute_pages_accepted (ps : list (list R)) (c : Connection) :
  accepts c ->
  snd (execute_pages apply ps c) = Returned tt
  /\ working (fst (execute_pages apply ps c))
     = fold_left apply ps (working c).
Proof.
  revert c. induction ps as [|p ps IH]; intros c A; cbn; [auto|].
  rewrite (A (issued c)). apply IH. exact A.
Qed.

Hypothesis apply_nil : forall t, apply t [] = t.
Hypothesis apply_app :
  forall t p q, apply (apply t p) q = apply t (p ++ q)%list.

Lemma fold_pages (ps : list (list R)) (t : Tables) :
  fold_left apply ps t = apply t (concat ps).
Proof.
  revert t. induction ps as [|p ps IH]; intros t; cbn; [now rewrite apply_nil|].
  rewrite IH. apply apply_app.
Qed.

Lemma execute_values_accepted (rows : list R) (c : Connection) :
  accepts c ->
  snd (when_nonempty rows (execute_values apply rows) c) = Returned tt
  /\ working (fst (when_nonempty rows (execute_values apply rows) c))
     = apply (working c) rows
  /\ committed (fst (when_nonempty rows (execute_values apply rows) c))
     = committed c
  /\ accepts (fst (when_nonempty rows (execute_values apply rows) c)).
Proof.
  intros A. unfold when_nonempty, execute_values.
  destruct rows as [|r rows]; [cbn; now rewrite apply_nil|].
  destruct (execute_pages_accepted (paginate (r :: rows)) c A) as [E W].
  destruct (execute_pages_frame (paginate (r :: rows)) c) as (C & F & _).
  rewrite E, W, C, fold_pages, paginate_concat.
  repeat split. intros n. rewrite F. apply A.
Qed.

Lemma execute_values_raised (rows : list R) (c c' : Connection) :
  when_nonempty rows (execute_values apply rows) c = (c', Raised) ->
  committed c' = committed c.
Proof.
  unfold when_nonempty, execute_values. destruct rows; [discriminate|].
  intros E. pose proof (execute_pages_frame (paginate (r :: rows)) c) as (C & _).
  now rewrite E in C.
Qed.

Lemma execute_values_returned (rows : list R) (c c' : Connection) :
  when_nonempty rows (execute_values apply rows) c = (c', Returned tt) ->
  committed c' = committed c.
Proof.
  unfold when_nonempty, execute_values.
  destruct rows; [now intros [= <-]|].
  intros E. pose proof (execute_pages_frame (paginate (r :: rows)) c) as (C & _).
  now rewrite E in C.
Qed.

End Statements.

Lemma insert_station_additive :
  (forall t, insert_station t [] = t)
  /\ (forall t p q,
         insert_station (insert_station t p) q = insert_station t (p ++ q)%list).
Proof.
  split; [now intros []|]. intros t p q. unfold insert_station. cbn.
  now rewrite insert_if_absent_app.
Qed.

Lemma insert_velo_additive :
  (forall t, insert_velo t [] = t)
  /\ (forall t p q,
         insert_velo (insert_velo t p) q = insert_velo t (p ++ q)%list).
Proof.
  split; [now intros []|]. intros t p q. unfold insert_velo. cbn.
  now rewrite insert_if_absent_app.
Qed.

Lemma insert_etat_station_additive :
  (forall t, insert_etat_station t [] = t)
  /\ (forall t p q,
         insert_etat_station (insert_etat_station t p) q
         = insert_etat_station t (p ++ q)%list).
Proof.
  split; [now intros []|]. intros t p q. unfold insert_etat_station. cbn.
  now rewrite insert_if_absent_app.
Qed.

Lemma insert_localisation_velo_additive :
  (forall t, insert_localisation_velo t [] = t)
  /\ (forall t p q,
         insert_localisation_velo (insert_localisation_velo t p) q
         = insert_localisation_velo t (p ++ q)%list).
Proof.
  split; [now intros []|]. intros t p q. unfold insert_localisation_velo.
  cbn. now rewrite insert_if_absent_app.
Qed.

Lemma insert_batches_accepted (b : Buffers) (c : Connection) :
  accepts c ->
  exists c',
    insert_batches b c = (c', Returned tt)
    /\ committed c' = with_batches b (working c)
    /\ working c' = with_batches b (working c).
Proof.
  intros A. unfold insert_batches, with_batches.
  destruct insert_station_additive as [N1 P1].
  destruct insert_velo_additive as [N2 P2].
  destruct insert_etat_station_additive as [N3 P3].
  destruct insert_localisation_velo_additive as [N4 P4].
  destruct (execute_values_accepted insert_station N1 P1 (station_buffer b)
              c A) as (E1 & W1 & _ & A1).
  destruct (when_nonempty (station_buffer b) _ c) as [c1 r1].
  cbn [fst snd] in *. subst r1. cbn [and_then].
  destruct (execute_values_accepted insert_velo N2 P2 (velo_buffer b)
              c1 A1) as (E2 & W2 & _ & A2).
  destruct (when_nonempty (velo_buffer b) _ c1) as [c2 r2].
  cbn [fst snd] in *. subst r2. cbn [and_then].
  destruct (execute_values_accepted insert_etat_station N3 P3
              (etat_station_buffer b) c2 A2) as (E3 & W3 & _ & A3).
  destruct (when_nonempty (etat_station_buffer b) _ c2) as [c3 r3].
  cbn [fst snd] in *. subst r3. cbn [and_then].
  destruct (execute_values_accepted insert_localisation_velo N4 P4
              (localisation_velo_buffer b) c3 A3) as (E4 & W4 & _ & A4).
  destruct (when_nonempty (localisation_velo_buffer b) _ c3) as [c4 r4].
  cbn [fst snd] in *. subst r4. cbn [and_then].
  unfold commit. rewrite (A4 (issued c4)). eexists. split; [reflexivity|].
  cbn. rewrite W4, W3, W2, W1. auto.
Qed.

(** Batches cut short by an exception have committed nothing. *)
Lemma insert_batches_raised (b : Buffers) (c c' : Connection) :
  insert_batches b c = (c', Raised) -> committed c' = committed c.
Proof.
  unfold insert_batches.
  destruct (when_nonempty (station_buffer b) _ c) as [c1 [[]|]] eqn:E1;
    cbn [and_then];
    [apply execute_values_returned in E1
    |intros [= <-]; now apply execute_values_raised in E1].
  destruct (when_nonempty (velo_buffer b) _ c1) as [c2 [[]|]] eqn:E2;
    cbn [and_then];
    [apply execute_values_returned in E2
    |intros [= <-]; apply execute_values_raised in E2; congruence].
  destruct (when_nonempty (etat_station_buffer b) _ c2) as [c3 [[]|]] eqn:E3;
    cbn [and_then];
    [apply execute_values_returned in E3
    |intros [= <-]; apply execute_values_raised in E3; congruence].
  destruct (when_nonempty (localisation_velo_buffer b) _ c3)
    as [c4 [[]|]] eqn:E4; cbn [and_then];
    [apply execute_values_returned in E4
    |intros [= <-]; apply execute_values_raised in E4; congruence].
  unfold commit. destruct (refuses c4 (issued c4)); [|discriminate].
  intros [= <-]. cbn. congruence.
Qed.

Lemma upsert_snapshot_frame (timestamp : datetime) (c : Connection) :
  committed (fst (upsert_snapshot timestamp c)) = committed c
  /\ refuses (fst (upsert_snapshot timestamp c)) = refuses c.
Proof.
  unfold upsert_snapshot. destruct (refuses c (issued c)); [cbn; auto|].
  destruct (find _ _); cbn; auto.
Qed.

Lemma insert_snapshot_and_get_id_frame (timestamp : datetime)
  (c : Connection) :
  committed (fst (insert_snapshot_and_get_id c timestamp)) = committed c
  /\ refuses (fst (insert_snapshot_and_get_id c timestamp)) = refuses c.
Proof.
  unfold insert_snapshot_and_get_id.
  pose proof (upsert_snapshot_frame timestamp c) as [C F].
  destruct (upsert_snapshot timestamp c) as [c' [id|]]; cbn in *; auto.
Qed.

(** C2.  A file whose snapshot row was obtained, whose content decoded to a
    list and whose batches were extracted, but whose insertion raised at
    any statement, a page of [localisation_velo] or the commit included,
    leaves [process_file_content] with the transaction rolled back: the
    committed tables are those from before the call, the open transaction
    holds nothing more, and only [generic_error] moved, by one. *)
Theorem batch_failure_rolls_back (filename : string) (content : text)
  (timestamp : datetime) (cursor : Connection) (errors : Errors)
  (snapshot_id : Z) (data : list json) (b : Buffers) (c1 c2 : Connection) :
  insert_snapshot_and_get_id cursor timestamp = (c1, Some snapshot_id) ->
  json_loads content = Some (JList data) ->
  extract snapshot_id data = Some b ->
  insert_batches b c1 = (c2, Raised) ->
  committed (fst (process_file_content filename content timestamp cursor
                                       errors)) = committed cursor
  /\ working (fst (process_file_content filename content timestamp cursor
                                        errors)) = committed cursor
  /\ snd (process_file_content filename content timestamp cursor errors)
     = mk_errors (invalid_format errors) (snapshot_error errors)
                 (generic_error errors + 1).
Proof.
  intros Hs Hj He Hb.
  pose proof (insert_snapshot_and_get_id_frame timestamp cursor) as [C1 _].
  rewrite Hs in C1. cbn [fst] in C1.
  pose proof (insert_batches_raised b c1 c2 Hb) as C2.
  unfold process_file_content, try_block. rewrite Hs, Hj, He, Hb. cbn.
  rewrite C2, C1. auto.
Qed.

Lemma batch_failure_rolls_back_witness :
  List.length
    (localisation_velo
       (working
          (fst (try_block 1 (Encodes (JList (Scenario.crowded_snapshot 101)))
                  (fst (insert_snapshot_and_get_id (Scenario.refusing 6)
                          Scenario.at_0800)))))) = 100%nat
  /\ committed
       (fst (process_file_content "velib_20240101_080000_paris.json"
               (Encodes (JList (Scenario.crowded_snapshot 101)))
               Scenario.at_0800 (Scenario.refusing 6) no_errors))
     = Scenario.empty_tables
  /\ working
       (fst (process_file_content "velib_20240101_080000_paris.json"
               (Encodes (JList (Scenario.crowded_snapshot 101)))
               Scenario.at_0800 (Scenario.refusing 6) no_errors))
     = Scenario.empty_tables
  /\ snd (process_file_content "velib_20240101_080000_paris.json"
            (Encodes (JList (Scenario.crowded_snapshot 101)))
            Scenario.at_0800 (Scenario.refusing 6) no_errors)
     = mk_errors 0 0 1.
Proof.
  split; [vm_compute; reflexivity|].
  eapply (batch_failure_rolls_back
            "velib_20240101_080000_paris.json"
            (Encodes (JList (Scenario.crowded_snapshot 101)))
            Scenario.at_0800 (Scenario.refusing 6) no_errors).
  - reflexivity.
  - reflexivity.
  - vm_compute. reflexivity.
  - vm_compute. reflexivity.
Defined.




(** C3 on the code.  A file holding a JSON object is counted under
    [invalid_format] and marked done, yet the snapshot row inserted for it
    before the decoding stays in the open transaction, and the commit of
    the next file, here an empty list, makes it permanent. *)
Theorem wrong_shape_snapshot_committed_by_next_file :
  import_data_from_folder
    (Scenario.folder_of
       [("velib_20240101_080000_paris.json", Some (Encodes (JObj [])));
        ("velib_20240101_080500_paris.json", Some (Encodes (JList [])))])
    (Scenario.folder_of
       [("velib_20240101_080000_paris.json", Some (Encodes (JObj [])));
        ("velib_20240101_080500_paris.json", Some (Encodes (JList [])))])
    Scenario.calm Scenario.fresh_world
  = (mk_world
       (mk_tables [mk_snapshot 1 Scenario.at_0800;
                   mk_snapshot 2 Scenario.at_0805] [] [] [] [])
       3
       (Some (Encodes
                (JObj [("done",
                        JList [JStr "velib_20240101_080000_paris.json";
                               JStr "velib_20240101_080500_paris.json"])]))),
     Returned (mk_errors 1 0 0)).
Proof. vm_compute. reflexivity. Qed.

(* ================================================================= *)
(** * The extraction of the buffers *)

Section FoldM.

Context {A B : Type} (f : B -> A -> option B) (le : B -> B -> Prop).
Hypothesis le_refl : forall b, le b b.
Hypothesis le_trans : forall a b c, le a b -> le b c -> le a c.
Hypothesis f_le : forall b x b', f b x = Some b' -> le b b'.

Lemma foldM_le (l : list A) (b b' : B) : foldM f l b = Some b' -> le b b'.
Proof.
  revert b. induction l as [|x l IH]; intros b; cbn [foldM].
  - intros [= <-]. apply le_refl.
  - unfold bind. destruct (f b x) as [b1|] eqn:E; [|discriminate].
    intros H. exact (le_trans _ _ _ (f_le _ _ _ E) (IH _ H)).
Qed.

(** Each element was handled by a step whose result the final one
    extends. *)
Lemma foldM_In (l : list A) (b b' : B) (x : A) :
  foldM f l b = Some b' -> In x l ->
  exists b1 b2, f b1 x = Some b2 /\ le b2 b'.
Proof.
  revert b. induction l as [|y l IH]; intros b; cbn [foldM];
    [contradiction|].
  unfold bind. destruct (f b y) as [b1|] eqn:E; [|discriminate].
  intros H [->|Hin].
  - exists b, b1. split; [exact E|]. exact (foldM_le _ _ _ H).
  - exact (IH _ H Hin).
Qed.

End FoldM.

Lemma buffers_le_refl (b : Buffers) : buffers_le b b.
Proof. repeat split; apply incl_refl. Qed.

Lemma buffers_le_trans (a b c : Buffers) :
  buffers_le a b -> buffers_le b c -> buffers_le a c.
Proof.
  intros (H1 & H2 & H3 & H4) (K1 & K2 & K3 & K4).
  repeat split; eapply incl_tran; eauto.
Qed.

Tactic Notation "next_bind" hyp(H) "as" ident(v) ident(E) :=
  match type of H with
  | bind ?e _ = Some _ =>
      destruct e as [v|] eqn:E; cbn [bind] in H; [|discriminate H]
  end.

(** What one entry of [bikes] adds. *)
Lemma extract_bike_spec (snapshot_id : Z) (station_code : json)
  (b b' : Buffers) (bike : json) :
  extract_bike snapshot_id station_code b bike = Some b' ->
  buffers_le b b'
  /\ forall name,
       Dyn.get bike "bikeName" JNull = Some name ->
       Dyn.truthy name = true ->
       exists l, In l (localisation_velo_buffer b')
                 /\ lv_snapshot_id l = snapshot_id
                 /\ lv_velo_name l = name.
Proof.
  unfold extract_bike. intros H. next_bind H as name0 En.
  destruct (Dyn.truthy name0) eqn:T; cbn [negb] in H.
  - next_bind H as electric Ee. next_bind H as status Es.
    next_bind H as dock Ed. injection H as <-. split.
    + repeat split; cbn; try apply incl_refl; apply incl_appl, incl_refl.
    + intros name Hn _. assert (name = name0) by congruence. subst name.
      eexists. split.
      * cbn. apply in_or_app. right. now left.
      * auto.
  - injection H as <-. split; [apply buffers_le_refl|].
    intros name Hn Ht. congruence.
Qed.

(** What one station observation adds. *)
Lemma extract_station_spec (snapshot_id : Z) (b b' : Buffers)
  (station_data : json) :
  extract_station snapshot_id b station_data = Some b' ->
  buffers_le b b'
  /\ forall info code,
       Dyn.get station_data "station" (JObj []) = Some info ->
       Dyn.get info "code" JNull = Some code ->
       Dyn.truthy code = true ->
       (exists e, In e (etat_station_buffer b')
                  /\ es_snapshot_id e = snapshot_id
                  /\ es_station_code e = code)
       /\ forall bikes_value bikes bike name,
            Dyn.get station_data "bikes" (JList []) = Some bikes_value ->
            Dyn.iter bikes_value = Some bikes ->
            In bike bikes ->
            Dyn.get bike "bikeName" JNull = Some name ->
            Dyn.truthy name = true ->
            exists l, In l (localisation_velo_buffer b')
                      /\ lv_snapshot_id l = snapshot_id
                      /\ lv_velo_name l = name.
Proof.
  unfold extract_station. intros H.
  next_bind H as info0 Ei. next_bind H as code0 Ec.
  destruct (Dyn.truthy code0) eqn:T; cbn [negb] in H.
  - next_bind H as name0 E1. next_bind H as gps_lat E2.
    next_bind H as latitude E3. next_bind H as longitude E5. next_bind H as station_type E6.
    next_bind H as type0 E7. next_bind H as state E8.
    next_bind H as nb_bike E9. next_bind H as nb_ebike E10.
    next_bind H as nb_free_dock E11. next_bind H as bikes_value0 E12.
    next_bind H as bikes0 E13.
    pose proof (foldM_le (extract_bike snapshot_id code0) buffers_le
                  buffers_le_refl buffers_le_trans
                  (fun b x b' K => proj1 (extract_bike_spec _ _ _ _ _ K))
                  _ _ _ H) as (L1 & L2 & L3 & L4).
    cbn in L1, L2, L3, L4. split.
    + repeat split; try assumption;
        eapply incl_tran; try eassumption; apply incl_appl, incl_refl.
    + intros info code Hi Hc _.
      assert (info = info0) by congruence. subst info.
      assert (code = code0) by congruence. subst code. split.
      * eexists. split; [apply L3, in_or_app; right; now left|auto].
      * intros bikes_value bikes bike name G1 G2 Hin Hn Ht.
        assert (bikes_value = bikes_value0) by congruence. subst bikes_value.
        assert (bikes = bikes0) by congruence. subst bikes.
        destruct (foldM_In (extract_bike snapshot_id code0) buffers_le
                    buffers_le_refl buffers_le_trans
                    (fun b x b' K => proj1 (extract_bike_spec _ _ _ _ _ K))
                    _ _ _ bike H Hin) as (b1 & b2 & Hstep & (_ & _ & _ & Hle)).
        destruct (proj2 (extract_bike_spec _ _ _ _ _ Hstep) name Hn Ht)
          as (l & Hl & Hid & Hname).
        exists l. auto.
  - injection H as <-. split; [apply buffers_le_refl|].
    intros info code Hi Hc Ht.
    assert (info = info0) by congruence. subst info.
    assert (code = code0) by congruence. subst code. congruence.
Qed.

(** Every station observation with a code has its state row in the
    buffers, and every named bike under it its location row. *)
Lemma extract_spec (snapshot_id : Z) (data : list json) (b : Buffers)
  (station_data info code : json) :
  extract snapshot_id data = Some b ->
  In station_data data ->
  Dyn.get station_data "station" (JObj []) = Some info ->
  Dyn.get info "code" JNull = Some code ->
  Dyn.truthy code = true ->
  (exists e, In e (etat_station_buffer b)
             /\ es_snapshot_id e = snapshot_id
             /\ es_station_code e = code)
  /\ forall bikes_value bikes bike name,
       Dyn.get station_data "bikes" (JList []) = Some bikes_value ->
       Dyn.iter bikes_value = Some bikes ->
       In bike bikes ->
       Dyn.get bike "bikeName" JNull = Some name ->
       Dyn.truthy name = true ->
       exists l, In l (localisation_velo_buffer b)
                 /\ lv_snapshot_id l = snapshot_id
                 /\ lv_velo_name l = name.
Proof.
  unfold extract. intros H Hin Hi Hc Ht.
  destruct (foldM_In (extract_station snapshot_id) buffers_le
              buffers_le_refl buffers_le_trans
              (fun b x b' K => proj1 (extract_station_spec _ _ _ _ K))
              _ _ _ station_data H Hin)
    as (b1 & b2 & Hstep & (_ & _ & Le & Ll)).
  destruct (proj2 (extract_station_spec _ _ _ _ Hstep) info code Hi Hc Ht)
    as [(e & He & Hid & Hcode) Hb].
  split.
  - exists e. auto.
  - intros bikes_value bikes bike name G1 G2 G3 G4 G5.
    destruct (Hb bikes_value bikes bike name G1 G2 G3 G4 G5)
      as (l & Hl & Hlid & Hname).
    exists l. auto.
Qed.

(** A new snapshot that the database accepts ends committed with all its
    batches. *)
Lemma process_file_content_accepted (filename : string) (content : text)
  (timestamp : datetime) (cursor : Connection) (errors : Errors)
  (data : list json) (b : Buffers) :
  accepts cursor ->
  unseen timestamp (working cursor) ->
  json_loads content = Some (JList data) ->
  extract (next_snapshot_id cursor) data = Some b ->
  stored_after filename content timestamp cursor errors
  = with_batches b
      (mk_tables
         (snapshot (working cursor)
            ++ [mk_snapshot (next_snapshot_id cursor) timestamp])
         (station (working cursor)) (velo (working cursor))
         (etat_station (working cursor))
         (localisation_velo (working cursor))).
Proof.
  intros A U Hj He.
  unfold stored_after, process_file_content, insert_snapshot_and_get_id,
    upsert_snapshot. rewrite (A (issued cursor)). unfold unseen in U.
  rewrite U. unfold try_block. rewrite Hj, He.
  match goal with
  | |- context [insert_batches b ?c] =>
      destruct (insert_batches_accepted b c) as (c' & -> & C & _);
        [exact A|]
  end.
  cbn [fst]. rewrite C. reflexivity.
Qed.

(** C9.  A snapshot with a new timestamp, accepted by the database, is
    processed without touching the dimension rows already there: the
    [station] and [velo] tables committed afterwards are the earlier ones
    followed by rows whose key they lacked.  Yet every station observation
    of the file that carries a code, already known or not, has a new
    [etat_station] row under the new snapshot identifier, and every named
    bike under it a new [localisation_velo] row. *)
Theorem first_writer_wins (filename : string) (content : text)
  (timestamp : datetime) (cursor : Connection) (errors : Errors)
  (data : list json) :
  accepts cursor ->
  unseen timestamp (working cursor) ->
  facts_below (next_snapshot_id cursor) (working cursor) ->
  json_loads content = Some (JList data) ->
  extract (next_snapshot_id cursor) data <> None ->
  (exists new,
      station (stored_after filename content timestamp cursor errors)
      = (station (working cursor) ++ new)%list
      /\ forall r, In r new ->
                   existsb (same_station r) (station (working cursor))
                   = false)
  /\ (exists new,
         velo (stored_after filename content timestamp cursor errors)
         = (velo (working cursor) ++ new)%list
         /\ forall r, In r new ->
                      existsb (same_velo r) (velo (working cursor)) = false)
  /\ forall station_data info code,
       In station_data data ->
       Dyn.get station_data "station" (JObj []) = Some info ->
       Dyn.get info "code" JNull = Some code ->
       Dyn.truthy code = true ->
       (exists e,
           In e (etat_station
                   (stored_after filename content timestamp cursor errors))
           /\ ~ In e (etat_station (working cursor))
           /\ es_snapshot_id e = next_snapshot_id cursor
           /\ json_eqb code (es_station_code e) = true)
       /\ forall bikes_value bikes bike name,
            Dyn.get station_data "bikes" (JList []) = Some bikes_value ->
            Dyn.iter bikes_value = Some bikes ->
            In bike bikes ->
            Dyn.get bike "bikeName" JNull = Some name ->
            Dyn.truthy name = true ->
            exists l,
              In l (localisation_velo
                      (stored_after filename content timestamp cursor
                                    errors))
              /\ ~ In l (localisation_velo (working cursor))
              /\ lv_snapshot_id l = next_snapshot_id cursor
              /\ json_eqb name (lv_velo_name l) = true.
Proof.
  intros A U [Fe Fl] Hj He.
  destruct (extract (next_snapshot_id cursor) data) as [b|] eqn:Eb;
    [clear He|congruence].
  rewrite (process_file_content_accepted filename content timestamp cursor
             errors data b A U Hj Eb).
  unfold with_batches. cbn [station velo etat_station localisation_velo
    insert_station insert_velo insert_etat_station insert_localisation_velo].
  split; [|split].
  - destruct (insert_if_absent_extends same_station (station_buffer b)
                (station (working cursor))) as (new & E & Hnew).
    exists new. split; [exact E|]. intros r Hr. now destruct (Hnew r Hr).
  - destruct (insert_if_absent_extends same_velo (velo_buffer b)
                (velo (working cursor))) as (new & E & Hnew).
    exists new. split; [exact E|]. intros r Hr. now destruct (Hnew r Hr).
  - intros station_data info code Hin Hi Hc Ht.
    destruct (extract_spec _ _ _ _ _ _ Eb Hin Hi Hc Ht)
      as [(e0 & He0 & Hid0 & Hcode0) Hbikes].
    split.
    + destruct (insert_if_absent_covers same_etat (etat_station_buffer b)
                  (etat_station (working cursor)) e0 He0)
        as (e & He & Hsame).
      assert (K : es_snapshot_id e = next_snapshot_id cursor
                  /\ json_eqb code (es_station_code e) = true).
      { destruct Hsame as [->|Hsame].
        - split; [exact Hid0|]. rewrite Hcode0. apply json_eqb_refl.
        - unfold same_etat in Hsame.
          apply andb_true_iff in Hsame as [S1 S2].
          apply Z.eqb_eq in S1. rewrite Hcode0 in S2. split; congruence. }
      destruct K as [K1 K2]. exists e. repeat split; try assumption.
      intros Hold. rewrite Forall_forall in Fe.
      specialize (Fe e Hold). lia.
    + intros bikes_value bikes bike name G1 G2 G3 G4 G5.
      destruct (Hbikes bikes_value bikes bike name G1 G2 G3 G4 G5)
        as (l0 & Hl0 & Hlid0 & Hname0).
      destruct (insert_if_absent_covers same_loc
                  (localisation_velo_buffer b)
                  (localisation_velo (working cursor)) l0 Hl0)
        as (l & Hl & Hsame).
      assert (K : lv_snapshot_id l = next_snapshot_id cursor
                  /\ json_eqb name (lv_velo_name l) = true).
      { destruct Hsame as [->|Hsame].
        - split; [exact Hlid0|]. rewrite Hname0. apply json_eqb_refl.
        - unfold same_loc in Hsame.
          apply andb_true_iff in Hsame as [S1 S2].
          apply Z.eqb_eq in S1. rewrite Hname0 in S2. split; congruence. }
      destruct K as [K1 K2]. exists l. repeat split; try assumption.
      intros Hold. rewrite Forall_forall in Fl.
      specialize (Fl l Hold). lia.
Qed.

Lemma first_writer_wins_witness :
  exists new,
    station (stored_after "velib_20240101_080500_paris.json"
               (Encodes Scenario.second_snapshot) Scenario.at_0805
               Scenario.after_first no_errors)
    = (station (working Scenario.after_first) ++ new)%list
    /\ forall r, In r new ->
                 existsb (same_station r)
                         (station (working Scenario.after_first)) = false.
Proof.
  refine (proj1 (first_writer_wins
                   "velib_20240101_080500_paris.json"
                   (Encodes Scenario.second_snapshot) Scenario.at_0805
                   Scenario.after_first no_errors
                   [Scenario.observation "in_use" 3
                      [Scenario.bike (JStr "BIKE1") "in_use"]]
                   _ _ _ _ _)).
  - intros n. reflexivity.
  - vm_compute. reflexivity.
  - split; vm_compute; repeat constructor.
  - reflexivity.
  - vm_compute. discriminate.
Defined.

(** The two snapshots of the spec's scenario, imported in one run: the
    second adds its own state and location rows and leaves the station
    and the bike as the first wrote them. *)
Example scenario_two_snapshots :
  tables
    (fst (import_data_from_folder
            (Scenario.folder_of
               [("velib_20240101_080000_paris.json",
                 Some (Encodes Scenario.first_snapshot));
                ("velib_20240101_080500_paris.json",
                 Some (Encodes Scenario.second_snapshot))])
            (Scenario.folder_of
               [("velib_20240101_080000_paris.json",
                 Some (Encodes Scenario.first_snapshot));
                ("velib_20240101_080500_paris.json",
                 Some (Encodes Scenario.second_snapshot))])
            Scenario.calm Scenario.fresh_world))
  = mk_tables
      [mk_snapshot 1 Scenario.at_0800; mk_snapshot 2 Scenario.at_0805]
      [mk_station (JStr "16107") (JStr "Test") (JFloat (488 # 10))
                  (JFloat (23 # 10)) JNull JNull]
      [mk_velo (JStr "BIKE1") (JBool true)]
      [mk_etat 1 (JStr "16107") (JStr "ok") (JInt 1) (JInt 1) (JInt 5);
       mk_etat 2 (JStr "16107") (JStr "in_use") (JInt 3) (JInt 1) (JInt 5)]
      [mk_loc 1 (JStr "BIKE1") (JStr "16107") (JStr "free") (JInt 1);
       mk_loc 2 (JStr "BIKE1") (JStr "16107") (JStr "in_use") (JInt 1)].
Proof. vm_compute. reflexivity. Qed.

(* ================================================================= *)
(** * The identifiers stay below the sequence *)

Lemma ids_below_weaken (n m : Z) (t : Tables) :
  n <= m -> ids_below n t -> ids_below m t.
Proof.
  intros H (S1 & S2 & S3). repeat split.
  - eapply Forall_impl; [|exact S1]. cbn. intros; lia.
  - eapply Forall_impl; [|exact S2]. cbn. intros; lia.
  - eapply Forall_impl; [|exact S3]. cbn. intros; lia.
Qed.

Lemma insert_if_absent_Forall {R : Type} (same : R -> R -> bool)
  (P : R -> Prop) (rows table : list R) :
  Forall P table -> Forall P rows ->
  Forall P (insert_if_absent same table rows).
Proof.
  intros Ht Hr.
  destruct (insert_if_absent_extends same rows table) as (new & -> & Hnew).
  apply Forall_app. split; [exact Ht|].
  apply Forall_forall. intros r Hin. rewrite Forall_forall in Hr.
  apply Hr. now destruct (Hnew r Hin).
Qed.

Section ForallM.

Context {A B : Type} (f : B -> A -> option B) (P : B -> Prop).
Hypothesis f_keeps : forall b x b', P b -> f b x = Some b' -> P b'.

Lemma foldM_keeps (l : list A) (b b' : B) :
  P b -> foldM f l b = Some b' -> P b'.
Proof.
  revert b. induction l as [|x l IH]; intros b Hb; cbn [foldM].
  - now intros [= <-].
  - unfold bind. destruct (f b x) as [b1|] eqn:E; [|discriminate].
    apply IH. exact (f_keeps b x b1 Hb E).
Qed.

End ForallM.

Lemma extract_bike_stamped (snapshot_id : Z) (station_code : json)
  (b : Buffers) (bike : json) (b' : Buffers) :
  stamped snapshot_id b ->
  extract_bike snapshot_id station_code b bike = Some b' ->
  stamped snapshot_id b'.
Proof.
  intros [S1 S2]. unfold extract_bike. intros H.
  next_bind H as name0 En. destruct (Dyn.truthy name0); cbn [negb] in H.
  - next_bind H as electric Ee. next_bind H as status Es.
    next_bind H as dock Ed. injection H as <-. split; cbn; [exact S1|].
    apply Forall_app. split; [exact S2|]. now repeat constructor.
  - injection H as <-. now split.
Qed.

Lemma extract_station_stamped (snapshot_id : Z) (b : Buffers)
  (station_data : json) (b' : Buffers) :
  stamped snapshot_id b ->
  extract_station snapshot_id b station_data = Some b' ->
  stamped snapshot_id b'.
Proof.
  intros [S1 S2]. unfold extract_station. intros H.
  next_bind H as info0 Ei. next_bind H as code0 Ec.
  destruct (Dyn.truthy code0); cbn [negb] in H.
  - next_bind H as name0 E1. next_bind H as gps_lat E2.
    next_bind H as latitude E3. next_bind H as longitude E5.
    next_bind H as station_type E6. next_bind H as type0 E7.
    next_bind H as state E8. next_bind H as nb_bike E9.
    next_bind H as nb_ebike E10. next_bind H as nb_free_dock E11.
    next_bind H as bikes_value0 E12. next_bind H as bikes0 E13.
    refine (foldM_keeps (extract_bike snapshot_id code0)
              (stamped snapshot_id)
              (extract_bike_stamped snapshot_id code0) _ _ _ _ H).
    split; cbn; [|exact S2].
    apply Forall_app. split; [exact S1|]. now repeat constructor.
  - injection H as <-. now split.
Qed.

Lemma extract_stamped (snapshot_id : Z) (data : list json) (b : Buffers) :
  extract snapshot_id data = Some b -> stamped snapshot_id b.
Proof.
  unfold extract.
  apply (foldM_keeps (extract_station snapshot_id) (stamped snapshot_id)
           (extract_station_stamped snapshot_id)).
  split; constructor.
Qed.

Section PagesKeep.

Context {R : Type} (apply : Tables -> list R -> Tables).
Variables (P : Tables -> Prop) (Q : R -> Prop).
Hypothesis apply_keeps :
  forall t p, P t -> Forall Q p -> P (apply t p).

Lemma execute_pages_keeps (ps : list (list R)) (c : Connection) :
  P (working c) -> Forall (Forall Q) ps ->
  P (working (fst (execute_pages apply ps c))).
Proof.
  revert c. induction ps as [|p ps IH]; intros c Hc Hps; cbn; [exact Hc|].
  inversion Hps as [|? ? Hp Hps']; subst.
  destruct (refuses c (issued c)); cbn; [exact Hc|].
  apply IH; [|exact Hps']. cbn. now apply apply_keeps.
Qed.

Lemma pages_Forall (fuel : nat) (rows : list R) :
  Forall Q rows -> Forall (Forall Q) (pages fuel rows).
Proof.
  revert rows. induction fuel as [|fuel IH]; intros rows H; cbn;
    [constructor|].
  destruct rows as [|r rows]; [constructor|].
  rewrite <- (firstn_skipn page_size (r :: rows)) in H.
  apply Forall_app in H as [H1 H2]. constructor; [exact H1|now apply IH].
Qed.

Lemma execute_values_keeps (rows : list R) (c : Connection) :
  P (working c) -> Forall Q rows ->
  P (working (fst (when_nonempty rows (execute_values apply rows) c))).
Proof.
  intros Hc Hr. unfold when_nonempty, execute_values.
  destruct rows as [|r rows]; [exact Hc|].
  apply execute_pages_keeps; [exact Hc|]. now apply pages_Forall.
Qed.

End PagesKeep.

Lemma step_good {R : Type} (apply : Tables -> list R -> Tables)
  (Q : R -> Prop) (rows : list R) (n : Z) (c : Connection) :
  (forall t p, ids_below n t -> Forall Q p -> ids_below n (apply t p)) ->
  Forall Q rows -> good n c ->
  good n (fst (when_nonempty rows (execute_values apply rows) c)).
Proof.
  intros Ha Hr [[C W] N]. rewrite N in C, W.
  pose proof (execute_values_keeps apply (ids_below n) Q Ha rows c W Hr)
    as K.
  unfold when_nonempty, execute_values in *.
  destruct rows as [|r rows]; [cbn; unfold good, consistent; now rewrite N|].
  destruct (execute_pages_frame apply (paginate (r :: rows)) c)
    as (E1 & _ & E3).
  unfold good, consistent. rewrite E1, E3, N. auto.
Qed.

Lemma commit_good (n : Z) (c : Connection) :
  good n c -> good n (fst (commit c)).
Proof.
  intros [[C W] N]. unfold commit, good, consistent.
  destruct (refuses c (issued c)); cbn; auto.
Qed.

Lemma and_then_good (n : Z) (r : Connection * completion unit)
  (k : Connection -> Connection * completion unit) :
  good n (fst r) -> (forall c, good n c -> good n (fst (k c))) ->
  good n (fst (and_then r k)).
Proof.
  destruct r as [c [[]|]]; cbn; intros H K; [now apply K|exact H].
Qed.

Lemma insert_station_ids (n : Z) (t : Tables) (p : list station_row) :
  ids_below n t -> Forall (fun _ => True) p -> ids_below n (insert_station t p).
Proof. intros (S1 & S2 & S3) _. repeat split; assumption. Qed.

Lemma insert_velo_ids (n : Z) (t : Tables) (p : list velo_row) :
  ids_below n t -> Forall (fun _ => True) p -> ids_below n (insert_velo t p).
Proof. intros (S1 & S2 & S3) _. repeat split; assumption. Qed.

Lemma insert_etat_station_ids (n : Z) (t : Tables) (p : list etat_row) :
  ids_below n t -> Forall (fun e => es_snapshot_id e < n) p ->
  ids_below n (insert_etat_station t p).
Proof.
  intros (S1 & S2 & S3) Hp. repeat split; try assumption. cbn.
  now apply insert_if_absent_Forall.
Qed.

Lemma insert_localisation_velo_ids (n : Z) (t : Tables) (p : list loc_row) :
  ids_below n t -> Forall (fun l => lv_snapshot_id l < n) p ->
  ids_below n (insert_localisation_velo t p).
Proof.
  intros (S1 & S2 & S3) Hp. repeat split; try assumption. cbn.
  now apply insert_if_absent_Forall.
Qed.

Lemma insert_batches_good (snapshot_id n : Z) (b : Buffers)
  (c : Connection) :
  stamped snapshot_id b -> snapshot_id < n -> good n c ->
  good n (fst (insert_batches b c)).
Proof.
  intros [S1 S2] Hid Hc. unfold insert_batches.
  apply and_then_good.
  { apply (step_good insert_station (fun _ => True));
      [apply insert_station_ids|apply Forall_forall; auto|exact Hc]. }
  intros c1 H1. apply and_then_good.
  { apply (step_good insert_velo (fun _ => True));
      [apply insert_velo_ids|apply Forall_forall; auto|exact H1]. }
  intros c2 H2. apply and_then_good.
  { apply (step_good insert_etat_station (fun e => es_snapshot_id e < n));
      [apply insert_etat_station_ids| |exact H2].
    eapply Forall_impl; [|exact S1]. cbn. intros; lia. }
  intros c3 H3. apply and_then_good.
  { apply (step_good insert_localisation_velo
             (fun l => lv_snapshot_id l < n));
      [apply insert_localisation_velo_ids| |exact H3].
    eapply Forall_impl; [|exact S2]. cbn. intros; lia. }
  intros c4 H4. now apply commit_good.
Qed.

Lemma rollback_consistent (c : Connection) :
  consistent c -> consistent (rollback c).
Proof. intros [C _]. now split. Qed.

(** The snapshot statement keeps the connection consistent and answers
    an identifier below the sequence. *)
Lemma insert_snapshot_and_get_id_consistent (timestamp : datetime)
  (c : Connection) :
  consistent c ->
  consistent (fst (insert_snapshot_and_get_id c timestamp))
  /\ forall id, snd (insert_snapshot_and_get_id c timestamp) = Some id ->
                id < next_snapshot_id
                       (fst (insert_snapshot_and_get_id c timestamp)).
Proof.
  intros [C W]. unfold insert_snapshot_and_get_id, upsert_snapshot.
  destruct (refuses c (issued c)); cbn.
  - split; [now split|discriminate].
  - destruct (find _ (snapshot (working c))) as [r|] eqn:F; cbn.
    + split.
      * split;
          [apply (ids_below_weaken (next_snapshot_id c)); [cbn; lia|exact C]
          |apply (ids_below_weaken (next_snapshot_id c)); [cbn; lia|exact W]].
      * intros id [= <-]. apply find_some in F as [Hin _].
        destruct W as (S1 & _). rewrite Forall_forall in S1.
        specialize (S1 r Hin). lia.
    + split; [|intros id [= <-]; lia].
      split; [apply (ids_below_weaken (next_snapshot_id c));
                [cbn; lia|exact C]|].
      destruct W as (S1 & S2 & S3). repeat split; cbn.
      * apply Forall_app. split.
        -- eapply Forall_impl; [|exact S1]. cbn. intros; lia.
        -- repeat constructor. cbn. lia.
      * eapply Forall_impl; [|exact S2]. cbn. intros; lia.
      * eapply Forall_impl; [|exact S3]. cbn. intros; lia.
Qed.

(** [process_file_content] keeps the connection consistent, whatever the
    content and whatever the database refuses. *)
Lemma process_file_content_consistent (filename : string) (content : text)
  (timestamp : datetime) (c : Connection) (errors : Errors) :
  consistent c ->
  consistent (fst (process_file_content filename content timestamp c
                                        errors)).
Proof.
  intros Hc. unfold process_file_content.
  destruct (insert_snapshot_and_get_id_consistent timestamp c Hc)
    as [C1 Hid].
  destruct (insert_snapshot_and_get_id c timestamp) as [c1 [id|]];
    cbn [fst snd] in *; [|exact C1].
  specialize (Hid id eq_refl). unfold try_block.
  destruct (json_loads content) as [[| | | | |data|]|]; cbn [fst];
    try exact C1; try (now apply rollback_consistent).
  destruct (extract id data) as [b|] eqn:E; cbn [fst];
    [|now apply rollback_consistent].
  pose proof (insert_batches_good id (next_snapshot_id c1) b c1
                (extract_stamped id data b E) Hid (conj C1 eq_refl))
    as [G _].
  destruct (insert_batches b c1) as [c2 [[]|]]; cbn [fst] in *;
    [exact G|now apply rollback_consistent].
Qed.

(* ================================================================= *)
(** * Properties of the progress record *)

(** C6.  [rebuild_progress_from_database] answers [{"done": names}] where
    the names are exactly the files of the directory of [DATA_FOLDER] that
    end in [.json] or [.gz] and whose name carries the timestamp of a
    stored snapshot; a file whose name carries no timestamp is not among
    them. *)
Theorem rebuild_progress_exact (DATA_FOLDER : Folder) (db : Tables) :
  exists done_files : list string,
    rebuild_progress_from_database DATA_FOLDER db
    = JObj [("done", JList (map JStr done_files))]
    /\ (forall f,
           In f done_files <->
           In f (listdir DATA_FOLDER) /\ is_candidate f = true
           /\ exists t, parse_timestamp_from_filename f = Some t
                        /\ In t (map timestamp_capture (snapshot db)))
    /\ (forall f,
           parse_timestamp_from_filename f = None -> ~ In f done_files).
Proof.
  unfold rebuild_progress_from_database. eexists. split; [reflexivity|].
  assert (K : forall f,
             In f (filter
                     (fun filename =>
                        match parse_timestamp_from_filename filename with
                        | Some timestamp =>
                            existsb (datetime_eqb timestamp)
                                    (map timestamp_capture (snapshot db))
                        | None => false
                        end)
                     (filter is_candidate (listdir DATA_FOLDER)))
             <-> In f (listdir DATA_FOLDER) /\ is_candidate f = true
                 /\ exists t, parse_timestamp_from_filename f = Some t
                              /\ In t (map timestamp_capture (snapshot db))).
  { intros f. rewrite !filter_In. split.
    - intros [[Hin Hc] Ht].
      destruct (parse_timestamp_from_filename f) as [t|]; [|discriminate].
      apply existsb_exists in Ht as (t' & Hin' & Heq).
      apply datetime_eqb_eq in Heq. subst t'. eauto.
    - intros (Hin & Hc & t & -> & Ht). repeat split; try assumption.
      apply existsb_exists. exists t. split; [exact Ht|].
      now apply datetime_eqb_eq. }
  split; [exact K|].
  intros f Hnone Hin. apply K in Hin as (_ & _ & t & Ht & _). congruence.
Qed.

(** C10.  A progress file holding a JSON value that is not an object with
    a ["done"] entry is handed over as it is by [load_progress], and
    [import_data_from_folder] then raises on [progress["done"]] before it
    has touched anything. *)
Theorem load_progress_unvalidated (DATA_FOLDER data_folder : Folder)
  (env : Environment) (w : World) (value : json) :
  progress_file w = Some (Encodes value) ->
  Dyn.subscript value "done" = None ->
  load_progress DATA_FOLDER w = value
  /\ import_data_from_folder DATA_FOLDER data_folder env w = (w, Raised).
Proof.
  intros Hf Hd. unfold import_data_from_folder, load_progress.
  rewrite Hf. cbn [json_loads]. rewrite Hd. auto.
Qed.

Lemma load_progress_unvalidated_witness :
  (load_progress
     (Scenario.folder_of
        [("velib_20240101_080000_paris.json",
          Some (Encodes Scenario.first_snapshot))])
     (mk_world Scenario.empty_tables 1 (Some (Encodes (JList []))))
   = JList []
   /\ import_data_from_folder
        (Scenario.folder_of
           [("velib_20240101_080000_paris.json",
             Some (Encodes Scenario.first_snapshot))])
        (Scenario.folder_of
           [("velib_20240101_080000_paris.json",
             Some (Encodes Scenario.first_snapshot))])
        Scenario.calm
        (mk_world Scenario.empty_tables 1 (Some (Encodes (JList []))))
      = (mk_world Scenario.empty_tables 1 (Some (Encodes (JList []))),
         Raised))
  /\ import_data_from_folder
       (Scenario.folder_of
          [("velib_20240101_080000_paris.json",
            Some (Encodes Scenario.first_snapshot))])
       (Scenario.folder_of
          [("velib_20240101_080000_paris.json",
            Some (Encodes Scenario.first_snapshot))])
       Scenario.calm
       (mk_world Scenario.empty_tables 1
                 (Some (Encodes (JObj [("files", JList [])]))))
     = (mk_world Scenario.empty_tables 1
                 (Some (Encodes (JObj [("files", JList [])]))), Raised).
Proof.
  split.
  - exact (load_progress_unvalidated
             (Scenario.folder_of
                [("velib_20240101_080000_paris.json",
                  Some (Encodes Scenario.first_snapshot))])
             (Scenario.folder_of
                [("velib_20240101_080000_paris.json",
                  Some (Encodes Scenario.first_snapshot))])
             Scenario.calm
             (mk_world Scenario.empty_tables 1 (Some (Encodes (JList []))))
             (JList []) eq_refl eq_refl).
  - exact (proj2 (load_progress_unvalidated
                    (Scenario.folder_of
                       [("velib_20240101_080000_paris.json",
                         Some (Encodes Scenario.first_snapshot))])
                    (Scenario.folder_of
                       [("velib_20240101_080000_paris.json",
                         Some (Encodes Scenario.first_snapshot))])
                    Scenario.calm
                    (mk_world Scenario.empty_tables 1
                              (Some (Encodes (JObj [("files", JList [])]))))
                    (JObj [("files", JList [])]) eq_refl eq_refl)).
Defined.

(* ================================================================= *)
(** * Properties of the driver loop *)

Lemma assoc_set_same (k : string) (v : json) (kv : list (string * json)) :
  Dyn.assoc k kv <> None -> Dyn.assoc k (Dyn.assoc_set k v kv) = Some v.
Proof.
  induction kv as [|[k' v'] kv IH]; cbn; [congruence|].
  destruct (String.eqb k' k) eqn:E; cbn; rewrite E; auto.
Qed.

Lemma append_at_done (p : json) (l : list json) (x : json) :
  Dyn.subscript p "done" = Some (JList l) ->
  exists p',
    Dyn.append_at p "done" x = Some p'
    /\ Dyn.subscript p' "done" = Some (JList (l ++ [x])).
Proof.
  destruct p; try discriminate. cbn. intros H. rewrite H.
  eexists. split; [reflexivity|]. cbn. apply assoc_set_same. congruence.
Qed.

Lemma str_in_app (f : string) (l l' : list json) :
  Dyn.str_in f (l ++ l') = Dyn.str_in f l || Dyn.str_in f l'.
Proof. unfold Dyn.str_in. apply existsb_app. Qed.

Lemma str_in_names (f : string) (names : list string) :
  Dyn.str_in f (map JStr names) = true <-> In f names.
Proof.
  unfold Dyn.str_in. rewrite existsb_exists. split.
  - intros (x & Hin & Hx). apply in_map_iff in Hin as (g & <- & Hg).
    apply String.eqb_eq in Hx. now subst.
  - intros H. exists (JStr f). split; [now apply in_map|].
    apply String.eqb_refl.
Qed.

Section Loop.

Variable data_folder : Folder.
Variable env : Environment.

(** An unreadable file costs one [generic_error] and nothing else. *)
Lemma process_one_unreadable (filename : string) (st : RunState) :
  unreadable data_folder filename = true ->
  process_one data_folder env filename st = (bump_generic st, Returned tt).
Proof.
  unfold unreadable, process_one, file_try.
  destruct (parse_timestamp_from_filename filename); [|discriminate].
  destruct (read_file data_folder filename); [discriminate|]. reflexivity.
Qed.

(** Any other file is appended to the done list, and the record saved
    when the disk lets it. *)
Lemma process_one_marks (filename : string) (st : RunState)
  (done : list json) :
  Dyn.subscript (progress st) "done" = Some (JList done) ->
  save_faults env (saves st) = NoFault ->
  unreadable data_folder filename = false ->
  exists c e p,
    process_one data_folder env filename st
    = (mk_state c p e (Some (json_dump p)) (S (saves st)), Returned tt)
    /\ Dyn.subscript p "done" = Some (JList (done ++ [JStr filename])).
Proof.
  intros Hd Hs Hu.
  destruct (append_at_done (progress st) done (JStr filename) Hd)
    as (p & Ha & Hp).
  unfold unreadable in Hu. unfold process_one, file_try.
  destruct (parse_timestamp_from_filename filename) as [timestamp|].
  - destruct (read_file data_folder filename) as [content|];
      [|discriminate].
    destruct (process_file_content filename content timestamp (cursor st)
                                   (errors st)) as [c e].
    unfold mark_done. cbn [progress]. rewrite Ha.
    unfold save_progress. cbn [saves progress cursor errors pfile].
    rewrite Hs. exists c, e, p. split; [reflexivity|exact Hp].
  - unfold mark_done, bump_generic. cbn [progress]. rewrite Ha.
    unfold save_progress. cbn [saves progress cursor errors pfile].
    rewrite Hs. eexists _, _, p. split; [reflexivity|exact Hp].
Qed.


(** A list of unreadable files leaves the connection, the progress record
    and the progress file as they were. *)
Lemma process_all_unreadable (files : list string) (st : RunState) :
  forallb (unreadable data_folder) files = true ->
  exists e,
    process_all data_folder env files st
    = (mk_state (cursor st) (progress st) e (pfile st) (saves st),
       Returned tt).
Proof.
  revert st. induction files as [|f files IH]; intros st; cbn [forallb].
  - intros _. exists (errors st). now destruct st.
  - intros H. apply andb_true_iff in H as [Hf Hfs].
    cbn [process_all]. rewrite (process_one_unreadable f st Hf).
    destruct (IH (bump_generic st) Hfs) as (e & ->). now exists e.
Qed.

Hypothesis healthy : disk_healthy env.

(** The loop on a healthy disk: it ends normally, the done list has grown
    by the files that were not unreadable, in order, and the progress file
    holds the final record if there was any such file. *)
Lemma process_all_healthy (files : list string) (st : RunState)
  (done : list json) :
  Dyn.subscript (progress st) "done" = Some (JList done) ->
  exists st',
    process_all data_folder env files st = (st', Returned tt)
    /\ Dyn.subscript (progress st') "done"
       = Some (JList (done ++ map JStr
                        (filter (fun f => negb (unreadable data_folder f))
                                files)))
    /\ ((forallb (unreadable data_folder) files = false
         /\ pfile st' = Some (json_dump (progress st')))
        \/ (forallb (unreadable data_folder) files = true
            /\ progress st' = progress st /\ cursor st' = cursor st
            /\ pfile st' = pfile st)).
Proof.
  revert st done. induction files as [|f files IH]; intros st done Hd.
  - exists st. cbn. rewrite app_nil_r.
    split; [reflexivity|]. split; [exact Hd|]. right. repeat split.
  - cbn [process_all filter forallb].
    destruct (unreadable data_folder f) eqn:Hu; cbn [negb andb].
    + rewrite (process_one_unreadable f st Hu).
      destruct (IH (bump_generic st) done Hd) as (st' & -> & Hd' & Hp).
      exists st'. split; [reflexivity|]. split; [exact Hd'|exact Hp].
    + destruct (process_one_marks f st done Hd (healthy (saves st)) Hu)
        as (c & e & p & -> & Hp).
      destruct (IH (mk_state c p e (Some (json_dump p)) (S (saves st))) _ Hp)
        as (st' & -> & Hd' & Hpf).
      exists st'. split; [reflexivity|]. split.
      * rewrite Hd'. cbn [map]. now rewrite <- app_assoc.
      * left. split; [reflexivity|].
        destruct Hpf as [[_ H]|(_ & Hprog & _ & Hfile)]; [exact H|].
        cbn in Hprog, Hfile. now rewrite Hfile, Hprog.
Qed.

End Loop.






(** C8, as the code has it.  A write of the progress file that fails is
    fatal on the path of a name without timestamp, where [save_progress]
    stands outside any handler: the loop, and with it the run, ends by
    the exception.  After [process_file_content] the call stands inside
    the [try] of the loop body: the failure is caught, counted as one more
    [generic_error], and the loop goes on with the next file. *)
Theorem save_failure_fatal_only_without_timestamp (data_folder : Folder)
  (env : Environment) (filename : string) (files : list string)
  (st : RunState) (done : list json) :
  Dyn.subscript (progress st) "done" = Some (JList done) ->
  save_faults env (saves st) <> NoFault ->
  (parse_timestamp_from_filename filename = None ->
   snd (process_all data_folder env (filename :: files) st) = Raised)
  /\ (forall timestamp content,
         parse_timestamp_from_filename filename = Some timestamp ->
         read_file data_folder filename = Some content ->
         exists st1,
           process_one data_folder env filename st = (st1, Returned tt)
           /\ errors st1
              = count_generic_error
                  (snd (process_file_content filename content timestamp
                          (cursor st) (errors st)))
           /\ process_all data_folder env (filename :: files) st
              = process_all data_folder env files st1).
Proof.
  intros Hd Hs.
  destruct (append_at_done (progress st) done (JStr filename) Hd)
    as (p & Ha & _).
  split.
  - intros Hp. cbn [process_all]. unfold process_one. rewrite Hp.
    unfold mark_done, bump_generic. cbn [progress]. rewrite Ha.
    unfold save_progress. cbn [saves].
    destruct (save_faults env (saves st)); [congruence| |]; reflexivity.
  - intros timestamp content Hp Hr. cbn [process_all].
    unfold process_one, file_try. rewrite Hp, Hr.
    destruct (process_file_content filename content timestamp (cursor st)
                                   (errors st)) as [c e].
    unfold mark_done. cbn [progress]. rewrite Ha.
    unfold save_progress. cbn [saves].
    destruct (save_faults env (saves st)); [congruence| |];
      eexists; (split; [reflexivity|split; reflexivity]).
Qed.

Lemma save_failure_fatal_only_without_timestamp_witness :
  snd (process_all
         (Scenario.folder_of [("notes.json", Some Garbled)])
         (mk_env (fun _ => false) (fun _ => OpenFails))
         ["notes.json"]
         (mk_state Scenario.accepting (JObj [("done", JList [])]) no_errors
                   None 0))
  = Raised.
Proof.
  refine (proj1 (save_failure_fatal_only_without_timestamp
                   (Scenario.folder_of [("notes.json", Some Garbled)])
                   (mk_env (fun _ => false) (fun _ => OpenFails))
                   "notes.json" []
                   (mk_state Scenario.accepting (JObj [("done", JList [])])
                             no_errors None 0)
                   [] eq_refl _) eq_refl).
  discriminate.
Defined.

(** C8 as the spec words it fails: a run whose one file is stored but
    whose write of the progress file fails ends normally, the failure
    counted under [generic_error]. *)
Lemma save_failure_swallowed :
  snd (import_data_from_folder
         (Scenario.folder_of
            [("velib_20240101_080000_paris.json",
              Some (Encodes Scenario.first_snapshot))])
         (Scenario.folder_of
            [("velib_20240101_080000_paris.json",
              Some (Encodes Scenario.first_snapshot))])
         (mk_env (fun _ => false) (fun _ => OpenFails))
         Scenario.fresh_world)
  = Returned (mk_errors 0 0 1).
Proof. vm_compute. reflexivity. Qed.

(* ================================================================= *)
(** * Running the import twice *)

Lemma world_eta (w : World) :
  mk_world (tables w) (sequence w) (progress_file w) = w.
Proof. now destruct w. Qed.

(** A run whose remaining files are all unreadable leaves the world as it
    found it. *)
Lemma import_all_unreadable (DATA_FOLDER data_folder : Folder)
  (env : Environment) (w : World) (done_files : list json) :
  bind (Dyn.subscript (load_progress DATA_FOLDER w) "done") Dyn.set_of
  = Some done_files ->
  forallb (unreadable data_folder)
          (remaining (filter is_candidate (listdir data_folder)) done_files)
  = true ->
  fst (import_data_from_folder DATA_FOLDER data_folder env w) = w.
Proof.
  intros E H. unfold import_data_from_folder. rewrite E.
  destruct (process_all_unreadable data_folder env _
              (mk_state (get_db_connection env w)
                        (load_progress DATA_FOLDER w) no_errors
                        (progress_file w) 0) H) as (e & ->).
  cbn. apply world_eta.
Qed.

(** A run that raises on the progress record has touched nothing. *)
Lemma import_no_done (DATA_FOLDER data_folder : Folder) (env : Environment)
  (w : World) :
  bind (Dyn.subscript (load_progress DATA_FOLDER w) "done") Dyn.set_of
  = None ->
  import_data_from_folder DATA_FOLDER data_folder env w = (w, Raised).
Proof. intros E. unfold import_data_from_folder. now rewrite E. Qed.

Lemma set_of_list (v : json) (l : list json) :
  Dyn.set_of v = Some l ->
  match v with
  | JStr _ | JObj _ => True
  | JList l' => l' = l /\ forallb Dyn.hashable l = true
  | _ => False
  end.
Proof.
  unfold Dyn.set_of. destruct v; cbn; try discriminate; auto.
  destruct (forallb Dyn.hashable items) eqn:E; [|discriminate].
  intros [= <-]. auto.
Qed.

(** From a usable progress file, a done set that could be built comes
    from a done list. *)
Lemma load_done_list (DATA_FOLDER : Folder) (w : World)
  (done_files : list json) :
  progress_file_usable w ->
  bind (Dyn.subscript (load_progress DATA_FOLDER w) "done") Dyn.set_of
  = Some done_files ->
  Dyn.subscript (load_progress DATA_FOLDER w) "done"
  = Some (JList done_files)
  /\ forallb Dyn.hashable done_files = true.
Proof.
  unfold progress_file_usable, load_progress.
  destruct (progress_file w) as [[| |value]|]; cbn [json_loads].
  1, 2, 4: intros _; unfold rebuild_progress_from_database; cbn;
    destruct (forallb Dyn.hashable _) eqn:E; [|discriminate];
    intros [= <-]; auto.
  intros U. destruct (Dyn.subscript value "done") as [v|]; [|discriminate].
  cbn [bind]. intros H. apply set_of_list in H.
  destruct v; try contradiction. now destruct H as [-> ->].
Qed.

Lemma forallb_hashable_names (names : list string) :
  forallb Dyn.hashable (map JStr names) = true.
Proof. induction names; cbn; auto. Qed.

(** C1.  On a disk where the progress file can be written, and from a
    progress file that is usable, a second run over the same directory
    leaves the world of the first run as it is, whatever the database
    refuses in either run: the same [snapshot], [station], [velo],
    [etat_station] and [localisation_velo] rows (and the same sequence and
    progress file).  The remaining files of a run are the candidates that
    are not in its done set. *)
Theorem import_twice_same_state (DATA_FOLDER data_folder : Folder)
  (env1 env2 : Environment) (w : World) :
  disk_healthy env1 ->
  progress_file_usable w ->
  fst (import_data_from_folder DATA_FOLDER data_folder env2
         (fst (import_data_from_folder DATA_FOLDER data_folder env1 w)))
  = fst (import_data_from_folder DATA_FOLDER data_folder env1 w)
  /\ (forall all_files done_files f,
         In f (remaining all_files done_files) <->
         In f all_files /\ Dyn.str_in f done_files = false).
Proof.
  intros Hh Hu. split.
  2: { intros all_files done_files f. unfold remaining.
       rewrite filter_In, negb_true_iff. reflexivity. }
  destruct (bind (Dyn.subscript (load_progress DATA_FOLDER w) "done")
                 Dyn.set_of) as [done_files|] eqn:E.
  2: { rewrite (import_no_done DATA_FOLDER data_folder env1 w E). cbn [fst].
       now rewrite (import_no_done DATA_FOLDER data_folder env2 w E). }
  destruct (load_done_list DATA_FOLDER w done_files Hu E) as [Hd Hhash].
  set (all_files := filter is_candidate (listdir data_folder)).
  set (R := remaining all_files done_files).
  destruct (process_all_healthy data_folder env1 Hh R
              (mk_state (get_db_connection env1 w)
                        (load_progress DATA_FOLDER w) no_errors
                        (progress_file w) 0) done_files Hd)
    as (st' & Hrun & Hd' & Hcase).
  assert (E1 : fst (import_data_from_folder DATA_FOLDER data_folder env1 w)
               = world_after st').
  { unfold import_data_from_folder. rewrite E. fold all_files. fold R.
    now rewrite Hrun. }
  rewrite E1.
  destruct Hcase as [[Hsome Hfile]|(Hall & Hprog & Hcur & Hfile)].
  - (* the first run saved its record: the second run reads it *)
    assert (L : load_progress DATA_FOLDER (world_after st')
                = progress st').
    { unfold load_progress, world_after. cbn [progress_file].
      rewrite Hfile. reflexivity. }
    apply import_all_unreadable
      with (done_files :=
              (done_files
                 ++ map JStr
                      (filter (fun f => negb (unreadable data_folder f)) R))
              %list).
    + rewrite L, Hd'. cbn [bind]. unfold Dyn.set_of. cbn [Dyn.iter].
      now rewrite forallb_app, Hhash, forallb_hashable_names.
    + fold all_files. apply forallb_forall. intros f Hf.
      unfold remaining in Hf. apply filter_In in Hf as [Hin Hnot].
      rewrite negb_true_iff, str_in_app in Hnot.
      apply orb_false_iff in Hnot as [N1 N2].
      destruct (unreadable data_folder f) eqn:Uf; [reflexivity|].
      assert (K : In f (filter (fun f => negb (unreadable data_folder f)) R)).
      { apply filter_In. split; [|now rewrite Uf].
        unfold R, remaining. apply filter_In. now rewrite N1. }
      apply str_in_names in K. congruence.
  - (* the first run met unreadable files only and changed nothing *)
    assert (W : world_after st' = w).
    { unfold world_after. rewrite Hcur, Hfile. cbn. apply world_eta. }
    rewrite W.
    exact (import_all_unreadable DATA_FOLDER data_folder env2 w done_files
             E Hall).
Qed.

Lemma import_twice_same_state_witness :
  fst (import_data_from_folder
         (Scenario.folder_of
            [("velib_20240101_080000_paris.json",
              Some (Encodes Scenario.first_snapshot));
             ("velib_20240101_080500_paris.json", None);
             ("notes.json", Some Garbled)])
         (Scenario.folder_of
            [("velib_20240101_080000_paris.json",
              Some (Encodes Scenario.first_snapshot));
             ("velib_20240101_080500_paris.json", None);
             ("notes.json", Some Garbled)])
         (mk_env (fun _ => true) (fun _ => OpenFails))
         (fst (import_data_from_folder
                 (Scenario.folder_of
                    [("velib_20240101_080000_paris.json",
                      Some (Encodes Scenario.first_snapshot));
                     ("velib_20240101_080500_paris.json", None);
                     ("notes.json", Some Garbled)])
                 (Scenario.folder_of
                    [("velib_20240101_080000_paris.json",
                      Some (Encodes Scenario.first_snapshot));
                     ("velib_20240101_080500_paris.json", None);
                     ("notes.json", Some Garbled)])
                 Scenario.calm Scenario.fresh_world)))
  = fst (import_data_from_folder
           (Scenario.folder_of
              [("velib_20240101_080000_paris.json",
                Some (Encodes Scenario.first_snapshot));
               ("velib_20240101_080500_paris.json", None);
               ("notes.json", Some Garbled)])
           (Scenario.folder_of
              [("velib_20240101_080000_paris.json",
                Some (Encodes Scenario.first_snapshot));
               ("velib_20240101_080500_paris.json", None);
               ("notes.json", Some Garbled)])
           Scenario.calm Scenario.fresh_world).
Proof.
  exact (proj1 (import_twice_same_state
                  (Scenario.folder_of
                     [("velib_20240101_080000_paris.json",
                       Some (Encodes Scenario.first_snapshot));
                      ("velib_20240101_080500_paris.json", None);
                      ("notes.json", Some Garbled)])
                  (Scenario.folder_of
                     [("velib_20240101_080000_paris.json",
                       Some (Encodes Scenario.first_snapshot));
                      ("velib_20240101_080500_paris.json", None);
                      ("notes.json", Some Garbled)])
                  Scenario.calm
                  (mk_env (fun _ => true) (fun _ => OpenFails))
                  Scenario.fresh_world
                  (fun n => eq_refl) I)).
Defined.

(** The assumption on the progress file is kept by the pipeline itself:
    a run on a healthy disk leaves a usable progress file usable. *)
Lemma import_keeps_usable (DATA_FOLDER data_folder : Folder)
  (env : Environment) (w : World) :
  disk_healthy env ->
  progress_file_usable w ->
  progress_file_usable
    (fst (import_data_from_folder DATA_FOLDER data_folder env w)).
Proof.
  intros Hh Hu.
  destruct (bind (Dyn.subscript (load_progress DATA_FOLDER w) "done")
                 Dyn.set_of) as [done_files|] eqn:E.
  2: { now rewrite (import_no_done DATA_FOLDER data_folder env w E). }
  destruct (load_done_list DATA_FOLDER w done_files Hu E) as [Hd _].
  destruct (process_all_healthy data_folder env Hh
              (remaining (filter is_candidate (listdir data_folder))
                         done_files)
              (mk_state (get_db_connection env w)
                        (load_progress DATA_FOLDER w) no_errors
                        (progress_file w) 0) done_files Hd)
    as (st' & Hrun & Hd' & Hcase).
  unfold import_data_from_folder. rewrite E, Hrun. cbn [fst].
  unfold progress_file_usable, world_after. cbn [progress_file].
  destruct Hcase as [[_ Hfile]|(_ & _ & _ & Hfile)]; rewrite Hfile.
  - unfold json_dump. now rewrite Hd'.
  - exact Hu.
Qed.

(* ================================================================= *)
(** * The store stays consistent across runs *)

Lemma save_progress_cursor (env : Environment) (st : RunState) :
  cursor (fst (save_progress env st)) = cursor st.
Proof. unfold save_progress. now destruct (save_faults env (saves st)). Qed.

Lemma mark_done_cursor (filename : string) (st : RunState) :
  cursor (fst (mark_done filename st)) = cursor st.
Proof. unfold mark_done. now destruct (Dyn.append_at _ _ _). Qed.

Lemma process_one_consistent (data_folder : Folder) (env : Environment)
  (filename : string) (st : RunState) :
  consistent (cursor st) ->
  consistent (cursor (fst (process_one data_folder env filename st))).
Proof.
  intros Hc. unfold process_one.
  destruct (parse_timestamp_from_filename filename) as [timestamp|].
  - unfold file_try.
    destruct (read_file data_folder filename) as [content|]; [|exact Hc].
    pose proof (process_file_content_consistent filename content timestamp
                  (cursor st) (errors st) Hc) as K.
    destruct (process_file_content filename content timestamp (cursor st)
                                   (errors st)) as [c e].
    cbn [fst] in K.
    pose proof (mark_done_cursor filename
                  (mk_state c (progress st) e (pfile st) (saves st))) as M.
    destruct (mark_done filename _) as [st2 [[]|]]; cbn [fst cursor] in *.
    + pose proof (save_progress_cursor env st2) as S.
      destruct (save_progress env st2) as [st3 [[]|]];
        cbn [fst cursor bump_generic] in *; congruence.
    + cbn. congruence.
  - pose proof (mark_done_cursor filename (bump_generic st)) as M.
    destruct (mark_done filename (bump_generic st)) as [st1 [[]|]];
      cbn [fst cursor bump_generic] in *.
    + pose proof (save_progress_cursor env st1) as S. congruence.
    + congruence.
Qed.

Lemma process_all_consistent (data_folder : Folder) (env : Environment)
  (files : list string) (st : RunState) :
  consistent (cursor st) ->
  consistent (cursor (fst (process_all data_folder env files st))).
Proof.
  revert st. induction files as [|f files IH]; intros st Hc; cbn;
    [exact Hc|].
  pose proof (process_one_consistent data_folder env f st Hc) as K.
  destruct (process_one data_folder env f st) as [st1 [[]|]];
    cbn [fst] in *; [now apply IH|exact K].
Qed.

(** Every run hands over a store whose identifiers were drawn from its
    sequence, provided it was given one. *)
Lemma import_keeps_ids_below (DATA_FOLDER data_folder : Folder)
  (env : Environment) (w : World) :
  ids_below (sequence w) (tables w) ->
  ids_below
    (sequence (fst (import_data_from_folder DATA_FOLDER data_folder env w)))
    (tables (fst (import_data_from_folder DATA_FOLDER data_folder env w))).
Proof.
  intros H. unfold import_data_from_folder.
  destruct (bind _ Dyn.set_of) as [done_files|]; [|exact H].
  match goal with
  | |- context [process_all data_folder env ?fs ?st] =>
      pose proof (process_all_consistent data_folder env fs st
                    (conj H H)) as [K _];
        destruct (process_all data_folder env fs st) as [st' [[]|]]
  end; exact K.
Qed.

(* ================================================================= *)
(** * Further properties: the parser *)

(** X1.  Only the second and third underscore-separated pieces of a name
    count: whatever the prefix, and whatever follows a third underscore,
    the answer is that of [strptime] on the two pieces joined by an
    underscore. *)
Theorem parse_reads_two_pieces (prefix date time tail : string) :
  all_chars not_underscore prefix = true ->
  all_chars not_underscore date = true ->
  all_chars not_underscore time = true ->
  tail = "" \/ (exists rest, tail = String "_" rest) ->
  parse_timestamp_from_filename
    (prefix ++ "_" ++ date ++ "_" ++ time ++ tail)
  = strptime (date ++ "_" ++ time).
Proof.
  intros Hp Hd Ht Htail. unfold parse_timestamp_from_filename.
  cbn [append]. rewrite (split_app_sep "_" prefix _ Hp).
  rewrite (split_app_sep "_" date _ Hd).
  assert (P : exists more, Py.split "_" (time ++ tail) = time :: more).
  { destruct Htail as [->|[rest ->]].
    - rewrite string_app_nil_r, (split_no_sep "_" time Ht). now exists [].
    - rewrite (split_app_sep "_" time _ Ht). eauto. }
  destruct P as [more ->]. reflexivity.
Qed.

Lemma parse_reads_two_pieces_witness :
  parse_timestamp_from_filename "stations_20240101_080000_v2_final.json"
  = strptime "20240101_080000".
Proof.
  exact (parse_reads_two_pieces "stations" "20240101" "080000"
           "_v2_final.json" eq_refl eq_refl eq_refl
           (or_intror (ex_intro _ "v2_final.json" eq_refl))).
Defined.

(* ================================================================= *)
(** * Further properties: the snapshot row and the transaction *)

Lemma datetime_eqb_refl (t : datetime) : datetime_eqb t t = true.
Proof. now apply datetime_eqb_eq. Qed.

Lemma find_app_new {A : Type} (p : A -> bool) (l : list A) (x : A) :
  find p l = None -> p x = true -> find p (l ++ [x]) = Some x.
Proof.
  induction l as [|y l IH]; cbn; intros H Hx; [now rewrite Hx|].
  destruct (p y); [discriminate|now apply IH].
Qed.

(** X2.  Asking twice for the snapshot row of a timestamp, within one
    transaction that the database accepts, answers the same identifier
    both times and inserts at most once: the second call leaves the
    tables of the transaction as the first left them. *)
Theorem snapshot_upsert_idempotent (timestamp : datetime) (c : Connection) :
  refuses c (issued c) = false ->
  refuses c (S (issued c)) = false ->
  (exists id, snd (insert_snapshot_and_get_id c timestamp) = Some id)
  /\ snd (insert_snapshot_and_get_id
            (fst (insert_snapshot_and_get_id c timestamp)) timestamp)
     = snd (insert_snapshot_and_get_id c timestamp)
  /\ working (fst (insert_snapshot_and_get_id
                     (fst (insert_snapshot_and_get_id c timestamp))
                     timestamp))
     = working (fst (insert_snapshot_and_get_id c timestamp)).
Proof.
  intros A0 A1.
  destruct (find (fun r => datetime_eqb (timestamp_capture r) timestamp)
                 (snapshot (working c))) as [r|] eqn:F.
  - assert (E : insert_snapshot_and_get_id c timestamp
                = (mk_conn (committed c) (working c) (next_snapshot_id c + 1)
                           (S (issued c)) (refuses c), Some (snap_id r))).
    { unfold insert_snapshot_and_get_id, upsert_snapshot.
      now rewrite A0, F. }
    rewrite E. cbn [fst snd]. split; [eauto|].
    unfold insert_snapshot_and_get_id, upsert_snapshot.
    cbn [refuses issued working]. rewrite A1, F. cbn. auto.
  - assert (E : insert_snapshot_and_get_id c timestamp
                = (mk_conn (committed c)
                     (mk_tables
                        (snapshot (working c)
                           ++ [mk_snapshot (next_snapshot_id c) timestamp])
                        (station (working c)) (velo (working c))
                        (etat_station (working c))
                        (localisation_velo (working c)))
                     (next_snapshot_id c + 1) (S (issued c)) (refuses c),
                   Some (next_snapshot_id c))).
    { unfold insert_snapshot_and_get_id, upsert_snapshot.
      now rewrite A0, F. }
    rewrite E. cbn [fst snd]. split; [eauto|].
    unfold insert_snapshot_and_get_id, upsert_snapshot.
    cbn [refuses issued working snapshot]. rewrite A1.
    rewrite (find_app_new _ (snapshot (working c))
               (mk_snapshot (next_snapshot_id c) timestamp) F
               (datetime_eqb_refl timestamp)).
    cbn. auto.
Qed.

Lemma snapshot_upsert_idempotent_witness :
  snd (insert_snapshot_and_get_id
         (fst (insert_snapshot_and_get_id Scenario.accepting
                 Scenario.at_0800)) Scenario.at_0800)
  = snd (insert_snapshot_and_get_id Scenario.accepting Scenario.at_0800).
Proof.
  exact (proj1 (proj2 (snapshot_upsert_idempotent Scenario.at_0800
                         Scenario.accepting eq_refl eq_refl))).
Defined.

(** X3.  When the snapshot statement is refused, nothing else is tried
    for the file, whatever its content: only [snapshot_error] moves, by
    one, and the transaction is rolled back. *)
Theorem snapshot_refusal_short_circuits (filename : string) (content : text)
  (timestamp : datetime) (cursor : Connection) (errors : Errors) :
  refuses cursor (issued cursor) = true ->
  snd (process_file_content filename content timestamp cursor errors)
  = mk_errors (invalid_format errors) (snapshot_error errors + 1)
              (generic_error errors)
  /\ committed (fst (process_file_content filename content timestamp cursor
                       errors)) = committed cursor
  /\ working (fst (process_file_content filename content timestamp cursor
                     errors)) = committed cursor
  /\ issued (fst (process_file_content filename content timestamp cursor
                    errors)) = S (issued cursor).
Proof.
  intros H. unfold process_file_content, insert_snapshot_and_get_id,
    upsert_snapshot. rewrite H. cbn. auto.
Qed.

Lemma snapshot_refusal_short_circuits_witness :
  snd (process_file_content "velib_20240101_080000_paris.json"
         (Encodes Scenario.first_snapshot) Scenario.at_0800
         (Scenario.refusing 0) no_errors)
  = mk_errors 0 1 0.
Proof.
  exact (proj1 (snapshot_refusal_short_circuits
                  "velib_20240101_080000_paris.json"
                  (Encodes Scenario.first_snapshot) Scenario.at_0800
                  (Scenario.refusing 0) no_errors eq_refl)).
Defined.

(* ================================================================= *)
(** * Further properties: the extraction *)

Lemma buffers_app_empty_r (b : Buffers) : buffers_app b empty_buffers = b.
Proof. destruct b. unfold buffers_app. cbn. now rewrite !app_nil_r. Qed.

Lemma buffers_app_assoc (a b c : Buffers) :
  buffers_app (buffers_app a b) c = buffers_app a (buffers_app b c).
Proof. unfold buffers_app. cbn. now rewrite <- !app_assoc. Qed.

Lemma foldM_app {A B : Type} (f : B -> A -> option B) (l1 l2 : list A)
  (b : B) :
  foldM f (l1 ++ l2) b = bind (foldM f l1 b) (foldM f l2).
Proof.
  revert b. induction l1 as [|x l1 IH]; intros b; cbn; [reflexivity|].
  destruct (f b x); cbn; [apply IH|reflexivity].
Qed.

Lemma foldM_map {A B : Type} (f f' : B -> A -> option B) (g : B -> B)
  (l : list A) :
  (forall b x, f' (g b) x = option_map g (f b x)) ->
  forall b, foldM f' l (g b) = option_map g (foldM f l b).
Proof.
  intros H. induction l as [|x l IH]; intros b; cbn; [reflexivity|].
  rewrite H. destruct (f b x); cbn; [apply IH|reflexivity].
Qed.

(** What an entry adds does not depend on what the buffers hold. *)
Lemma extract_bike_shift (snapshot_id : Z) (station_code : json)
  (a b : Buffers) (bike : json) :
  extract_bike snapshot_id station_code (buffers_app a b) bike
  = option_map (buffers_app a)
      (extract_bike snapshot_id station_code b bike).
Proof.
  unfold extract_bike, bind.
  destruct (Dyn.get bike "bikeName" JNull) as [name|]; [|reflexivity].
  destruct (Dyn.truthy name); cbn [negb]; [|reflexivity].
  destruct (Dyn.get bike "bikeElectric" JNull); [|reflexivity].
  destruct (Dyn.get bike "bikeStatus" JNull); [|reflexivity].
  destruct (Dyn.get bike "dockPosition" JNull); [|reflexivity].
  cbn. unfold buffers_app. cbn. now rewrite <- !app_assoc.
Qed.

Lemma extract_station_shift (snapshot_id : Z) (a b : Buffers)
  (station_data : json) :
  extract_station snapshot_id (buffers_app a b) station_data
  = option_map (buffers_app a)
      (extract_station snapshot_id b station_data).
Proof.
  unfold extract_station, bind.
  destruct (Dyn.get station_data "station" (JObj [])) as [info|];
    [|reflexivity].
  destruct (Dyn.get info "code" JNull) as [code|]; [|reflexivity].
  destruct (Dyn.truthy code); cbn [negb]; [|reflexivity].
  destruct (Dyn.get info "name" JNull); [|reflexivity].
  destruct (Dyn.get info "gps" (JObj [])) as [gps|]; [|reflexivity].
  destruct (Dyn.get gps "latitude" JNull); [|reflexivity].
  destruct (Dyn.get gps "longitude" JNull); [|reflexivity].
  destruct (Dyn.get info "stationType" JNull); [|reflexivity].
  destruct (Dyn.get info "type" JNull); [|reflexivity].
  destruct (Dyn.get station_data "state" JNull); [|reflexivity].
  destruct (Dyn.get station_data "nbBike" JNull); [|reflexivity].
  destruct (Dyn.get station_data "nbEbike" JNull); [|reflexivity].
  destruct (Dyn.get station_data "nbFreeDock" JNull); [|reflexivity].
  destruct (Dyn.get station_data "bikes" (JList [])) as [bv|];
    [|reflexivity].
  destruct (Dyn.iter bv) as [bikes|]; [|reflexivity].
  rewrite <- (foldM_map (extract_bike snapshot_id code)
                (extract_bike snapshot_id code) (buffers_app a)
                bikes (fun b x => extract_bike_shift snapshot_id code a b x)).
  f_equal. unfold buffers_app. cbn. now rewrite <- !app_assoc.
Qed.

Lemma extract_app_eq (snapshot_id : Z) (data1 data2 : list json) :
  extract snapshot_id (data1 ++ data2)%list
  = match extract snapshot_id data1, extract snapshot_id data2 with
    | Some b1, Some b2 => Some (buffers_app b1 b2)
    | _, _ => None
    end.
Proof.
  unfold extract. rewrite foldM_app.
  destruct (foldM (extract_station snapshot_id) data1 empty_buffers)
    as [b1|]; cbn [bind]; [|reflexivity].
  rewrite <- (buffers_app_empty_r b1) at 1.
  rewrite (foldM_map (extract_station snapshot_id)
             (extract_station snapshot_id) (buffers_app b1) data2
             (fun b x => extract_station_shift snapshot_id b1 b x)).
  now destruct (foldM (extract_station snapshot_id) data2 empty_buffers).
Qed.

(** X5.  The buffers of a snapshot are those of its observations one
    after the other: extracting a list cut in two gives the buffers of
    the first part followed by those of the second, and raises as soon as
    one part does. *)
Theorem extract_concatenation (snapshot_id : Z) (data1 data2 : list json) :
  extract snapshot_id (data1 ++ data2)%list
  = match extract snapshot_id data1, extract snapshot_id data2 with
    | Some b1, Some b2 => Some (buffers_app b1 b2)
    | _, _ => None
    end.
Proof.
  unfold extract. rewrite foldM_app.
  destruct (foldM (extract_station snapshot_id) data1 empty_buffers)
    as [b1|]; cbn [bind]; [|reflexivity].
  rewrite <- (buffers_app_empty_r b1) at 1.
  rewrite (foldM_map (extract_station snapshot_id)
             (extract_station snapshot_id) (buffers_app b1) data2
             (fun b x => extract_station_shift snapshot_id b1 b x)).
  now destruct (foldM (extract_station snapshot_id) data2 empty_buffers).
Qed.

(** One observation the loop raises on spoils the list it is in. *)
Lemma extract_one_bad (snapshot_id : Z) (data : list json)
  (station_data : json) :
  In station_data data ->
  extract snapshot_id [station_data] = None ->
  extract snapshot_id data = None.
Proof.
  intros Hin Hbad. apply in_split in Hin as (d1 & d2 & ->).
  rewrite extract_app_eq.
  destruct (extract snapshot_id d1); [|reflexivity].
  change (station_data :: d2) with ([station_data] ++ d2)%list.
  now rewrite extract_app_eq, Hbad.
Qed.

Lemma restamp_app (snapshot_id : Z) (a b : Buffers) :
  restamp snapshot_id (buffers_app a b)
  = buffers_app (restamp snapshot_id a) (restamp snapshot_id b).
Proof. unfold restamp, buffers_app. cbn. now rewrite !map_app. Qed.

Lemma extract_bike_restamp (id id' : Z) (station_code : json) (b : Buffers)
  (bike : json) :
  extract_bike id' station_code (restamp id' b) bike
  = option_map (restamp id') (extract_bike id station_code b bike).
Proof.
  unfold extract_bike, bind.
  destruct (Dyn.get bike "bikeName" JNull) as [name|]; [|reflexivity].
  destruct (Dyn.truthy name); cbn [negb]; [|reflexivity].
  destruct (Dyn.get bike "bikeElectric" JNull); [|reflexivity].
  destruct (Dyn.get bike "bikeStatus" JNull); [|reflexivity].
  destruct (Dyn.get bike "dockPosition" JNull); [|reflexivity].
  cbn. unfold restamp. cbn. now rewrite map_app.
Qed.

Lemma extract_station_restamp (id id' : Z) (b : Buffers)
  (station_data : json) :
  extract_station id' (restamp id' b) station_data
  = option_map (restamp id') (extract_station id b station_data).
Proof.
  unfold extract_station, bind.
  destruct (Dyn.get station_data "station" (JObj [])) as [info|];
    [|reflexivity].
  destruct (Dyn.get info "code" JNull) as [code|]; [|reflexivity].
  destruct (Dyn.truthy code); cbn [negb]; [|reflexivity].
  destruct (Dyn.get info "name" JNull); [|reflexivity].
  destruct (Dyn.get info "gps" (JObj [])) as [gps|]; [|reflexivity].
  destruct (Dyn.get gps "latitude" JNull); [|reflexivity].
  destruct (Dyn.get gps "longitude" JNull); [|reflexivity].
  destruct (Dyn.get info "stationType" JNull); [|reflexivity].
  destruct (Dyn.get info "type" JNull); [|reflexivity].
  destruct (Dyn.get station_data "state" JNull); [|reflexivity].
  destruct (Dyn.get station_data "nbBike" JNull); [|reflexivity].
  destruct (Dyn.get station_data "nbEbike" JNull); [|reflexivity].
  destruct (Dyn.get station_data "nbFreeDock" JNull); [|reflexivity].
  destruct (Dyn.get station_data "bikes" (JList [])) as [bv|];
    [|reflexivity].
  destruct (Dyn.iter bv) as [bikes|]; [|reflexivity].
  rewrite <- (foldM_map (extract_bike id code) (extract_bike id' code)
                (restamp id') bikes
                (fun b x => extract_bike_restamp id id' code b x)).
  f_equal. unfold restamp. cbn. now rewrite !map_app.
Qed.

(** X6.  The snapshot identifier only labels the fact rows: under another
    identifier the extraction raises on the same snapshots, and otherwise
    gives the same buffers with the other identifier in their state and
    location rows. *)
Theorem extract_restamp (id id' : Z) (data : list json) :
  extract id' data = option_map (restamp id') (extract id data).
Proof.
  unfold extract.
  exact (foldM_map (extract_station id) (extract_station id') (restamp id')
           data (fun b x => extract_station_restamp id id' b x)
           empty_buffers).
Qed.

Lemma extract_fails_alike (id id' : Z) (data : list json) :
  extract id data = None -> extract id' data = None.
Proof.
  intros H.
  pose proof (foldM_map (extract_station id) (extract_station id')
                (restamp id') data
                (fun b x => extract_station_restamp id id' b x)
                empty_buffers) as K.
  unfold extract in *. change (restamp id' empty_buffers) with empty_buffers
    in K. now rewrite K, H.
Qed.

Lemma extract_succeeds_alike (id id' : Z) (data : list json) (b : Buffers) :
  extract id data = Some b -> extract id' data = Some (restamp id' b).
Proof.
  intros H.
  pose proof (foldM_map (extract_station id) (extract_station id')
                (restamp id') data
                (fun b x => extract_station_restamp id id' b x)
                empty_buffers) as K.
  unfold extract in *. change (restamp id' empty_buffers) with empty_buffers
    in K. now rewrite K, H.
Qed.

Lemma extract_bike_paired (snapshot_id : Z) (station_code : json)
  (b : Buffers) (bike : json) (b' : Buffers) :
  paired snapshot_id b
  /\ In station_code (map st_code (station_buffer b)) ->
  extract_bike snapshot_id station_code b bike = Some b' ->
  paired snapshot_id b'
  /\ In station_code (map st_code (station_buffer b')).
Proof.
  intros [(P1 & P2 & P3 & P4 & P5 & P6) Hc]. unfold extract_bike. intros H.
  next_bind H as name0 En.
  destruct (Dyn.truthy name0) eqn:T; cbn [negb] in H.
  - next_bind H as electric Ee. next_bind H as status Es.
    next_bind H as dock Ed. injection H as <-.
    split; [|exact Hc]. unfold paired. cbn.
    rewrite !map_app, P2. repeat split; try assumption.
    + apply Forall_app. split; [exact P4|]. repeat constructor. exact Hc.
    + apply Forall_app. split; [exact P6|]. now repeat constructor.
  - injection H as <-. now repeat split.
Qed.

Lemma extract_station_paired (snapshot_id : Z) (b : Buffers)
  (station_data : json) (b' : Buffers) :
  paired snapshot_id b ->
  extract_station snapshot_id b station_data = Some b' ->
  paired snapshot_id b'.
Proof.
  intros (P1 & P2 & P3 & P4 & P5 & P6). unfold extract_station. intros H.
  next_bind H as info0 Ei. next_bind H as code0 Ec.
  destruct (Dyn.truthy code0) eqn:T; cbn [negb] in H.
  - next_bind H as name0 E1. next_bind H as gps_lat E2.
    next_bind H as latitude E3. next_bind H as longitude E5.
    next_bind H as station_type E6. next_bind H as type0 E7.
    next_bind H as state E8. next_bind H as nb_bike E9.
    next_bind H as nb_ebike E10. next_bind H as nb_free_dock E11.
    next_bind H as bikes_value0 E12. next_bind H as bikes0 E13.
    refine (proj1 (foldM_keeps (extract_bike snapshot_id code0)
                     (fun b => paired snapshot_id b
                               /\ In code0 (map st_code (station_buffer b)))
                     (extract_bike_paired snapshot_id code0) _ _ _ _ H)).
    split.
    + unfold paired. cbn. rewrite !map_app, P1. cbn.
      repeat split; try assumption.
      * apply Forall_app. split; [exact P3|]. now repeat constructor.
      * eapply Forall_impl; [|exact P4]. cbn. intros l [L1 L2].
        split; [exact L1|]. rewrite <- P1. apply in_or_app. now left.
      * apply Forall_app. split; [exact P5|]. now repeat constructor.
    + cbn. rewrite map_app. apply in_or_app. right. now left.
  - injection H as <-. now repeat split.
Qed.

(** X7.  The buffers of a snapshot go by pairs: one state row for each
    station row and one location row for each bike row, in the same order
    and with the same code or name; every fact row carries the snapshot
    identifier; every location row names the code of one of the station
    rows; no row has an empty code or name. *)
Theorem extract_rows_paired (snapshot_id : Z) (data : list json)
  (b : Buffers) :
  extract snapshot_id data = Some b ->
  map st_code (station_buffer b)
  = map es_station_code (etat_station_buffer b)
  /\ map velo_name (velo_buffer b)
     = map lv_velo_name (localisation_velo_buffer b)
  /\ Forall (fun e => es_snapshot_id e = snapshot_id) (etat_station_buffer b)
  /\ Forall (fun l => lv_snapshot_id l = snapshot_id
                      /\ In (lv_station_code l)
                            (map st_code (station_buffer b)))
            (localisation_velo_buffer b)
  /\ Forall (fun r => Dyn.truthy (st_code r) = true) (station_buffer b)
  /\ Forall (fun r => Dyn.truthy (velo_name r) = true) (velo_buffer b).
Proof.
  unfold extract.
  apply (foldM_keeps (extract_station snapshot_id) (paired snapshot_id)
           (extract_station_paired snapshot_id)).
  repeat split; constructor.
Qed.

Lemma extract_rows_paired_witness :
  map st_code (station_buffer
                 (mk_buffers
                    [mk_station (JStr "16107") (JStr "Test")
                       (JFloat (488 # 10)) (JFloat (23 # 10)) JNull JNull]
                    [mk_velo (JStr "BIKE1") (JBool true)]
                    [mk_etat 7 (JStr "16107") (JStr "ok") (JInt 1) (JInt 1)
                       (JInt 5)]
                    [mk_loc 7 (JStr "BIKE1") (JStr "16107") (JStr "free")
                       (JInt 1)]))
  = [JStr "16107"].
Proof.
  exact (proj1 (extract_rows_paired 7
                  [Scenario.observation "ok" 1
                     [Scenario.bike (JStr "BIKE1") "free"]]
                  _ eq_refl)).
Defined.

(** X8.  One observation on which the loop raises, anywhere in the list,
    rejects the whole file: with the snapshot row obtained,
    [process_file_content] counts one [generic_error], rolls back and
    commits nothing, whatever the other observations hold. *)
Theorem malformed_observation_rejects_file (filename : string)
  (timestamp : datetime) (cursor : Connection) (errors : Errors)
  (data : list json) (station_data : json) (id : Z) :
  refuses cursor (issued cursor) = false ->
  In station_data data ->
  extract_station id empty_buffers station_data = None ->
  snd (process_file_content filename (Encodes (JList data)) timestamp cursor
         errors)
  = mk_errors (invalid_format errors) (snapshot_error errors)
              (generic_error errors + 1)
  /\ committed (fst (process_file_content filename (Encodes (JList data))
                       timestamp cursor errors)) = committed cursor
  /\ working (fst (process_file_content filename (Encodes (JList data))
                     timestamp cursor errors)) = committed cursor.
Proof.
  intros A Hin Hbad.
  assert (B : forall id', extract id' data = None).
  { intros id'. apply (extract_fails_alike id id').
    apply (extract_one_bad id data station_data Hin).
    unfold extract. cbn [foldM]. now rewrite Hbad. }
  unfold process_file_content, insert_snapshot_and_get_id, upsert_snapshot.
  rewrite A. unfold try_block.
  destruct (find _ _); cbn [json_loads]; rewrite B; cbn; auto.
Qed.

Lemma malformed_observation_rejects_file_witness :
  snd (process_file_content "velib_20240101_080500_paris.json"
         (Encodes (JList [Scenario.observation "ok" 1 []; JInt 5]))
         Scenario.at_0805 Scenario.after_first no_errors)
  = mk_errors 0 0 1.
Proof.
  exact (proj1 (malformed_observation_rejects_file
                  "velib_20240101_080500_paris.json" Scenario.at_0805
                  Scenario.after_first no_errors
                  [Scenario.observation "ok" 1 []; JInt 5] (JInt 5) 0
                  eq_refl (or_intror (or_introl eq_refl)) eq_refl)).
Defined.

Lemma get_object (fields : list (string * json)) (key : string)
  (default : json) :
  Dyn.get (JObj fields) key default = Some (field key default fields).
Proof. reflexivity. Qed.

Lemma get_not_object (x : json) (key : string) (default : json) :
  is_object x = false -> Dyn.get x key default = None.
Proof. now destruct x. Qed.

Lemma extract_bike_defined (snapshot_id : Z) (station_code : json)
  (b : Buffers) (bike : json) :
  extract_bike snapshot_id station_code b bike <> None
  <-> is_object bike = true.
Proof.
  unfold extract_bike. destruct bike as [| | | | | |fields];
    try (cbn; split; [congruence|discriminate]).
  rewrite !get_object. cbn [bind is_object].
  destruct (negb _); split; auto; discriminate.
Qed.

Lemma extract_bikes_defined (snapshot_id : Z) (station_code : json)
  (bikes : list json) (b : Buffers) :
  foldM (extract_bike snapshot_id station_code) bikes b <> None
  <-> forallb is_object bikes = true.
Proof.
  revert b. induction bikes as [|bike bikes IH]; intros b; cbn [foldM forallb].
  - split; [reflexivity|discriminate].
  - pose proof (extract_bike_defined snapshot_id station_code b bike) as K.
    destruct (extract_bike snapshot_id station_code b bike) as [b'|];
      cbn [bind].
    + rewrite IH. destruct (is_object bike); cbn [andb].
      * reflexivity.
      * destruct K as [K _]. now specialize (K ltac:(discriminate)).
    + destruct (is_object bike); cbn [andb].
      * destruct K as [_ K]. now specialize (K eq_refl).
      * split; [congruence|discriminate].
Qed.

Lemma extract_station_defined (snapshot_id : Z) (b : Buffers)
  (station_data : json) :
  extract_station snapshot_id b station_data <> None
  <-> observation_ok station_data = true.
Proof.
  unfold extract_station, observation_ok.
  destruct station_data as [| | | | | |fields];
    try (cbn; split; [congruence|discriminate]).
  rewrite !get_object. cbn [bind].
  destruct (field "station" (JObj []) fields) as [| | | | | |info];
    try (cbn; split; [congruence|discriminate]).
  rewrite !get_object. cbn [bind].
  destruct (Dyn.truthy (field "code" JNull info)); cbn [negb];
    [|split; [reflexivity|discriminate]].
  destruct (field "gps" (JObj []) info) as [| | | | | |gps];
    try (cbn; split; [congruence|discriminate]).
  rewrite !get_object. cbn [bind is_object andb].
  destruct (Dyn.iter (field "bikes" (JList []) fields)) as [bikes|];
    cbn [bind]; [|split; [congruence|discriminate]].
  apply extract_bikes_defined.
Qed.

Lemma extract_from_defined (snapshot_id : Z) (data : list json)
  (b : Buffers) :
  foldM (extract_station snapshot_id) data b <> None
  <-> forallb observation_ok data = true.
Proof.
  revert b. induction data as [|o data IH]; intros b; cbn [foldM forallb].
  - split; [reflexivity|discriminate].
  - pose proof (extract_station_defined snapshot_id b o) as K.
    destruct (extract_station snapshot_id b o) as [b'|]; cbn [bind].
    + rewrite IH. destruct (observation_ok o); cbn [andb].
      * reflexivity.
      * destruct K as [K _]. now specialize (K ltac:(discriminate)).
    + destruct (observation_ok o); cbn [andb].
      * destruct K as [_ K]. now specialize (K eq_refl).
      * split; [congruence|discriminate].
Qed.

(** X9.  The extraction goes through exactly on the lists whose every
    element is an object with, when present, an object under ["station"]
    and, for a station with a non-empty code, an object under ["gps"] and
    an iterable of objects under ["bikes"]; on every other list it
    raises.  Missing keys never make it raise. *)
Theorem extract_defined_iff (snapshot_id : Z) (data : list json) :
  extract snapshot_id data <> None
  <-> forallb observation_ok data = true.
Proof. exact (extract_from_defined snapshot_id data empty_buffers). Qed.

(* ================================================================= *)
(** * Further properties: processing a file again *)

Section Present.

Context {R : Type} (same : R -> R -> bool).

Lemma insert_if_absent_present (rows table : list R) :
  (forall r, In r rows -> existsb (same r) table = true) ->
  insert_if_absent same table rows = table.
Proof.
  induction rows as [|r rows IH]; cbn; intros H; [reflexivity|].
  rewrite (H r (or_introl eq_refl)). apply IH. intros r' Hr'.
  apply H. now right.
Qed.

Hypothesis same_refl : forall r, same r r = true.

Lemma insert_if_absent_idem (rows table : list R) :
  insert_if_absent same (insert_if_absent same table rows) rows
  = insert_if_absent same table rows.
Proof.
  apply insert_if_absent_present. intros r Hr.
  destruct (insert_if_absent_covers same rows table r Hr)
    as (r' & Hin & Hs).
  apply existsb_exists. exists r'. split; [exact Hin|].
  destruct Hs as [->|Hs]; [apply same_refl|exact Hs].
Qed.

End Present.

Lemma same_station_refl (r : station_row) : same_station r r = true.
Proof. apply json_eqb_refl. Qed.

Lemma same_velo_refl (r : velo_row) : same_velo r r = true.
Proof. apply json_eqb_refl. Qed.

Lemma same_etat_refl (r : etat_row) : same_etat r r = true.
Proof. unfold same_etat. now rewrite Z.eqb_refl, json_eqb_refl. Qed.

Lemma same_loc_refl (r : loc_row) : same_loc r r = true.
Proof. unfold same_loc. now rewrite Z.eqb_refl, json_eqb_refl. Qed.

Lemma with_batches_idem (b : Buffers) (t : Tables) :
  with_batches b (with_batches b t) = with_batches b t.
Proof.
  unfold with_batches, insert_localisation_velo, insert_etat_station,
    insert_velo, insert_station. cbn.
  rewrite (insert_if_absent_idem same_station same_station_refl),
    (insert_if_absent_idem same_velo same_velo_refl),
    (insert_if_absent_idem same_etat same_etat_refl),
    (insert_if_absent_idem same_loc same_loc_refl).
  reflexivity.
Qed.

Lemma with_batches_snapshot (b : Buffers) (t : Tables) :
  snapshot (with_batches b t) = snapshot t.
Proof. reflexivity. Qed.

Lemma and_then_keeps (P : Connection -> Prop)
  (r : Connection * completion unit)
  (k : Connection -> Connection * completion unit) :
  P (fst r) -> (forall c, P c -> P (fst (k c))) -> P (fst (and_then r k)).
Proof.
  destruct r as [c [[]|]]; cbn; intros H K; [now apply K|exact H].
Qed.

Lemma execute_values_refuses {R : Type} (apply : Tables -> list R -> Tables)
  (rows : list R) (c : Connection) :
  refuses (fst (when_nonempty rows (execute_values apply rows) c))
  = refuses c.
Proof.
  unfold when_nonempty, execute_values. destruct rows; [reflexivity|].
  now destruct (execute_pages_frame apply (paginate (r :: rows)) c)
    as (_ & F & _).
Qed.

(** The oracle of a connection is not touched by what runs on it. *)
Lemma insert_batches_refuses (b : Buffers) (c : Connection) :
  refuses (fst (insert_batches b c)) = refuses c.
Proof.
  unfold insert_batches.
  apply (and_then_keeps (fun x => refuses x = refuses c));
    [apply execute_values_refuses|intros c1 H1].
  apply (and_then_keeps (fun x => refuses x = refuses c));
    [now rewrite execute_values_refuses|intros c2 H2].
  apply (and_then_keeps (fun x => refuses x = refuses c));
    [now rewrite execute_values_refuses|intros c3 H3].
  apply (and_then_keeps (fun x => refuses x = refuses c));
    [now rewrite execute_values_refuses|intros c4 H4].
  unfold commit. now destruct (refuses c4 (issued c4)).
Qed.

Lemma process_file_content_refuses (filename : string) (content : text)
  (timestamp : datetime) (c : Connection) (errors : Errors) :
  refuses (fst (process_file_content filename content timestamp c errors))
  = refuses c.
Proof.
  unfold process_file_content.
  pose proof (insert_snapshot_and_get_id_frame timestamp c) as [_ F].
  destruct (insert_snapshot_and_get_id c timestamp) as [c1 [id|]];
    cbn [fst] in *; [|exact F].
  unfold try_block.
  destruct (json_loads content) as [[| | | | |data|]|]; cbn [fst];
    try exact F.
  destruct (extract id data) as [b|]; cbn [fst]; [|exact F].
  pose proof (insert_batches_refuses b c1) as K.
  destruct (insert_batches b c1) as [c2 [[]|]]; cbn [fst] in *;
    [congruence|cbn; congruence].
Qed.

(** What [process_file_content] leaves when nothing is refused. *)
Lemma process_file_content_when_accepted (filename : string)
  (content : text) (timestamp : datetime) (c : Connection)
  (errors : Errors) :
  accepts c ->
  match json_loads content with
     | Some (JList data) =>
         match extract (fst (snapshot_ensured timestamp (working c)
                               (next_snapshot_id c))) data with
         | Some b =>
             committed (fst (process_file_content filename content
                               timestamp c errors))
             = with_batches b (snd (snapshot_ensured timestamp (working c)
                                      (next_snapshot_id c)))
             /\ working (fst (process_file_content filename content
                                timestamp c errors))
                = with_batches b
                    (snd (snapshot_ensured timestamp (working c)
                            (next_snapshot_id c)))
         | None =>
             committed (fst (process_file_content filename content
                               timestamp c errors)) = committed c
             /\ working (fst (process_file_content filename content
                                timestamp c errors)) = committed c
         end
     | Some _ =>
         committed (fst (process_file_content filename content timestamp c
                           errors)) = committed c
         /\ working (fst (process_file_content filename content timestamp c
                            errors))
            = snd (snapshot_ensured timestamp (working c)
                     (next_snapshot_id c))
     | None =>
         committed (fst (process_file_content filename content timestamp c
                           errors)) = committed c
         /\ working (fst (process_file_content filename content timestamp c
                            errors)) = committed c
     end.
Proof.
  intros A.
  assert (E : insert_snapshot_and_get_id c timestamp
              = (mk_conn (committed c)
                   (snd (snapshot_ensured timestamp (working c)
                           (next_snapshot_id c)))
                   (next_snapshot_id c + 1) (S (issued c)) (refuses c),
                 Some (fst (snapshot_ensured timestamp (working c)
                              (next_snapshot_id c))))).
  { unfold insert_snapshot_and_get_id, upsert_snapshot, snapshot_ensured.
    rewrite (A (issued c)). now destruct (find _ _). }
  unfold process_file_content. rewrite E. unfold try_block.
  set (se := snapshot_ensured timestamp (working c) (next_snapshot_id c)).
  destruct (json_loads content) as [value|]; [|cbn; auto].
  destruct value as [| | | | |data|]; try (cbn; auto).
  destruct (extract (fst se) data) as [b|]; [|cbn; auto].
  destruct (insert_batches_accepted b
              (mk_conn (committed c) (snd se) (next_snapshot_id c + 1)
                       (S (issued c)) (refuses c)) A)
    as (c' & -> & C & W).
  cbn [fst]. auto.
Qed.

Lemma snapshot_ensured_again (timestamp : datetime) (t t' : Tables)
  (n n' : Z) :
  snapshot t' = snapshot (snd (snapshot_ensured timestamp t n)) ->
  snapshot_ensured timestamp t' n'
  = (fst (snapshot_ensured timestamp t n), t').
Proof.
  unfold snapshot_ensured.
  destruct (find (fun r => datetime_eqb (timestamp_capture r) timestamp)
                 (snapshot t)) as [r|] eqn:F; cbn [fst snd snapshot].
  - intros ->. now rewrite F.
  - intros ->.
    now rewrite (find_app_new _ (snapshot t) (mk_snapshot n timestamp) F
                   (datetime_eqb_refl timestamp)).
Qed.

(** X10.  Processing a file a second time on a connection that accepts
    everything changes no table: whatever the content, the committed
    tables and those of the open transaction after the second call are
    those after the first.  Stored rows are found again by their keys,
    and content that was refused is refused again. *)
Theorem process_file_content_again (filename : string) (content : text)
  (timestamp : datetime) (c : Connection) (errors errors' : Errors) :
  accepts c ->
  committed
    (fst (process_file_content filename content timestamp
            (fst (process_file_content filename content timestamp c errors))
            errors'))
  = committed (fst (process_file_content filename content timestamp c
                      errors))
  /\ working
       (fst (process_file_content filename content timestamp
               (fst (process_file_content filename content timestamp c
                       errors))
               errors'))
     = working (fst (process_file_content filename content timestamp c
                       errors)).
Proof.
  intros A.
  set (c1 := fst (process_file_content filename content timestamp c errors)).
  assert (A1 : accepts c1).
  { intros n. unfold c1. rewrite process_file_content_refuses. apply A. }
  pose proof (process_file_content_when_accepted filename content timestamp
                c errors A) as H1.
  pose proof (process_file_content_when_accepted filename content timestamp
                c1 errors' A1) as H2.
  fold c1 in H1.
  set (se := snapshot_ensured timestamp (working c) (next_snapshot_id c))
    in *.
  destruct (json_loads content) as [value|].
  2: { destruct H1 as [C1 W1], H2 as [C2 W2]. rewrite C2, W2, W1.
       auto. }
  destruct value as [| | | | |data|];
    try (destruct H1 as [C1 W1], H2 as [C2 W2];
         rewrite (snapshot_ensured_again timestamp (working c) (working c1)
                    (next_snapshot_id c) (next_snapshot_id c1)
                    ltac:(now rewrite W1)) in W2;
         cbn [snd] in W2; rewrite C2, W2; auto).
  destruct (extract (fst se) data) as [b|] eqn:E.
  - destruct H1 as [C1 W1].
    rewrite (snapshot_ensured_again timestamp (working c) (working c1)
               (next_snapshot_id c) (next_snapshot_id c1)
               ltac:(now rewrite W1)) in H2.
    cbn [fst snd] in H2. fold se in H2. rewrite E in H2.
    destruct H2 as [C2 W2]. rewrite C2, W2, W1, C1.
    now rewrite with_batches_idem.
  - destruct H1 as [C1 W1].
    rewrite (extract_fails_alike (fst se) _ data E) in H2.
    destruct H2 as [C2 W2]. rewrite C2, W2, W1. auto.
Qed.

Lemma process_file_content_again_witness :
  committed
    (fst (process_file_content "velib_20240101_080000_paris.json"
            (Encodes Scenario.first_snapshot) Scenario.at_0800
            Scenario.after_first no_errors))
  = committed Scenario.after_first.
Proof.
  exact (proj1 (process_file_content_again
                  "velib_20240101_080000_paris.json"
                  (Encodes Scenario.first_snapshot) Scenario.at_0800
                  Scenario.accepting no_errors no_errors
                  (fun n => eq_refl))).
Defined.

(* ================================================================= *)
(** * Further properties: the driver *)

Lemma sound_loads (DATA_FOLDER : Folder) (w : World) :
  progress_file_sound w ->
  exists done,
    Dyn.subscript (load_progress DATA_FOLDER w) "done" = Some (JList done)
    /\ forallb Dyn.hashable done = true
    /\ bind (Dyn.subscript (load_progress DATA_FOLDER w) "done") Dyn.set_of
       = Some done.
Proof.
  unfold progress_file_sound, load_progress.
  destruct (progress_file w) as [[| |value]|]; cbn [json_loads].
  1, 2, 4: intros _; unfold rebuild_progress_from_database; cbn;
    eexists; split; [reflexivity|];
    rewrite forallb_hashable_names; auto.
  intros (done & Hd & Hh). exists done. rewrite Hd. cbn [bind].
  unfold Dyn.set_of. cbn [Dyn.iter]. rewrite Hh. auto.
Qed.

Lemma sound_usable (w : World) :
  progress_file_sound w -> progress_file_usable w.
Proof.
  unfold progress_file_sound, progress_file_usable.
  destruct (progress_file w) as [[| |value]|]; auto.
  intros (done & -> & _). exact I.
Qed.



Lemma save_progress_progress (env : Environment) (st : RunState) :
  progress (fst (save_progress env st)) = progress st.
Proof. unfold save_progress. now destruct (save_faults env (saves st)). Qed.

Lemma process_one_done (data_folder : Folder) (env : Environment)
  (filename : string) (st : RunState) (done : list json) :
  Dyn.subscript (progress st) "done" = Some (JList done) ->
  exists extra,
    Dyn.subscript (progress (fst (process_one data_folder env filename st)))
                  "done"
    = Some (JList (done ++ map JStr extra))
    /\ incl extra [filename].
Proof.
  intros Hd.
  destruct (append_at_done (progress st) done (JStr filename) Hd)
    as (p & Ha & Hp).
  assert (None_case : exists extra,
             Dyn.subscript (progress st) "done"
             = Some (JList (done ++ map JStr extra))
             /\ incl extra [filename]).
  { exists []. cbn. rewrite app_nil_r. split; [exact Hd|]. intros x []. }
  assert (Some_case : forall st1,
             progress st1 = p ->
             exists extra,
               Dyn.subscript (progress (fst (save_progress env st1))) "done"
               = Some (JList (done ++ map JStr extra))
               /\ incl extra [filename]).
  { intros st1 E. exists [filename]. rewrite save_progress_progress, E.
    split; [exact Hp|apply incl_refl]. }
  unfold process_one, file_try.
  destruct (parse_timestamp_from_filename filename) as [timestamp|].
  - destruct (read_file data_folder filename) as [content|];
      [|exact None_case].
    destruct (process_file_content filename content timestamp (cursor st)
                                   (errors st)) as [c e].
    unfold mark_done. cbn [progress]. rewrite Ha.
    match goal with
    | |- context [save_progress env ?s] =>
        destruct (Some_case s eq_refl) as (extra & H1 & H2);
          destruct (save_progress env s) as [st3 [[]|]]
    end; exists extra; auto.
  - unfold mark_done, bump_generic. cbn [progress]. rewrite Ha.
    match goal with
    | |- context [save_progress env ?s] =>
        destruct (Some_case s eq_refl) as (extra & H1 & H2);
          destruct (save_progress env s) as [st3 [[]|]]
    end; exists extra; auto.
Qed.

(** X12.  Whatever fails, on the disk or in the database, the loop never
    takes a name off the done list, and the names it adds are names of
    files it was given. *)
Theorem done_list_only_grows (data_folder : Folder) (env : Environment)
  (files : list string) (st : RunState) (done : list json) :
  Dyn.subscript (progress st) "done" = Some (JList done) ->
  exists extra,
    Dyn.subscript (progress (fst (process_all data_folder env files st)))
                  "done"
    = Some (JList (done ++ map JStr extra))
    /\ incl extra files.
Proof.
  revert st done. induction files as [|f files IH]; intros st done Hd.
  - exists []. cbn. rewrite app_nil_r. split; [exact Hd|apply incl_refl].
  - cbn [process_all].
    destruct (process_one_done data_folder env f st done Hd)
      as (extra1 & H1 & I1).
    destruct (process_one data_folder env f st) as [st1 [[]|]];
      cbn [fst] in *.
    + destruct (IH st1 _ H1) as (extra2 & H2 & I2).
      exists (extra1 ++ extra2)%list. rewrite H2, map_app, app_assoc.
      split; [reflexivity|].
      apply incl_app.
      * intros x Hx. specialize (I1 x Hx). destruct I1 as [<-|[]]. now left.
      * now apply incl_tl.
    + exists extra1. split; [exact H1|].
      intros x Hx. specialize (I1 x Hx). destruct I1 as [<-|[]]. now left.
Qed.

Lemma done_list_only_grows_witness :
  exists extra,
    Dyn.subscript
      (progress
         (fst (process_all
                 (Scenario.folder_of
                    [("velib_20240101_080000_paris.json",
                      Some (Encodes Scenario.first_snapshot));
                     ("notes.json", Some Garbled)])
                 (mk_env (fun _ => true) (fun _ => WriteFails Garbled))
                 ["velib_20240101_080000_paris.json"; "notes.json"]
                 (mk_state Scenario.accepting
                           (JObj [("done", JList [JStr "old.json"])])
                           no_errors None 0))))
      "done"
    = Some (JList ([JStr "old.json"] ++ map JStr extra))
    /\ incl extra ["velib_20240101_080000_paris.json"; "notes.json"].
Proof.
  exact (done_list_only_grows
           (Scenario.folder_of
              [("velib_20240101_080000_paris.json",
                Some (Encodes Scenario.first_snapshot));
               ("notes.json", Some Garbled)])
           (mk_env (fun _ => true) (fun _ => WriteFails Garbled))
           ["velib_20240101_080000_paris.json"; "notes.json"]
           (mk_state Scenario.accepting
                     (JObj [("done", JList [JStr "old.json"])])
                     no_errors None 0)
           [JStr "old.json"] eq_refl).
Defined.

Lemma filter_none {A : Type} (p : A -> bool) (l : list A) :
  forallb p l = true -> filter (fun x => negb (p x)) l = [].
Proof.
  induction l as [|x l IH]; cbn; [reflexivity|]. intros H.
  apply andb_true_iff in H as [-> H]. cbn. now apply IH.
Qed.

(** X13.  After a run on a healthy disk from a sound progress file, the
    done list a next run would start from is the one this run started
    from, followed by the names of the remaining files, in listing order,
    except those whose read raised. *)
Theorem import_records_done (DATA_FOLDER data_folder : Folder)
  (env : Environment) (w : World) :
  disk_healthy env ->
  progress_file_sound w ->
  done_of (load_progress DATA_FOLDER
             (fst (import_data_from_folder DATA_FOLDER data_folder env w)))
  = (done_of (load_progress DATA_FOLDER w)
       ++ map JStr
            (filter (fun f => negb (unreadable data_folder f))
               (remaining (filter is_candidate (listdir data_folder))
                          (done_of (load_progress DATA_FOLDER w)))))%list.
Proof.
  intros Hh Hs.
  destruct (sound_loads DATA_FOLDER w Hs) as (done & Hd & _ & E).
  assert (D : done_of (load_progress DATA_FOLDER w) = done)
    by (unfold done_of; now rewrite Hd).
  rewrite D.
  destruct (process_all_healthy data_folder env Hh
              (remaining (filter is_candidate (listdir data_folder)) done)
              (mk_state (get_db_connection env w)
                        (load_progress DATA_FOLDER w) no_errors
                        (progress_file w) 0) done Hd)
    as (st' & Hrun & Hd' & Hcase).
  assert (E1 : fst (import_data_from_folder DATA_FOLDER data_folder env w)
               = world_after st').
  { unfold import_data_from_folder. now rewrite E, Hrun. }
  rewrite E1.
  destruct Hcase as [[_ Hfile]|(Hall & _ & Hcur & Hfile)].
  - assert (L : load_progress DATA_FOLDER (world_after st')
                = progress st').
    { unfold load_progress, world_after. cbn [progress_file].
      now rewrite Hfile. }
    rewrite L. unfold done_of. now rewrite Hd'.
  - assert (W : world_after st' = w).
    { unfold world_after. rewrite Hcur, Hfile. cbn. apply world_eta. }
    rewrite W, D, (filter_none _ _ Hall). cbn. now rewrite app_nil_r.
Qed.

Lemma import_records_done_witness :
  done_of (load_progress
             (Scenario.folder_of
                [("velib_20240101_080000_paris.json", Some Garbled);
                 ("velib_20240101_080500_paris.json", None);
                 ("notes.json", Some (Encodes (JInt 3)))])
             (fst (import_data_from_folder
                     (Scenario.folder_of
                        [("velib_20240101_080000_paris.json", Some Garbled);
                         ("velib_20240101_080500_paris.json", None);
                         ("notes.json", Some (Encodes (JInt 3)))])
                     (Scenario.folder_of
                        [("velib_20240101_080000_paris.json", Some Garbled);
                         ("velib_20240101_080500_paris.json", None);
                         ("notes.json", Some (Encodes (JInt 3)))])
                     Scenario.calm Scenario.fresh_world)))
  = [JStr "velib_20240101_080000_paris.json"; JStr "notes.json"].
Proof.
  exact (import_records_done
           (Scenario.folder_of
              [("velib_20240101_080000_paris.json", Some Garbled);
               ("velib_20240101_080500_paris.json", None);
               ("notes.json", Some (Encodes (JInt 3)))])
           (Scenario.folder_of
              [("velib_20240101_080000_paris.json", Some Garbled);
               ("velib_20240101_080500_paris.json", None);
               ("notes.json", Some (Encodes (JInt 3)))])
           Scenario.calm Scenario.fresh_world (fun n => eq_refl) I).
Defined.

(** X14.  When every candidate file is in the done set, the run reads no
    file and issues no statement: it leaves the world as it found it and
    reports no error, whatever the environment. *)
Theorem import_nothing_left (DATA_FOLDER data_folder : Folder)
  (env : Environment) (w : World) (done_files : list json) :
  bind (Dyn.subscript (load_progress DATA_FOLDER w) "done") Dyn.set_of
  = Some done_files ->
  (forall f, In f (listdir data_folder) -> is_candidate f = true ->
             Dyn.str_in f done_files = true) ->
  import_data_from_folder DATA_FOLDER data_folder env w
  = (w, Returned no_errors).
Proof.
  intros E H. unfold import_data_from_folder. rewrite E.
  assert (R : remaining (filter is_candidate (listdir data_folder))
                        done_files = []).
  { unfold remaining.
    rewrite (filter_none (fun f => Dyn.str_in f done_files)); [reflexivity|].
    apply forallb_forall. intros f Hf. apply filter_In in Hf as [Hin Hc].
    now apply H. }
  rewrite R. cbn [process_all]. unfold world_after, get_db_connection.
  cbn [cursor committed next_snapshot_id pfile errors].
  now rewrite world_eta.
Qed.

Lemma import_nothing_left_witness :
  import_data_from_folder
    (Scenario.folder_of
       [("velib_20240101_080000_paris.json",
         Some (Encodes Scenario.first_snapshot));
        ("readme.txt", None)])
    (Scenario.folder_of
       [("velib_20240101_080000_paris.json",
         Some (Encodes Scenario.first_snapshot));
        ("readme.txt", None)])
    (mk_env (fun _ => true) (fun _ => OpenFails))
    (mk_world Scenario.empty_tables 1
       (Some (Encodes
                (JObj [("done",
                        JList [JStr "velib_20240101_080000_paris.json"])]))))
  = (mk_world Scenario.empty_tables 1
       (Some (Encodes
                (JObj [("done",
                        JList [JStr "velib_20240101_080000_paris.json"])]))),
     Returned no_errors).
Proof.
  refine (import_nothing_left
            (Scenario.folder_of
               [("velib_20240101_080000_paris.json",
                 Some (Encodes Scenario.first_snapshot));
                ("readme.txt", None)])
            (Scenario.folder_of
               [("velib_20240101_080000_paris.json",
                 Some (Encodes Scenario.first_snapshot));
                ("readme.txt", None)])
            (mk_env (fun _ => true) (fun _ => OpenFails))
            (mk_world Scenario.empty_tables 1
               (Some (Encodes
                        (JObj [("done",
                                JList [JStr
                                  "velib_20240101_080000_paris.json"])]))))
            [JStr "velib_20240101_080000_paris.json"] eq_refl _).
  intros f [<-|[<-|[]]]; [reflexivity|discriminate].
Defined.

(** X15.  A run that finds no usable progress file starts from the store
    and from the listing of [DATA_FOLDER]: its remaining files are the
    candidates of the directory it was given, except those that
    [DATA_FOLDER] lists too and whose name carries the timestamp of a
    stored snapshot.  The files without a timestamp in their name remain,
    and so does every file that [DATA_FOLDER] does not list, stored or
    not.  When the two directories list the same names, as in the script,
    the remaining files are the candidates that are not stored. *)
Theorem remaining_after_rebuild (DATA_FOLDER data_folder : Folder)
  (w : World) :
  progress_file w = None \/ progress_file w = Some Blank
  \/ progress_file w = Some Garbled ->
  exists done_files,
    bind (Dyn.subscript (load_progress DATA_FOLDER w) "done") Dyn.set_of
    = Some done_files
    /\ remaining (filter is_candidate (listdir data_folder)) done_files
       = filter (fun f => negb (stored (tables w) f
                                && existsb (String.eqb f)
                                     (listdir DATA_FOLDER)))
                (filter is_candidate (listdir data_folder))
    /\ (listdir DATA_FOLDER = listdir data_folder ->
        remaining (filter is_candidate (listdir data_folder)) done_files
        = filter (fun f => negb (stored (tables w) f))
                 (filter is_candidate (listdir data_folder))).
Proof.
  intros H.
  assert (L : load_progress DATA_FOLDER w
              = rebuild_progress_from_database DATA_FOLDER (tables w)).
  { unfold load_progress. now destruct H as [->|[->| ->]]. }
  rewrite L. unfold rebuild_progress_from_database. cbn [Dyn.subscript
    Dyn.assoc String.eqb Ascii.eqb Bool.eqb bind].
  unfold Dyn.set_of. cbn [Dyn.iter]. rewrite forallb_hashable_names.
  eexists. split; [reflexivity|].
  match goal with
  | |- context [map JStr (filter ?p _)] =>
      assert (G : forall f,
                 In f (filter is_candidate (listdir data_folder)) ->
                 Dyn.str_in f
                   (map JStr
                      (filter p (filter is_candidate (listdir DATA_FOLDER))))
                 = stored (tables w) f
                   && existsb (String.eqb f) (listdir DATA_FOLDER))
  end.
  { intros f Hf. apply filter_In in Hf as [_ Hc].
    apply eq_true_iff_eq.
    rewrite str_in_names, !filter_In, andb_true_iff, existsb_exists.
    split.
    - intros [[Hin _] Hs]. split; [exact Hs|].
      exists f. split; [exact Hin|apply String.eqb_refl].
    - intros [Hs (g & Hin & Hg)]. apply String.eqb_eq in Hg. subst g.
      split; [split; [exact Hin|exact Hc]|exact Hs]. }
  unfold remaining. split.
  - apply filter_ext_in. intros f Hf. f_equal. exact (G f Hf).
  - intros Hl. apply filter_ext_in. intros f Hf. f_equal.
    rewrite (G f Hf), Hl.
    assert (M : existsb (String.eqb f) (listdir data_folder) = true).
    { apply existsb_exists. exists f.
      apply filter_In in Hf as [Hin _].
      split; [exact Hin|apply String.eqb_refl]. }
    rewrite M. apply andb_true_r.
Qed.

Lemma remaining_after_rebuild_witness :
  (exists done_files,
    bind (Dyn.subscript
            (load_progress
               (Scenario.folder_of
                  [("velib_20240101_080500_paris.json", None)])
               (mk_world (committed Scenario.after_first) 2 None))
            "done") Dyn.set_of
    = Some done_files
    /\ remaining
         (filter is_candidate
            (listdir (Scenario.folder_of
                        [("velib_20240101_080000_paris.json", None);
                         ("velib_20240101_080500_paris.json", None)])))
         done_files
       = filter
           (fun f =>
              negb (stored (committed Scenario.after_first) f
                    && existsb (String.eqb f)
                         ["velib_20240101_080500_paris.json"]))
           ["velib_20240101_080000_paris.json";
            "velib_20240101_080500_paris.json"])
  /\ (exists done_files,
        bind (Dyn.subscript
                (load_progress
                   (Scenario.folder_of
                      [("velib_20240101_080000_paris.json", None);
                       ("velib_20240101_080500_paris.json", None)])
                   (mk_world (committed Scenario.after_first) 2 None))
                "done") Dyn.set_of
        = Some done_files
        /\ remaining
             ["velib_20240101_080000_paris.json";
              "velib_20240101_080500_paris.json"]
             done_files
           = filter
               (fun f => negb (stored (committed Scenario.after_first) f))
               ["velib_20240101_080000_paris.json";
                "velib_20240101_080500_paris.json"]).
Proof.
  split.
  - destruct (remaining_after_rebuild
                (Scenario.folder_of
                   [("velib_20240101_080500_paris.json", None)])
                (Scenario.folder_of
                   [("velib_20240101_080000_paris.json", None);
                    ("velib_20240101_080500_paris.json", None)])
                (mk_world (committed Scenario.after_first) 2 None)
                (or_introl eq_refl)) as (done_files & E & R & _).
    exists done_files. split; [exact E|exact R].
  - destruct (remaining_after_rebuild
                (Scenario.folder_of
                   [("velib_20240101_080000_paris.json", None);
                    ("velib_20240101_080500_paris.json", None)])
                (Scenario.folder_of
                   [("velib_20240101_080000_paris.json", None);
                    ("velib_20240101_080500_paris.json", None)])
                (mk_world (committed Scenario.after_first) 2 None)
                (or_introl eq_refl)) as (done_files & E & _ & R).
    exists done_files. split; [exact E|exact (R eq_refl)].
Defined.

Lemma process_file_content_counts (filename : string) (content : text)
  (timestamp : datetime) (c : Connection) (e : Errors) :
  invalid_format e
  <= invalid_format (snd (process_file_content filename content timestamp
                            c e))
  /\ snapshot_error e
     <= snapshot_error (snd (process_file_content filename content
                               timestamp c e))
  /\ generic_error e
     <= generic_error (snd (process_file_content filename content timestamp
                              c e))
  /\ total_errors (snd (process_file_content filename content timestamp c
                          e))
     <= total_errors e + 1.
Proof.
  unfold process_file_content, total_errors.
  destruct (insert_snapshot_and_get_id c timestamp) as [c1 [id|]];
    [|cbn; lia].
  destruct (try_block id content c1) as [c2 []]; cbn; lia.
Qed.

Lemma process_one_errors (data_folder : Folder) (env : Environment)
  (filename : string) (st : RunState) (done : list json) :
  Dyn.subscript (progress st) "done" = Some (JList done) ->
  save_faults env (saves st) = NoFault ->
  snd (process_one data_folder env filename st) = Returned tt
  /\ invalid_format (errors st)
     <= invalid_format (errors (fst (process_one data_folder env filename
                                       st)))
  /\ snapshot_error (errors st)
     <= snapshot_error (errors (fst (process_one data_folder env filename
                                       st)))
  /\ generic_error (errors st)
     + (if unusable data_folder filename then 1 else 0)
     <= generic_error (errors (fst (process_one data_folder env filename
                                      st)))
  /\ total_errors (errors (fst (process_one data_folder env filename st)))
     <= total_errors (errors st) + 1.
Proof.
  intros Hd Hs.
  destruct (append_at_done (progress st) done (JStr filename) Hd)
    as (p & Ha & _).
  unfold process_one, file_try, unusable.
  destruct (parse_timestamp_from_filename filename) as [timestamp|].
  - destruct (read_file data_folder filename) as [content|].
    + pose proof (process_file_content_counts filename content timestamp
                    (cursor st) (errors st)) as K.
      destruct (process_file_content filename content timestamp (cursor st)
                                     (errors st)) as [c e].
      unfold mark_done. cbn [progress]. rewrite Ha.
      unfold save_progress. cbn [saves]. rewrite Hs. cbn in *.
      split; [reflexivity|lia].
    + cbn. unfold total_errors. cbn. split; [reflexivity|lia].
  - unfold mark_done, bump_generic. cbn [progress]. rewrite Ha.
    unfold save_progress. cbn [saves]. rewrite Hs. cbn.
    unfold total_errors. cbn. split; [reflexivity|lia].
Qed.

Lemma process_all_errors (data_folder : Folder) (env : Environment)
  (files : list string) (st : RunState) (done : list json) :
  disk_healthy env ->
  Dyn.subscript (progress st) "done" = Some (JList done) ->
  invalid_format (errors st)
  <= invalid_format (errors (fst (process_all data_folder env files st)))
  /\ snapshot_error (errors st)
     <= snapshot_error (errors (fst (process_all data_folder env files st)))
  /\ generic_error (errors st)
     + Z.of_nat (List.length (filter (unusable data_folder) files))
     <= generic_error (errors (fst (process_all data_folder env files st)))
  /\ total_errors (errors (fst (process_all data_folder env files st)))
     <= total_errors (errors st) + Z.of_nat (List.length files).
Proof.
  intros Hh. revert st done.
  induction files as [|f files IH]; intros st done Hd.
  - cbn. lia.
  - cbn [process_all filter].
    destruct (process_one_errors data_folder env f st done Hd
                (Hh (saves st))) as (R & B1 & B2 & B3 & B4).
    destruct (process_one_done data_folder env f st done Hd)
      as (extra & Hd1 & _).
    destruct (process_one data_folder env f st) as [st1 r];
      cbn [fst snd] in *. subst r.
    destruct (IH st1 _ Hd1) as (C1 & C2 & C3 & C4).
    destruct (unusable data_folder f); cbn [List.length] in *; lia.
Qed.

(** X16.  On a healthy disk and from a sound progress file, the counters
    a run reports never exceed, taken together, the number of files it
    had to process: each file is counted at most once.  And every file
    without a timestamp in its name or whose read raised is counted, under
    [generic_error]. *)
Theorem import_counts_each_file_once (DATA_FOLDER data_folder : Folder)
  (env : Environment) (w : World) (e : Errors) :
  disk_healthy env ->
  progress_file_sound w ->
  snd (import_data_from_folder DATA_FOLDER data_folder env w) = Returned e ->
  0 <= invalid_format e /\ 0 <= snapshot_error e
  /\ Z.of_nat
       (List.length
          (filter (unusable data_folder)
             (remaining (filter is_candidate (listdir data_folder))
                        (done_of (load_progress DATA_FOLDER w)))))
     <= generic_error e
  /\ total_errors e
     <= Z.of_nat
          (List.length
             (remaining (filter is_candidate (listdir data_folder))
                        (done_of (load_progress DATA_FOLDER w)))).
Proof.
  intros Hh Hs.
  destruct (sound_loads DATA_FOLDER w Hs) as (done & Hd & _ & E).
  assert (D : done_of (load_progress DATA_FOLDER w) = done)
    by (unfold done_of; now rewrite Hd).
  rewrite D. unfold import_data_from_folder. rewrite E.
  pose proof (process_all_errors data_folder env
                (remaining (filter is_candidate (listdir data_folder)) done)
                (mk_state (get_db_connection env w)
                          (load_progress DATA_FOLDER w) no_errors
                          (progress_file w) 0) done Hh Hd)
    as (B1 & B2 & B3 & B4).
  destruct (process_all data_folder env _ _) as [st' [[]|]];
    cbn [fst snd] in *; [|discriminate].
  intros [= <-]. cbn in *. unfold total_errors in *. cbn in *. lia.
Qed.

Lemma import_counts_each_file_once_witness :
  total_errors (mk_errors 1 0 2) <= 3.
Proof.
  exact (proj2 (proj2 (proj2
           (import_counts_each_file_once
              (Scenario.folder_of
                 [("velib_20240101_080000_paris.json", Some Garbled);
                  ("velib_20240101_080500_paris.json", None);
                  ("velib_20240101_081000_paris.json",
                   Some (Encodes (JInt 3)))])
              (Scenario.folder_of
                 [("velib_20240101_080000_paris.json", Some Garbled);
                  ("velib_20240101_080500_paris.json", None);
                  ("velib_20240101_081000_paris.json",
                   Some (Encodes (JInt 3)))])
              Scenario.calm Scenario.fresh_world (mk_errors 1 0 2)
              (fun n => eq_refl) I eq_refl)))).
Defined.

(** X18.  A run on a healthy disk hands over a progress file the next run
    can start from: from a sound progress file it leaves a sound one, so
    that runs can follow one another without ever raising on the progress
    record. *)
Theorem import_keeps_sound (DATA_FOLDER data_folder : Folder)
  (env : Environment) (w : World) :
  disk_healthy env ->
  progress_file_sound w ->
  progress_file_sound
    (fst (import_data_from_folder DATA_FOLDER data_folder env w)).
Proof.
  intros Hh Hs.
  destruct (sound_loads DATA_FOLDER w Hs) as (done & Hd & Hhash & E).
  destruct (process_all_healthy data_folder env Hh
              (remaining (filter is_candidate (listdir data_folder)) done)
              (mk_state (get_db_connection env w)
                        (load_progress DATA_FOLDER w) no_errors
                        (progress_file w) 0) done Hd)
    as (st' & Hrun & Hd' & Hcase).
  unfold import_data_from_folder. rewrite E, Hrun. cbn [fst].
  unfold progress_file_sound, world_after. cbn [progress_file].
  destruct Hcase as [[_ Hfile]|(_ & _ & _ & Hfile)]; rewrite Hfile.
  - unfold json_dump. eexists. split; [exact Hd'|].
    now rewrite forallb_app, Hhash, forallb_hashable_names.
  - exact Hs.
Qed.

Lemma import_keeps_sound_witness :
  progress_file_sound
    (fst (import_data_from_folder
            (Scenario.folder_of
               [("velib_20240101_080000_paris.json",
                 Some (Encodes Scenario.first_snapshot));
                ("notes.json", Some Garbled)])
            (Scenario.folder_of
               [("velib_20240101_080000_paris.json",
                 Some (Encodes Scenario.first_snapshot));
                ("notes.json", Some Garbled)])
            Scenario.calm Scenario.fresh_world)).
Proof.
  exact (import_keeps_sound
           (Scenario.folder_of
              [("velib_20240101_080000_paris.json",
                Some (Encodes Scenario.first_snapshot));
               ("notes.json", Some Garbled)])
           (Scenario.folder_of
              [("velib_20240101_080000_paris.json",
                Some (Encodes Scenario.first_snapshot));
               ("notes.json", Some Garbled)])
           Scenario.calm Scenario.fresh_world (fun n => eq_refl) I).
Defined.

(* ================================================================= *)
(** * Further properties: the integrity of the store *)

Section Returned.

Context {R : Type} (apply : Tables -> list R -> Tables).

Lemma execute_pages_returned (ps : list (list R)) (c c' : Connection) :
  execute_pages apply ps c = (c', Returned tt) ->
  working c' = fold_left apply ps (working c).
Proof.
  revert c. induction ps as [|p ps IH]; intros c; cbn.
  - now intros [= <-].
  - destruct (refuses c (issued c)); [discriminate|].
    intros H. now rewrite (IH _ H).
Qed.

Hypothesis apply_nil : forall t, apply t [] = t.
Hypothesis apply_app :
  forall t p q, apply (apply t p) q = apply t (p ++ q)%list.

Lemma execute_values_returned_tables (rows : list R) (c c' : Connection) :
  when_nonempty rows (execute_values apply rows) c = (c', Returned tt) ->
  working c' = apply (working c) rows
  /\ committed c' = committed c
  /\ next_snapshot_id c' = next_snapshot_id c.
Proof.
  unfold when_nonempty, execute_values. destruct rows as [|r rows].
  - intros [= <-]. now rewrite apply_nil.
  - intros H.
    pose proof (execute_pages_frame apply (paginate (r :: rows)) c)
      as (C & _ & N).
    rewrite H in C, N. cbn [fst] in C, N.
    rewrite (execute_pages_returned _ _ _ H),
      (fold_pages apply apply_nil apply_app), paginate_concat. auto.
Qed.

End Returned.

(** Batches that went through are all in, whatever the oracle. *)
Lemma insert_batches_returned_tables (b : Buffers) (c c' : Connection) :
  insert_batches b c = (c', Returned tt) ->
  committed c' = with_batches b (working c)
  /\ working c' = with_batches b (working c)
  /\ next_snapshot_id c' = next_snapshot_id c.
Proof.
  destruct insert_station_additive as [N1 P1].
  destruct insert_velo_additive as [N2 P2].
  destruct insert_etat_station_additive as [N3 P3].
  destruct insert_localisation_velo_additive as [N4 P4].
  unfold insert_batches, with_batches.
  destruct (when_nonempty (station_buffer b) _ c) as [c1 [[]|]] eqn:E1;
    cbn [and_then]; [|discriminate].
  apply (execute_values_returned_tables insert_station N1 P1) in E1
    as (W1 & _ & M1).
  destruct (when_nonempty (velo_buffer b) _ c1) as [c2 [[]|]] eqn:E2;
    cbn [and_then]; [|discriminate].
  apply (execute_values_returned_tables insert_velo N2 P2) in E2
    as (W2 & _ & M2).
  destruct (when_nonempty (etat_station_buffer b) _ c2) as [c3 [[]|]] eqn:E3;
    cbn [and_then]; [|discriminate].
  apply (execute_values_returned_tables insert_etat_station N3 P3) in E3
    as (W3 & _ & M3).
  destruct (when_nonempty (localisation_velo_buffer b) _ c3)
    as [c4 [[]|]] eqn:E4; cbn [and_then]; [|discriminate].
  apply (execute_values_returned_tables insert_localisation_velo N4 P4)
    in E4 as (W4 & _ & M4).
  unfold commit. destruct (refuses c4 (issued c4)); [discriminate|].
  intros [= <-]. cbn. rewrite W4, W3, W2, W1. repeat split. congruence.
Qed.

Lemma execute_values_next {R : Type} (apply : Tables -> list R -> Tables)
  (rows : list R) (c : Connection) :
  next_snapshot_id (fst (when_nonempty rows (execute_values apply rows) c))
  = next_snapshot_id c.
Proof.
  unfold when_nonempty, execute_values. destruct rows; [reflexivity|].
  now destruct (execute_pages_frame apply (paginate (r :: rows)) c)
    as (_ & _ & F).
Qed.

Lemma insert_batches_next (b : Buffers) (c : Connection) :
  next_snapshot_id (fst (insert_batches b c)) = next_snapshot_id c.
Proof.
  unfold insert_batches.
  apply (and_then_keeps
           (fun x => next_snapshot_id x = next_snapshot_id c));
    [apply execute_values_next|intros c1 H1].
  apply (and_then_keeps
           (fun x => next_snapshot_id x = next_snapshot_id c));
    [now rewrite execute_values_next|intros c2 H2].
  apply (and_then_keeps
           (fun x => next_snapshot_id x = next_snapshot_id c));
    [now rewrite execute_values_next|intros c3 H3].
  apply (and_then_keeps
           (fun x => next_snapshot_id x = next_snapshot_id c));
    [now rewrite execute_values_next|intros c4 H4].
  unfold commit. now destruct (refuses c4 (issued c4)).
Qed.

Lemma insert_snapshot_and_get_id_accepted (timestamp : datetime)
  (c : Connection) :
  refuses c (issued c) = false ->
  insert_snapshot_and_get_id c timestamp
  = (mk_conn (committed c)
       (snd (snapshot_ensured timestamp (working c) (next_snapshot_id c)))
       (next_snapshot_id c + 1) (S (issued c)) (refuses c),
     Some (fst (snapshot_ensured timestamp (working c)
                  (next_snapshot_id c)))).
Proof.
  intros A. unfold insert_snapshot_and_get_id, upsert_snapshot,
    snapshot_ensured. rewrite A. now destruct (find _ _).
Qed.

Lemma insert_snapshot_and_get_id_refused (timestamp : datetime)
  (c : Connection) :
  refuses c (issued c) = true ->
  insert_snapshot_and_get_id c timestamp = (rollback (tick c), None).
Proof.
  intros A. unfold insert_snapshot_and_get_id, upsert_snapshot.
  now rewrite A.
Qed.

(** The tables [process_file_content] can leave, whatever is refused:
    those it found committed, with the transaction rolled back; or those,
    with the snapshot row pending; or all the batches of the file,
    committed. *)
Lemma process_file_content_tables (filename : string) (content : text)
  (timestamp : datetime) (c : Connection) (errors : Errors) :
  (next_snapshot_id
     (fst (process_file_content filename content timestamp c errors))
   = next_snapshot_id c
   \/ next_snapshot_id
        (fst (process_file_content filename content timestamp c errors))
      = next_snapshot_id c + 1)
  /\ ((committed (fst (process_file_content filename content timestamp c
                         errors)) = committed c
       /\ working (fst (process_file_content filename content timestamp c
                          errors)) = committed c)
      \/ (committed (fst (process_file_content filename content timestamp c
                            errors)) = committed c
          /\ working (fst (process_file_content filename content timestamp
                             c errors))
             = snd (snapshot_ensured timestamp (working c)
                      (next_snapshot_id c))
          /\ next_snapshot_id
               (fst (process_file_content filename content timestamp c
                       errors))
             = next_snapshot_id c + 1)
      \/ (exists data b,
             extract (fst (snapshot_ensured timestamp (working c)
                             (next_snapshot_id c))) data = Some b
             /\ committed (fst (process_file_content filename content
                                  timestamp c errors))
                = with_batches b
                    (snd (snapshot_ensured timestamp (working c)
                            (next_snapshot_id c)))
             /\ working (fst (process_file_content filename content
                                timestamp c errors))
                = with_batches b
                    (snd (snapshot_ensured timestamp (working c)
                            (next_snapshot_id c)))
             /\ next_snapshot_id
                  (fst (process_file_content filename content timestamp c
                          errors))
                = next_snapshot_id c + 1)).
Proof.
  unfold process_file_content.
  destruct (refuses c (issued c)) eqn:A.
  { rewrite (insert_snapshot_and_get_id_refused timestamp c A). cbn. auto. }
  rewrite (insert_snapshot_and_get_id_accepted timestamp c A).
  set (se := snapshot_ensured timestamp (working c) (next_snapshot_id c)).
  unfold try_block.
  destruct (json_loads content) as [value|]; [|cbn; auto].
  destruct value as [| | | | |data|]; try (cbn; auto 6).
  destruct (extract (fst se) data) as [b|] eqn:X; [|cbn; auto].
  pose proof (insert_batches_next b
                (mk_conn (committed c) (snd se) (next_snapshot_id c + 1)
                         (S (issued c)) (refuses c))) as N.
  destruct (insert_batches b _) as [c2 [[]|]] eqn:B; cbn [fst] in *.
  - apply insert_batches_returned_tables in B as (C & W & _).
    cbn in C, W, N. split; [now right|]. right. right.
    exists data, b. auto.
  - apply insert_batches_raised in B. cbn in B, N.
    split; [now right|]. left. cbn. now rewrite B.
Qed.

(** X4.  Every call of [process_file_content] ends in one of three ways,
    told apart by the counters.  It counts nothing: then the snapshot
    statement was accepted, the content is a list whose extraction went
    through, and the commit has happened, the committed tables being
    those of the transaction it found, with the snapshot row and every
    batch of the file.  Or it counts one [snapshot_error], the snapshot
    statement having been refused, or one [generic_error]: then nothing
    was committed and the transaction is rolled back.  Or it counts one
    [invalid_format]: then the content decoded to a value that is not a
    list, nothing was committed, and the transaction is left open with
    the snapshot row in it. *)
Theorem process_file_content_outcomes (filename : string) (content : text)
  (timestamp : datetime) (cursor : Connection) (errors : Errors) :
  (snd (process_file_content filename content timestamp cursor errors)
   = errors
   /\ refuses cursor (issued cursor) = false
   /\ exists data b,
        json_loads content = Some (JList data)
        /\ extract (fst (snapshot_ensured timestamp (working cursor)
                           (next_snapshot_id cursor))) data = Some b
        /\ committed (fst (process_file_content filename content timestamp
                             cursor errors))
           = with_batches b
               (snd (snapshot_ensured timestamp (working cursor)
                       (next_snapshot_id cursor)))
        /\ working (fst (process_file_content filename content timestamp
                           cursor errors))
           = with_batches b
               (snd (snapshot_ensured timestamp (working cursor)
                       (next_snapshot_id cursor))))
  \/ (((snd (process_file_content filename content timestamp cursor errors)
        = count_snapshot_error errors
        /\ refuses cursor (issued cursor) = true)
       \/ (snd (process_file_content filename content timestamp cursor
                  errors)
           = count_generic_error errors
           /\ refuses cursor (issued cursor) = false))
      /\ committed (fst (process_file_content filename content timestamp
                           cursor errors)) = committed cursor
      /\ working (fst (process_file_content filename content timestamp
                         cursor errors)) = committed cursor)
  \/ (snd (process_file_content filename content timestamp cursor errors)
      = count_invalid_format errors
      /\ refuses cursor (issued cursor) = false
      /\ (exists value,
             json_loads content = Some value
             /\ forall data, value <> JList data)
      /\ committed (fst (process_file_content filename content timestamp
                           cursor errors)) = committed cursor
      /\ working (fst (process_file_content filename content timestamp
                         cursor errors))
         = snd (snapshot_ensured timestamp (working cursor)
                  (next_snapshot_id cursor))).
Proof.
  unfold process_file_content.
  destruct (refuses cursor (issued cursor)) eqn:A.
  { rewrite (insert_snapshot_and_get_id_refused timestamp cursor A).
    right. left. cbn. auto. }
  rewrite (insert_snapshot_and_get_id_accepted timestamp cursor A).
  set (se := snapshot_ensured timestamp (working cursor)
               (next_snapshot_id cursor)).
  unfold try_block.
  destruct (json_loads content) as [value|];
    [|right; left; cbn; auto].
  destruct value as [| | | | |data|];
    try (right; right; cbn;
         split; [reflexivity|];
         split; [reflexivity|];
         split; [eexists; split; [reflexivity|intros d; discriminate]|];
         split; reflexivity).
  destruct (extract (fst se) data) as [b|] eqn:X;
    [|right; left; cbn; auto].
  destruct (insert_batches b _) as [c2 [[]|]] eqn:B; cbn [fst snd].
  - apply insert_batches_returned_tables in B as (C & W & _).
    cbn in C, W. left. split; [reflexivity|]. split; [reflexivity|].
    exists data, b. auto.
  - apply insert_batches_raised in B. cbn in B.
    right. left. cbn. rewrite B. auto.
Qed.

Lemma json_eqb_sym : forall a b : json, json_eqb a b = json_eqb b a.
Proof.
  fix IH 1. intros [|x|x|x|x|l|kv] [|y|y|y|y|l'|kv']; cbn; try reflexivity.
  - now destruct x, y.
  - apply Z.eqb_sym.
  - destruct (Qeq_bool x y) eqn:E, (Qeq_bool y x) eqn:E'; try reflexivity.
    + apply Qeq_bool_iff, Qeq_sym, Qeq_bool_iff in E. congruence.
    + apply Qeq_bool_iff, Qeq_sym, Qeq_bool_iff in E'. congruence.
  - apply String.eqb_sym.
  - revert l l'. fix IHl 1. intros [|h t] [|h' t']; try reflexivity.
    rewrite (IH h h'), (IHl t t'). reflexivity.
  - revert kv kv'. fix IHl 1.
    intros [|[k v] t] [|[k' v'] t']; try reflexivity.
    rewrite (String.eqb_sym k k'), (IH v v'), (IHl t t'). reflexivity.
Qed.

Section KeysDistinct.

Context {R : Type} (same : R -> R -> bool).

Lemma keys_distinct_snoc (seen rows : list R) (r : R) :
  keys_distinct same seen (rows ++ [r])
  <-> keys_distinct same seen rows
      /\ existsb (same r) (seen ++ rows) = false.
Proof.
  revert seen. induction rows as [|x rows IH]; intros seen; cbn.
  - rewrite app_nil_r. tauto.
  - rewrite IH, <- app_assoc. cbn. tauto.
Qed.

Lemma insert_if_absent_distinct (rows table : list R) :
  keys_distinct same [] table ->
  keys_distinct same [] (insert_if_absent same table rows).
Proof.
  revert table. induction rows as [|r rows IH]; intros table H; cbn;
    [exact H|].
  apply IH. destruct (existsb (same r) table) eqn:E; [exact H|].
  apply keys_distinct_snoc. now split.
Qed.

Lemma keys_distinct_seen (seen rows : list R) :
  keys_distinct same seen rows ->
  forall x y, In x rows -> In y seen -> same x y = false.
Proof.
  revert seen. induction rows as [|r rows IH]; intros seen; cbn;
    [contradiction|].
  intros [Hr H] x y [<-|Hx] Hy.
  - destruct (same r y) eqn:E; [|reflexivity].
    assert (K : existsb (same r) seen = true)
      by (apply existsb_exists; eauto).
    congruence.
  - apply (IH _ H x y Hx). apply in_or_app. now left.
Qed.

(** With a symmetric comparison, rows at different places have different
    keys, whichever way they are compared. *)
Lemma keys_distinct_pairwise (seen rows : list R) :
  (forall a b, same a b = same b a) ->
  keys_distinct same seen rows ->
  ForallOrdPairs (fun a b => same a b = false /\ same b a = false) rows.
Proof.
  intros Hsym. revert seen. induction rows as [|r rows IH]; intros seen;
    cbn; [constructor|].
  intros [_ H]. constructor; [|exact (IH _ H)].
  apply Forall_forall. intros x Hx.
  assert (K : same x r = false).
  { apply (keys_distinct_seen _ _ H x r Hx). apply in_or_app. right.
    now left. }
  rewrite (Hsym r x). auto.
Qed.

End KeysDistinct.

Lemma NoDup_snoc {A : Type} (l : list A) (x : A) :
  NoDup l -> ~ In x l -> NoDup (l ++ [x]).
Proof.
  induction l as [|y l IH]; cbn; intros H Hx.
  - constructor; [tauto|constructor].
  - inversion H as [|? ? Hy Hl]; subst. constructor.
    + rewrite in_app_iff. cbn. intros [K|[K|[]]]; [tauto|].
      apply Hx. now left.
    + apply IH; [exact Hl|]. intros K. apply Hx. now right.
Qed.

Lemma well_formed_weaken (n m : Z) (t : Tables) :
  n <= m -> well_formed n t -> well_formed m t.
Proof.
  intros H (U & D & B & F). repeat split; try assumption; try apply U;
    try apply F.
  eapply Forall_impl; [|exact B]. cbn. intros; lia.
Qed.

Lemma refers_more (t t' : Tables) :
  incl (snapshot t) (snapshot t') -> incl (station t) (station t') ->
  incl (velo t) (velo t') ->
  etat_station t' = etat_station t ->
  localisation_velo t' = localisation_velo t ->
  refers t -> refers t'.
Proof.
  intros I1 I2 I3 E1 E2 [F1 F2]. unfold refers. rewrite E1, E2. split.
  - eapply Forall_impl; [|exact F1]. cbn.
    intros e [(r & Hr & Kr) (s & Hs & Ks)]. split; eauto.
  - eapply Forall_impl; [|exact F2]. cbn.
    intros l [(r & Hr & Kr) [(v & Hv & Kv) (s & Hs & Ks)]].
    repeat split; eauto.
Qed.

(** The snapshot statement keeps the tables well formed, and the
    identifier it answers is that of a snapshot row. *)
Lemma snapshot_ensured_well_formed (timestamp : datetime) (t : Tables)
  (n : Z) :
  well_formed n t ->
  well_formed (n + 1) (snd (snapshot_ensured timestamp t n))
  /\ exists r, In r (snapshot (snd (snapshot_ensured timestamp t n)))
               /\ snap_id r = fst (snapshot_ensured timestamp t n).
Proof.
  intros W. unfold snapshot_ensured.
  destruct (find (fun r => datetime_eqb (timestamp_capture r) timestamp)
                 (snapshot t)) as [r|] eqn:F; cbn [fst snd].
  - split; [apply (well_formed_weaken n); [lia|exact W]|].
    apply find_some in F as [Hin _]. eauto.
  - destruct W as ((U1 & U2 & U3 & U4 & U5) & D & B & Rf).
    split.
    + unfold well_formed. split; [|split; [|split]].
      * unfold unique_keys. cbn. repeat split; try assumption.
        rewrite map_app. apply NoDup_snoc; [exact U1|]. cbn.
        intros Hin. apply in_map_iff in Hin as (r & Hr & Hin).
        pose proof (find_none _ _ F r Hin) as K. cbn in K.
        rewrite <- Hr, datetime_eqb_refl in K. discriminate.
      * cbn. rewrite map_app. apply NoDup_snoc; [exact D|]. cbn.
        intros Hin. apply in_map_iff in Hin as (r & Hr & Hin).
        rewrite Forall_forall in B. specialize (B r Hin). lia.
      * cbn. apply Forall_app. split.
        -- eapply Forall_impl; [|exact B]. cbn. intros; lia.
        -- repeat constructor. cbn. lia.
      * apply (refers_more t); cbn; try reflexivity; try apply incl_refl;
          [apply incl_appl, incl_refl|exact Rf].
    + eexists. split; [apply in_or_app; right; now left|reflexivity].
Qed.

Lemma extract_paired (snapshot_id : Z) (data : list json) (b : Buffers) :
  extract snapshot_id data = Some b -> paired snapshot_id b.
Proof.
  unfold extract.
  apply (foldM_keeps (extract_station snapshot_id) (paired snapshot_id)
           (extract_station_paired snapshot_id)).
  repeat split; constructor.
Qed.

(** A key offered to [insert_if_absent] is the key of a row afterwards. *)
Lemma key_present {R : Type} (same : R -> R -> bool) (key : R -> json)
  (rows table : list R) (k : json) :
  (forall a b, same a b = json_eqb (key a) (key b)) ->
  In k (map key rows) ->
  exists r, In r (insert_if_absent same table rows)
            /\ json_eqb k (key r) = true.
Proof.
  intros Hs Hin. apply in_map_iff in Hin as (r0 & <- & Hin).
  destruct (insert_if_absent_covers same rows table r0 Hin)
    as (r & Hr & [->|K]).
  - exists r0. split; [exact Hr|apply json_eqb_refl].
  - exists r. split; [exact Hr|]. now rewrite <- Hs.
Qed.

Lemma insert_if_absent_incl {R : Type} (same : R -> R -> bool)
  (rows table : list R) :
  incl table (insert_if_absent same table rows).
Proof.
  destruct (insert_if_absent_extends same rows table) as (new & -> & _).
  apply incl_appl, incl_refl.
Qed.

(** The batches of a snapshot keep the tables well formed. *)
Lemma with_batches_well_formed (n snapshot_id : Z) (b : Buffers)
  (t : Tables) :
  well_formed n t ->
  paired snapshot_id b ->
  (exists r, In r (snapshot t) /\ snap_id r = snapshot_id) ->
  well_formed n (with_batches b t).
Proof.
  intros ((U1 & U2 & U3 & U4 & U5) & D & B & [F1 F2])
         (P1 & P2 & P3 & P4 & _ & _) (r0 & Hr0 & Kr0).
  unfold with_batches, well_formed, unique_keys, refers. cbn.
  repeat split; try assumption; try (now apply insert_if_absent_distinct).
  - destruct (insert_if_absent_extends same_etat (etat_station_buffer b)
                (etat_station t)) as (new & -> & Hnew).
    apply Forall_app. split.
    + eapply Forall_impl; [|exact F1]. cbn.
      intros e [Hs (s & Hin & Ks)]. split; [exact Hs|].
      exists s. split; [|exact Ks]. now apply insert_if_absent_incl.
    + apply Forall_forall. intros e He. destruct (Hnew e He) as [Hb _].
      rewrite Forall_forall in P3. split.
      * exists r0. split; [exact Hr0|]. now rewrite (P3 e Hb).
      * apply (key_present same_station st_code); [reflexivity|].
        rewrite P1. now apply in_map.
  - destruct (insert_if_absent_extends same_loc
                (localisation_velo_buffer b) (localisation_velo t))
      as (new & -> & Hnew).
    apply Forall_app. split.
    + eapply Forall_impl; [|exact F2]. cbn.
      intros l [Hs [(v & Hv & Kv) (s & Hin & Ks)]].
      split; [exact Hs|]. split.
      * exists v. split; [|exact Kv]. now apply insert_if_absent_incl.
      * exists s. split; [|exact Ks]. now apply insert_if_absent_incl.
    + apply Forall_forall. intros l Hl. destruct (Hnew l Hl) as [Hb _].
      rewrite Forall_forall in P4. destruct (P4 l Hb) as [Kid Kst].
      split; [|split].
      * exists r0. split; [exact Hr0|]. now rewrite Kid.
      * apply (key_present same_velo velo_name); [reflexivity|].
        rewrite P2. now apply in_map.
      * now apply (key_present same_station st_code).
Qed.

(** Both table sets of the connection are well formed. *)
Lemma process_file_content_well_formed (filename : string) (content : text)
  (timestamp : datetime) (c : Connection) (errors : Errors) :
  well_formed (next_snapshot_id c) (committed c)
  /\ well_formed (next_snapshot_id c) (working c) ->
  well_formed
    (next_snapshot_id
       (fst (process_file_content filename content timestamp c errors)))
    (committed
       (fst (process_file_content filename content timestamp c errors)))
  /\ well_formed
       (next_snapshot_id
          (fst (process_file_content filename content timestamp c errors)))
       (working
          (fst (process_file_content filename content timestamp c errors))).
Proof.
  intros [C W].
  destruct (process_file_content_tables filename content timestamp c errors)
    as [N K].
  destruct (snapshot_ensured_well_formed timestamp (working c)
              (next_snapshot_id c) W) as [S (r & Hr & Kr)].
  assert (C' : well_formed
                 (next_snapshot_id
                    (fst (process_file_content filename content timestamp
                            c errors))) (committed c)).
  { apply (well_formed_weaken (next_snapshot_id c)); [lia|exact C]. }
  destruct K as [[-> ->]|[(-> & -> & ->)|(data & b & X & -> & -> & ->)]].
  - now split.
  - split; [|exact S]. apply (well_formed_weaken (next_snapshot_id c));
      [lia|exact C].
  - assert (G : well_formed (next_snapshot_id c + 1)
                  (with_batches b
                     (snd (snapshot_ensured timestamp (working c)
                             (next_snapshot_id c))))).
    { apply (with_batches_well_formed _
               (fst (snapshot_ensured timestamp (working c)
                       (next_snapshot_id c)))); [exact S| |eauto].
      exact (extract_paired _ data b X). }
    now split.
Qed.

(** The loop touches the connection through [process_file_content]
    only. *)
Lemma process_one_keeps (P : Connection -> Prop) (data_folder : Folder)
  (env : Environment) (filename : string) (st : RunState) :
  (forall f content timestamp c e,
      P c -> P (fst (process_file_content f content timestamp c e))) ->
  P (cursor st) ->
  P (cursor (fst (process_one data_folder env filename st))).
Proof.
  intros HP Hc. unfold process_one.
  destruct (parse_timestamp_from_filename filename) as [timestamp|].
  - unfold file_try.
    destruct (read_file data_folder filename) as [content|]; [|exact Hc].
    pose proof (HP filename content timestamp (cursor st) (errors st) Hc)
      as K.
    destruct (process_file_content filename content timestamp (cursor st)
                                   (errors st)) as [c e].
    cbn [fst] in K.
    pose proof (mark_done_cursor filename
                  (mk_state c (progress st) e (pfile st) (saves st))) as M.
    destruct (mark_done filename _) as [st2 [[]|]]; cbn [fst cursor] in *.
    + pose proof (save_progress_cursor env st2) as S.
      destruct (save_progress env st2) as [st3 [[]|]];
        cbn [fst cursor bump_generic] in *; congruence.
    + cbn. congruence.
  - pose proof (mark_done_cursor filename (bump_generic st)) as M.
    destruct (mark_done filename (bump_generic st)) as [st1 [[]|]];
      cbn [fst cursor bump_generic] in *.
    + pose proof (save_progress_cursor env st1) as S. congruence.
    + congruence.
Qed.

Lemma process_all_keeps (P : Connection -> Prop) (data_folder : Folder)
  (env : Environment) (files : list string) (st : RunState) :
  (forall f content timestamp c e,
      P c -> P (fst (process_file_content f content timestamp c e))) ->
  P (cursor st) ->
  P (cursor (fst (process_all data_folder env files st))).
Proof.
  intros HP. revert st. induction files as [|f files IH]; intros st Hc; cbn;
    [exact Hc|].
  pose proof (process_one_keeps P data_folder env f st HP Hc) as K.
  destruct (process_one data_folder env f st) as [st1 [[]|]];
    cbn [fst] in *; [now apply IH|exact K].
Qed.

(** X17.  The pipeline keeps the store well formed by itself, whatever
    the files hold, whatever the database refuses and however the run
    ends: after the run as before it, no table holds two rows with the
    same key (one snapshot per timestamp, one station per code, one bike
    per name, one state row per snapshot and station, one location row
    per snapshot and bike), the snapshot identifiers are distinct and
    below the sequence, and every state or location row refers to a
    snapshot, a station and a bike that are stored. *)
Theorem import_keeps_well_formed (DATA_FOLDER data_folder : Folder)
  (env : Environment) (w : World) :
  well_formed (sequence w) (tables w) ->
  well_formed
    (sequence (fst (import_data_from_folder DATA_FOLDER data_folder env w)))
    (tables (fst (import_data_from_folder DATA_FOLDER data_folder env w))).
Proof.
  intros H. unfold import_data_from_folder.
  destruct (bind _ Dyn.set_of) as [done_files|]; [|exact H].
  match goal with
  | |- context [process_all data_folder env ?fs ?st] =>
      pose proof (process_all_keeps
                    (fun c => well_formed (next_snapshot_id c) (committed c)
                              /\ well_formed (next_snapshot_id c)
                                             (working c))
                    data_folder env fs st
                    process_file_content_well_formed
                    (conj H H)) as [K _];
        destruct (process_all data_folder env fs st) as [st' [[]|]]
  end; exact K.
Qed.

Lemma import_keeps_well_formed_witness :
  well_formed
    (sequence
       (fst (import_data_from_folder
               (Scenario.folder_of
                  [("velib_20240101_080000_paris.json",
                    Some (Encodes Scenario.first_snapshot));
                   ("velib_20240101_080500_paris.json",
                    Some (Encodes Scenario.second_snapshot))])
               (Scenario.folder_of
                  [("velib_20240101_080000_paris.json",
                    Some (Encodes Scenario.first_snapshot));
                   ("velib_20240101_080500_paris.json",
                    Some (Encodes Scenario.second_snapshot))])
               Scenario.calm Scenario.fresh_world)))
    (tables
       (fst (import_data_from_folder
               (Scenario.folder_of
                  [("velib_20240101_080000_paris.json",
                    Some (Encodes Scenario.first_snapshot));
                   ("velib_20240101_080500_paris.json",
                    Some (Encodes Scenario.second_snapshot))])
               (Scenario.folder_of
                  [("velib_20240101_080000_paris.json",
                    Some (Encodes Scenario.first_snapshot));
                   ("velib_20240101_080500_paris.json",
                    Some (Encodes Scenario.second_snapshot))])
               Scenario.calm Scenario.fresh_world))).
Proof.
  refine (import_keeps_well_formed
            (Scenario.folder_of
               [("velib_20240101_080000_paris.json",
                 Some (Encodes Scenario.first_snapshot));
                ("velib_20240101_080500_paris.json",
                 Some (Encodes Scenario.second_snapshot))])
            (Scenario.folder_of
               [("velib_20240101_080000_paris.json",
                 Some (Encodes Scenario.first_snapshot));
                ("velib_20240101_080500_paris.json",
                 Some (Encodes Scenario.second_snapshot))])
            Scenario.calm Scenario.fresh_world _).
  repeat split; cbn; constructor.
Defined.

(* ================================================================= *)
(** * Further properties: what is stored and what is found again *)

Lemma tables_extend_refl (t : Tables) : tables_extend t t.
Proof. repeat split; exists []; now rewrite app_nil_r. Qed.

Lemma tables_extend_trans (a b c : Tables) :
  tables_extend a b -> tables_extend b c -> tables_extend a c.
Proof.
  intros ([m1 E1] & [m2 E2] & [m3 E3] & [m4 E4] & [m5 E5])
         ([n1 F1] & [n2 F2] & [n3 F3] & [n4 F4] & [n5 F5]).
  repeat split; eexists.
  - rewrite F1, E1, <- app_assoc. reflexivity.
  - rewrite F2, E2, <- app_assoc. reflexivity.
  - rewrite F3, E3, <- app_assoc. reflexivity.
  - rewrite F4, E4, <- app_assoc. reflexivity.
  - rewrite F5, E5, <- app_assoc. reflexivity.
Qed.

Lemma snapshot_ensured_extends (timestamp : datetime) (t : Tables) (n : Z) :
  tables_extend t (snd (snapshot_ensured timestamp t n)).
Proof.
  unfold snapshot_ensured. destruct (find _ _); cbn [snd].
  - apply tables_extend_refl.
  - repeat split; cbn; try (exists []; now rewrite app_nil_r). eauto.
Qed.

Lemma with_batches_extends (b : Buffers) (t : Tables) :
  tables_extend t (with_batches b t).
Proof.
  unfold with_batches, tables_extend. cbn.
  destruct (insert_if_absent_extends same_station (station_buffer b)
              (station t)) as (m2 & -> & _).
  destruct (insert_if_absent_extends same_velo (velo_buffer b) (velo t))
    as (m3 & -> & _).
  destruct (insert_if_absent_extends same_etat (etat_station_buffer b)
              (etat_station t)) as (m4 & -> & _).
  destruct (insert_if_absent_extends same_loc (localisation_velo_buffer b)
              (localisation_velo t)) as (m5 & -> & _).
  repeat split; eauto. exists []. now rewrite app_nil_r.
Qed.

Lemma process_file_content_extends (t0 : Tables) (n0 : Z)
  (filename : string) (content : text) (timestamp : datetime)
  (c : Connection) (errors : Errors) :
  tables_extend t0 (committed c)
  /\ tables_extend (committed c) (working c)
  /\ n0 <= next_snapshot_id c ->
  tables_extend t0
    (committed (fst (process_file_content filename content timestamp c
                       errors)))
  /\ tables_extend
       (committed (fst (process_file_content filename content timestamp c
                          errors)))
       (working (fst (process_file_content filename content timestamp c
                        errors)))
  /\ n0 <= next_snapshot_id
             (fst (process_file_content filename content timestamp c
                     errors)).
Proof.
  intros (H0 & H1 & Hn).
  destruct (process_file_content_tables filename content timestamp c errors)
    as [N K].
  split; [|split; [|lia]].
  - destruct K as [[-> _]|[(-> & _)|(data & b & _ & -> & _)]];
      try exact H0.
    apply (tables_extend_trans _ _ _ H0).
    apply (tables_extend_trans _ _ _ H1).
    apply (tables_extend_trans _ _ _
             (snapshot_ensured_extends timestamp (working c)
                (next_snapshot_id c))).
    apply with_batches_extends.
  - destruct K as [[-> ->]|[(-> & -> & _)|(data & b & _ & -> & -> & _)]].
    + apply tables_extend_refl.
    + apply (tables_extend_trans _ _ _ H1).
      apply snapshot_ensured_extends.
    + apply tables_extend_refl.
Qed.

(** X19.  A run never deletes or changes a stored row and never takes
    the sequence back, whatever the files hold, whatever is refused and
    however the run ends: each table afterwards is the table before
    followed by the rows the run added. *)
Theorem import_only_adds_rows (DATA_FOLDER data_folder : Folder)
  (env : Environment) (w : World) :
  tables_extend (tables w)
    (tables (fst (import_data_from_folder DATA_FOLDER data_folder env w)))
  /\ sequence w
     <= sequence
          (fst (import_data_from_folder DATA_FOLDER data_folder env w)).
Proof.
  unfold import_data_from_folder.
  destruct (bind _ Dyn.set_of) as [done_files|];
    [|split; [apply tables_extend_refl|cbn; lia]].
  match goal with
  | |- context [process_all data_folder env ?fs ?st] =>
      pose proof (process_all_keeps
                    (fun c => tables_extend (tables w) (committed c)
                              /\ tables_extend (committed c) (working c)
                              /\ sequence w <= next_snapshot_id c)
                    data_folder env fs st
                    (process_file_content_extends (tables w) (sequence w))
                    (conj (tables_extend_refl _)
                          (conj (tables_extend_refl _) (Z.le_refl _))))
        as (K1 & _ & K2);
        destruct (process_all data_folder env fs st) as [st' [[]|]]
  end; split; assumption.
Qed.

Lemma datetime_eqb_sym (a b : datetime) :
  datetime_eqb a b = datetime_eqb b a.
Proof.
  destruct (datetime_eqb a b) eqn:E, (datetime_eqb b a) eqn:E';
    try reflexivity.
  - apply datetime_eqb_eq in E. subst. now rewrite datetime_eqb_refl in E'.
  - apply datetime_eqb_eq in E'. subst. now rewrite datetime_eqb_refl in E.
Qed.

Lemma existsb_stored (timestamp : datetime) (rows : list snapshot_row) :
  existsb (datetime_eqb timestamp) (map timestamp_capture rows)
  = match find (fun r => datetime_eqb (timestamp_capture r) timestamp)
               rows with
    | Some _ => true
    | None => false
    end.
Proof.
  induction rows as [|r rows IH]; cbn [existsb map find]; [reflexivity|].
  rewrite (datetime_eqb_sym timestamp (timestamp_capture r)).
  destruct (datetime_eqb (timestamp_capture r) timestamp);
    [reflexivity|exact IH].
Qed.

Lemma snapshot_ensured_found (timestamp : datetime) (t : Tables) (n : Z) :
  find (fun r => datetime_eqb (timestamp_capture r) timestamp)
       (snapshot (snd (snapshot_ensured timestamp t n))) <> None.
Proof.
  unfold snapshot_ensured.
  destruct (find _ (snapshot t)) as [r|] eqn:F; cbn [snd snapshot].
  - now rewrite F.
  - now rewrite (find_app_new _ (snapshot t) (mk_snapshot n timestamp) F
                   (datetime_eqb_refl timestamp)).
Qed.

(** X20.  What the import stores, the reconstruction finds again: once
    [process_file_content] has gone through for a file (a list of well
    shaped observations, nothing refused), the snapshot table holds the
    timestamp of the file's name, and [rebuild_progress_from_database]
    lists the file as done when the directory of [DATA_FOLDER] has it as
    a candidate. *)
Theorem stored_file_found_by_rebuild (DATA_FOLDER : Folder)
  (filename : string) (content : text) (timestamp : datetime)
  (c : Connection) (errors : Errors) (data : list json) :
  parse_timestamp_from_filename filename = Some timestamp ->
  accepts c ->
  json_loads content = Some (JList data) ->
  forallb observation_ok data = true ->
  In filename (listdir DATA_FOLDER) ->
  is_candidate filename = true ->
  Dyn.str_in filename
    (done_of (rebuild_progress_from_database DATA_FOLDER
                (stored_after filename content timestamp c errors)))
  = true.
Proof.
  intros Hp A Hj Hok Hin Hc.
  assert (S : stored (stored_after filename content timestamp c errors)
                     filename = true).
  { pose proof (process_file_content_when_accepted filename content
                  timestamp c errors A) as K.
    rewrite Hj in K.
    destruct (extract _ data) as [b|] eqn:X.
    2: { exfalso. revert X. unfold extract.
         exact (proj2 (extract_from_defined _ data empty_buffers) Hok). }
    destruct K as [K _]. unfold stored_after, stored. rewrite K, Hp.
    rewrite with_batches_snapshot, existsb_stored.
    pose proof (snapshot_ensured_found timestamp (working c)
                  (next_snapshot_id c)) as F.
    destruct (find _ _); [reflexivity|congruence]. }
  unfold rebuild_progress_from_database, done_of. cbn [Dyn.subscript].
  cbv beta zeta.
  unfold stored in S.
  match goal with
  | |- Dyn.str_in _ ?l = true =>
      change l with
        (map JStr
           (filter (fun f =>
                      match parse_timestamp_from_filename f with
                      | Some ts =>
                          existsb (datetime_eqb ts)
                            (map timestamp_capture
                               (snapshot (stored_after filename content
                                            timestamp c errors)))
                      | None => false
                      end)
                   (filter is_candidate (listdir DATA_FOLDER))))
  end.
  apply str_in_names. apply filter_In. split.
  - apply filter_In. now split.
  - exact S.
Qed.

Lemma stored_file_found_by_rebuild_witness :
  Dyn.str_in "velib_20240101_080000_paris.json"
    (done_of
       (rebuild_progress_from_database
          (Scenario.folder_of
             [("velib_20240101_080000_paris.json",
               Some (Encodes Scenario.first_snapshot))])
          (stored_after "velib_20240101_080000_paris.json"
             (Encodes Scenario.first_snapshot) Scenario.at_0800
             Scenario.accepting no_errors)))
  = true.
Proof.
  apply (stored_file_found_by_rebuild
           (Scenario.folder_of
              [("velib_20240101_080000_paris.json",
                Some (Encodes Scenario.first_snapshot))])
           "velib_20240101_080000_paris.json"
           (Encodes Scenario.first_snapshot) Scenario.at_0800
           Scenario.accepting no_errors
           [Scenario.observation "ok" 1
              [Scenario.bike (JStr "BIKE1") "free"]]).
  - vm_compute. reflexivity.
  - intros n. reflexivity.
  - reflexivity.
  - vm_compute. reflexivity.
  - cbn. left. reflexivity.
  - vm_compute. reflexivity.
Defined.

Lemma process_file_content_counted (filename : string) (content : text)
  (timestamp : datetime) (c : Connection) (errors : Errors) :
  snd (process_file_content filename content timestamp c errors) <> errors ->
  committed (fst (process_file_content filename content timestamp c errors))
  = committed c.
Proof.
  unfold process_file_content.
  pose proof (insert_snapshot_and_get_id_frame timestamp c) as [C1 _].
  destruct (insert_snapshot_and_get_id c timestamp) as [c1 [id|]];
    cbn [fst snd] in *; [|intros _; exact C1].
  unfold try_block.
  destruct (json_loads content) as [value|]; [|intros _; exact C1].
  destruct value as [| | | | |data|]; try (intros _; exact C1).
  destruct (extract id data) as [b|]; [|intros _; exact C1].
  destruct (insert_batches b c1) as [c2 [[]|]] eqn:B; cbn [fst snd].
  - intros H. now contradict H.
  - intros _. pose proof (insert_batches_raised b c1 c2 B) as K. cbn.
    now rewrite K, C1.
Qed.

(** X21.  A file that [process_file_content] turned down, whatever the
    counter that moved, is not found by [rebuild_progress_from_database]
    when its timestamp was not stored before: the reconstruction would
    hand the file to the loop again, where the progress file written by
    the loop lists it as done. *)
Theorem rejected_file_not_found_by_rebuild (DATA_FOLDER : Folder)
  (filename : string) (content : text) (timestamp : datetime)
  (c : Connection) (errors : Errors) :
  parse_timestamp_from_filename filename = Some timestamp ->
  unseen timestamp (committed c) ->
  snd (process_file_content filename content timestamp c errors) <> errors ->
  Dyn.str_in filename
    (done_of (rebuild_progress_from_database DATA_FOLDER
                (stored_after filename content timestamp c errors)))
  = false.
Proof.
  intros Hp U Hc.
  destruct (Dyn.str_in filename _) eqn:S; [exfalso|reflexivity].
  unfold rebuild_progress_from_database, done_of in S.
  cbn [Dyn.subscript] in S. cbv beta zeta in S.
  match type of S with
  | Dyn.str_in _ ?l = true =>
      change l with
        (map JStr
           (filter (fun f =>
                      match parse_timestamp_from_filename f with
                      | Some ts =>
                          existsb (datetime_eqb ts)
                            (map timestamp_capture
                               (snapshot (stored_after filename content
                                            timestamp c errors)))
                      | None => false
                      end)
                   (filter is_candidate (listdir DATA_FOLDER)))) in S
  end.
  apply str_in_names in S. apply filter_In in S as [_ S].
  rewrite Hp in S. unfold stored_after in S.
  rewrite (process_file_content_counted filename content timestamp c errors
             Hc), existsb_stored in S.
  unfold unseen in U. rewrite U in S. discriminate.
Qed.

Lemma rejected_file_not_found_by_rebuild_witness :
  Dyn.str_in "velib_20240101_080000_paris.json"
    (done_of
       (rebuild_progress_from_database
          (Scenario.folder_of
             [("velib_20240101_080000_paris.json", Some Garbled)])
          (stored_after "velib_20240101_080000_paris.json" Garbled
             Scenario.at_0800 Scenario.accepting no_errors)))
  = false.
Proof.
  apply (rejected_file_not_found_by_rebuild
           (Scenario.folder_of
              [("velib_20240101_080000_paris.json", Some Garbled)])
           "velib_20240101_080000_paris.json" Garbled Scenario.at_0800
           Scenario.accepting no_errors).
  - vm_compute. reflexivity.
  - reflexivity.
  - vm_compute. intros H. discriminate H.
Defined.
